(** * Simplify AI (Veo front-end): generation lifecycle and history cache

    A shallow embedding of [src/index.tsx].  The page is a single module of
    mutable variables, DOM elements and asynchronous handlers that call the
    Gemini SDK.  The embedding keeps that shape:

    - the module-level [let] variables are the record [Vars];
    - the DOM elements the handlers touch are the enumeration [Elem]; their
      string-valued and boolean properties are two total stores in [Dom];
    - [localStorage] is the record [Storage], one slot per well-known key
      ([JSON.stringify]/[JSON.parse] of the history array are taken to be
      inverse to each other);
    - everything outside the page (the remote service, timer lateness,
      [JSON.parse] of a model answer) is an oracle [Remote], indexed by the
      number of requests issued so far; every request is appended to the
      log [requests];
    - [Date.now()] is the logical clock [now], in milliseconds;
    - synchronous [void] functions are state transformers [World -> World];
      [async] functions live in the monad [M], which threads the world and
      carries JavaScript exceptions.

    Strings are byte strings: [toLowerCase] and [trim] act on the ASCII
    range.  A thrown value is represented by what the classifier can observe
    of it: its [JSON.stringify] text and the number at [error.error.code]. *)

From Stdlib Require Import ZArith Lia Bool Ascii String List DecimalString.
From stdpp Require Import base tactics option list strings.

Local Open Scope string_scope.

(* ================================================================== *)
(** ** JavaScript string primitives *)

Module Js.

Definition lower_char (c : ascii) : ascii :=
  let n := nat_of_ascii c in
  if (65 <=? n)%nat && (n <=? 90)%nat then ascii_of_nat (n + 32) else c.

(** [s.toLowerCase()] *)
Fixpoint toLowerCase (s : string) : string :=
  match s with
  | EmptyString => EmptyString
  | String c r => String (lower_char c) (toLowerCase r)
  end.

(** [s.includes(needle)] *)
Fixpoint includes (s needle : string) : bool :=
  String.prefix needle s ||
  match s with
  | EmptyString => false
  | String _ r => includes r needle
  end.

(** White space removed by [trim]: TAB, LF, VT, FF, CR and SPACE. *)
Definition is_space (c : ascii) : bool :=
  let n := nat_of_ascii c in
  (n =? 32)%nat || ((9 <=? n)%nat && (n <=? 13)%nat).

Fixpoint trimStart (s : string) : string :=
  match s with
  | EmptyString => EmptyString
  | String c r => if is_space c then trimStart r else s
  end.

Definition trimEnd (s : string) : string :=
  String.rev (trimStart (String.rev s)).

(** [s.trim()] *)
Definition trim (s : string) : string := trimEnd (trimStart s).

(** The double-quote character of a template literal. *)
Definition dquote : string := String (ascii_of_nat 34) EmptyString.

(** [`${n}`] for an integer [n]. *)
Definition of_number (n : Z) : string := NilZero.string_of_int (Z.to_int n).

(** A value in a boolean position: the empty string is falsy. *)
Definition truthy (s : string) : bool := negb (String.length s =? 0)%nat.

End Js.

(* ================================================================== *)
(** ** Data model *)

Inductive ItemType := image | video.

(** [type HistoryItem] *)
Record HistoryItem := {
  id : string;
  type : ItemType;
  dataUrl : string;
  prompt : string
}.

(** [uploadedImage: { data: string; mimeType: string; } | null] *)
Record UploadedImage := {
  data : string;
  mimeType : string
}.

(** A thrown value, as far as [analyzeApiError] looks at it. *)
Record JsError := {
  stringified : string;        (* JSON.stringify(error) *)
  error_code : option Z        (* error?.error?.code, when it is a number *)
}.

(** [new Error(msg)] and the run-time's [TypeError]: [message] is not an
    enumerable property, so such an object stringifies to an empty object. *)
Definition new_Error (message : string) : JsError :=
  {| stringified := "{}"; error_code := None |}.

Definition TypeError : JsError := new_Error "TypeError".

Inductive ErrorType := VIDEO_DAILY_LIMIT | HIGH_DEMAND | GENERAL_QUOTA | OTHER.

Definition ErrorType_eqb (a b : ErrorType) : bool :=
  match a, b with
  | VIDEO_DAILY_LIMIT, VIDEO_DAILY_LIMIT
  | HIGH_DEMAND, HIGH_DEMAND
  | GENERAL_QUOTA, GENERAL_QUOTA
  | OTHER, OTHER => true
  | _, _ => false
  end.

Definition code_is (error : JsError) (n : Z) : bool :=
  match error_code error with
  | Some c => (c =? n)%Z
  | None => false
  end.

(** [function analyzeApiError(error: any)] *)
Definition analyzeApiError (error : JsError) : ErrorType :=
  let errorString := Js.toLowerCase (stringified error) in
  if Js.includes errorString "limited free generations per day" then
    VIDEO_DAILY_LIMIT
  else if Js.includes errorString "quota"
          || Js.includes errorString "resource_exhausted"
          || code_is error 429 then
    GENERAL_QUOTA
  else if Js.includes errorString "high demand"
          || Js.includes errorString "at capacity" then
    HIGH_DEMAND
  else
    OTHER.

(** [new GoogleGenAI({ apiKey })] *)
Record Client := { client_apiKey : string }.

(** The module-level variables. *)
Record Vars := {
  isGenerating : bool;
  isVideoDailyLimitReached : bool;
  countdownInterval : option nat;
  uploadedImage : option UploadedImage;
  history : list HistoryItem;
  apiKey : option string;
  examplePrompts : list string;
  isGeneratingNewPrompts : bool;
  ai : option Client
}.

(** The variables as the module declares them. *)
Definition initial_vars : Vars := {|
  isGenerating := false;
  isVideoDailyLimitReached := false;
  countdownInterval := None;
  uploadedImage := None;
  history := [];
  apiKey := None;
  examplePrompts :=
    [ "A cinematic shot of a an astronaut riding a horse on Mars";
      "A delicious-looking cheeseburger in the style of a claymation";
      "A high-fashion model wearing a dress made of liquid chrome";
      "A logo for a coffee shop called " +:+ Js.dquote +:+ "The Starry Bean"
        +:+ Js.dquote;
      "A photorealistic image of a cat wearing a tiny wizard hat" ];
  isGeneratingNewPrompts := false;
  ai := None
|}.

(** *** The DOM *)

Inductive Elem :=
  | promptInput | generateButton | refreshButton | statusEl
  | examplePromptsList | uploadButton | imagePreviewContainer | imagePreview
  | imageModeRadio | videoModeRadio
  | outputPlaceholder | imageOutput | videoPlayer | downloadButton
  | queueStatusContainer | queueTitle | queueDesc | queueCountdown
  | apiKeyModalOverlay | apiKeyInput | saveApiKeyButton.

(** String-valued properties ([display] is [style.display]). *)
Inductive Attr :=
  | textContent | value | placeholder | display | src | href | download.

(** Boolean properties; [class c] is [classList.contains(c)]. *)
Inductive Flag :=
  | disabled | checked | class_visible | class_disabled | class_loading.

Scheme Equality for Elem.
Scheme Equality for Attr.
Scheme Equality for Flag.

Record Dom := {
  attr : Elem -> Attr -> string;
  flag : Elem -> Flag -> bool;
  historyGrid : list HistoryItem;        (* the cards of #history-grid *)
  examplePromptItems : list string       (* the items of #example-prompts-list *)
}.

(** *** Local storage *)

Record Storage := {
  stored_apiKey : option string;                (* key 'gemini-api-key' *)
  stored_history : option (list HistoryItem)    (* key 'ai-veo-history' *)
}.

(** *** The remote service *)

Inductive Contents :=
  | Text (text : string)
  | Parts (text : string) (inlineData : UploadedImage).

(** [GenerateVideosOperation], as far as the page reads it. *)
Record Operation := {
  done : bool;
  op_error : option JsError;     (* operation.error *)
  videoUri : option string       (* response?.generatedVideos?.[0]?.video?.uri *)
}.

Record Blob := {
  objectURL : string;            (* URL.createObjectURL(blob) *)
  asDataURL : string             (* FileReader.readAsDataURL(blob) *)
}.

Inductive Request :=
  | generateContent (c : Client) (model : string) (contents : Contents)
      (jsonSchema : bool)
  | generateImages (c : Client) (model prompt : string)
      (numberOfImages : nat) (outputMimeType aspectRatio : string)
  | generateVideos (c : Client) (model prompt : string)
      (numberOfVideos : nat) (image : option UploadedImage)
  | getVideosOperation (c : Client) (operation : Operation)
  | fetch (url : string).

(** How an awaited promise settles. *)
Inductive Settled (A : Type) :=
  | Fulfilled (a : A)
  | Rejected (e : JsError).
Arguments Fulfilled {A} a.
Arguments Rejected {A} e.

(** The environment.  The index is the number of requests issued before
    the one being answered. *)
Record Remote := {
  content_reply : nat -> Settled string;          (* response.text *)
  images_reply : nat -> Settled (list string);    (* imageBytes of generatedImages *)
  videos_reply : nat -> Settled Operation;
  poll_reply : nat -> Settled Operation;
  fetch_reply : nat -> Settled Blob;
  latency : nat -> N;        (* ms that pass while the request is awaited *)
  timer_lag : nat -> N;      (* ms by which a timer fires late *)
  parse_prompts : string -> Settled (list string) (* JSON.parse(text).prompts *)
}.

(** *** The world *)

Record World := {
  vars : Vars;
  dom : Dom;
  localStorage : Storage;
  requests : list Request;
  now : Z;                   (* Date.now() *)
  timers : nat               (* handles given out by setInterval *)
}.

(* ================================================================== *)
(** ** Assignments *)

(** An assignment changes one component of the world and copies the
    others.  It is written in layers: the record that holds the target
    ([assign_] a variable, [write_] a property, [put_] a stored item), then
    the world ([set_], [store_]). *)

Definition upd_attr (e : Elem) (a : Attr) (v : string)
    (f : Elem -> Attr -> string) : Elem -> Attr -> string :=
  fun e' a' => if Elem_beq e e' && Attr_beq a a' then v else f e' a'.

Definition upd_flag (e : Elem) (p : Flag) (v : bool)
    (f : Elem -> Flag -> bool) : Elem -> Flag -> bool :=
  fun e' p' => if Elem_beq e e' && Flag_beq p p' then v else f e' p'.

Definition with_vars (f : Vars -> Vars) (w : World) : World :=
  {| vars := f (vars w); dom := dom w; localStorage := localStorage w;
     requests := requests w; now := now w; timers := timers w |}.

Definition with_dom (f : Dom -> Dom) (w : World) : World :=
  {| vars := vars w; dom := f (dom w); localStorage := localStorage w;
     requests := requests w; now := now w; timers := timers w |}.

Definition with_localStorage (f : Storage -> Storage) (w : World) : World :=
  {| vars := vars w; dom := dom w; localStorage := f (localStorage w);
     requests := requests w; now := now w; timers := timers w |}.

Definition write_attr (e : Elem) (a : Attr) (v : string) (d : Dom) : Dom :=
  {| attr := upd_attr e a v (attr d); flag := flag d;
     historyGrid := historyGrid d;
     examplePromptItems := examplePromptItems d |}.

Definition write_flag (e : Elem) (p : Flag) (v : bool) (d : Dom) : Dom :=
  {| attr := attr d; flag := upd_flag e p v (flag d);
     historyGrid := historyGrid d;
     examplePromptItems := examplePromptItems d |}.

Definition write_historyGrid (l : list HistoryItem) (d : Dom) : Dom :=
  {| attr := attr d; flag := flag d; historyGrid := l;
     examplePromptItems := examplePromptItems d |}.

Definition write_examplePromptItems (l : list string) (d : Dom) : Dom :=
  {| attr := attr d; flag := flag d; historyGrid := historyGrid d;
     examplePromptItems := l |}.

(** [e.a = v] for a string property. *)
Definition set_attr (e : Elem) (a : Attr) (v : string) : World -> World :=
  with_dom (write_attr e a v).

(** [e.p = v] for a boolean property; [classList.toggle(c, v)]. *)
Definition set_flag (e : Elem) (p : Flag) (v : bool) : World -> World :=
  with_dom (write_flag e p v).

Definition set_historyGrid (l : list HistoryItem) : World -> World :=
  with_dom (write_historyGrid l).

Definition set_examplePromptItems (l : list string) : World -> World :=
  with_dom (write_examplePromptItems l).

Definition assign_isGenerating (b : bool) (v : Vars) : Vars :=
  {| isGenerating := b;
     isVideoDailyLimitReached := isVideoDailyLimitReached v;
     countdownInterval := countdownInterval v;
     uploadedImage := uploadedImage v; history := history v;
     apiKey := apiKey v; examplePrompts := examplePrompts v;
     isGeneratingNewPrompts := isGeneratingNewPrompts v; ai := ai v |}.

Definition assign_isVideoDailyLimitReached (b : bool) (v : Vars) : Vars :=
  {| isGenerating := isGenerating v; isVideoDailyLimitReached := b;
     countdownInterval := countdownInterval v;
     uploadedImage := uploadedImage v; history := history v;
     apiKey := apiKey v; examplePrompts := examplePrompts v;
     isGeneratingNewPrompts := isGeneratingNewPrompts v; ai := ai v |}.

Definition assign_countdownInterval (c : option nat) (v : Vars) : Vars :=
  {| isGenerating := isGenerating v;
     isVideoDailyLimitReached := isVideoDailyLimitReached v;
     countdownInterval := c; uploadedImage := uploadedImage v;
     history := history v; apiKey := apiKey v;
     examplePrompts := examplePrompts v;
     isGeneratingNewPrompts := isGeneratingNewPrompts v; ai := ai v |}.

Definition assign_uploadedImage (u : option UploadedImage) (v : Vars) : Vars :=
  {| isGenerating := isGenerating v;
     isVideoDailyLimitReached := isVideoDailyLimitReached v;
     countdownInterval := countdownInterval v; uploadedImage := u;
     history := history v; apiKey := apiKey v;
     examplePrompts := examplePrompts v;
     isGeneratingNewPrompts := isGeneratingNewPrompts v; ai := ai v |}.

Definition assign_history (h : list HistoryItem) (v : Vars) : Vars :=
  {| isGenerating := isGenerating v;
     isVideoDailyLimitReached := isVideoDailyLimitReached v;
     countdownInterval := countdownInterval v;
     uploadedImage := uploadedImage v; history := h; apiKey := apiKey v;
     examplePrompts := examplePrompts v;
     isGeneratingNewPrompts := isGeneratingNewPrompts v; ai := ai v |}.

Definition assign_apiKey (k : option string) (v : Vars) : Vars :=
  {| isGenerating := isGenerating v;
     isVideoDailyLimitReached := isVideoDailyLimitReached v;
     countdownInterval := countdownInterval v;
     uploadedImage := uploadedImage v; history := history v; apiKey := k;
     examplePrompts := examplePrompts v;
     isGeneratingNewPrompts := isGeneratingNewPrompts v; ai := ai v |}.

Definition assign_examplePrompts (l : list string) (v : Vars) : Vars :=
  {| isGenerating := isGenerating v;
     isVideoDailyLimitReached := isVideoDailyLimitReached v;
     countdownInterval := countdownInterval v;
     uploadedImage := uploadedImage v; history := history v;
     apiKey := apiKey v; examplePrompts := l;
     isGeneratingNewPrompts := isGeneratingNewPrompts v; ai := ai v |}.

Definition assign_isGeneratingNewPrompts (b : bool) (v : Vars) : Vars :=
  {| isGenerating := isGenerating v;
     isVideoDailyLimitReached := isVideoDailyLimitReached v;
     countdownInterval := countdownInterval v;
     uploadedImage := uploadedImage v; history := history v;
     apiKey := apiKey v; examplePrompts := examplePrompts v;
     isGeneratingNewPrompts := b; ai := ai v |}.

Definition assign_ai (c : option Client) (v : Vars) : Vars :=
  {| isGenerating := isGenerating v;
     isVideoDailyLimitReached := isVideoDailyLimitReached v;
     countdownInterval := countdownInterval v;
     uploadedImage := uploadedImage v; history := history v;
     apiKey := apiKey v; examplePrompts := examplePrompts v;
     isGeneratingNewPrompts := isGeneratingNewPrompts v; ai := c |}.

Definition set_isGenerating (b : bool) : World -> World :=
  with_vars (assign_isGenerating b).

Definition set_isVideoDailyLimitReached (b : bool) : World -> World :=
  with_vars (assign_isVideoDailyLimitReached b).

Definition set_countdownInterval (c : option nat) : World -> World :=
  with_vars (assign_countdownInterval c).

Definition set_uploadedImage (u : option UploadedImage) : World -> World :=
  with_vars (assign_uploadedImage u).

Definition set_history (h : list HistoryItem) : World -> World :=
  with_vars (assign_history h).

Definition set_apiKey (k : option string) : World -> World :=
  with_vars (assign_apiKey k).

Definition set_examplePrompts (l : list string) : World -> World :=
  with_vars (assign_examplePrompts l).

Definition set_isGeneratingNewPrompts (b : bool) : World -> World :=
  with_vars (assign_isGeneratingNewPrompts b).

Definition set_ai (c : option Client) : World -> World :=
  with_vars (assign_ai c).

Definition put_apiKey (k : option string) (s : Storage) : Storage :=
  {| stored_apiKey := k; stored_history := stored_history s |}.

Definition put_history (h : list HistoryItem) (s : Storage) : Storage :=
  {| stored_apiKey := stored_apiKey s; stored_history := Some h |}.

(** [localStorage.setItem(API_KEY_STORAGE_KEY, k)] and [removeItem]. *)
Definition store_apiKey (k : option string) : World -> World :=
  with_localStorage (put_apiKey k).

(** [localStorage.setItem(HISTORY_KEY, JSON.stringify(h))] *)
Definition store_history (h : list HistoryItem) : World -> World :=
  with_localStorage (put_history h).

(** The clock moves on by [ms] milliseconds. *)
Definition elapse (ms : Z) (w : World) : World :=
  {| vars := vars w; dom := dom w; localStorage := localStorage w;
     requests := requests w; now := (now w + ms)%Z; timers := timers w |}.

(** A request leaves the page. *)
Definition send (r : Request) (w : World) : World :=
  {| vars := vars w; dom := dom w; localStorage := localStorage w;
     requests := requests w ++ [r]; now := now w; timers := timers w |}.

(** [setInterval(...)]: one more timer handle. *)
Definition new_timer (w : World) : World :=
  {| vars := vars w; dom := dom w; localStorage := localStorage w;
     requests := requests w; now := now w; timers := S (timers w) |}.

(** Shorthands for reading the page. *)
Definition status (w : World) : string := attr (dom w) statusEl textContent.
Definition promptIsEmpty (w : World) : bool :=
  (String.length (Js.trim (attr (dom w) promptInput value)) =? 0)%nat.
Definition videoMode (w : World) : bool := flag (dom w) videoModeRadio checked.
Definition has_ai (w : World) : bool :=
  match ai (vars w) with Some _ => true | None => false end.

(* ================================================================== *)
(** ** Synchronous functions *)

(** [function setStatus(text: string)] *)
Definition setStatus (text : string) : World -> World :=
  set_attr statusEl textContent text.

Definition API_KEY_INVALID : string :=
  "API Key is invalid or has insufficient quota. Please try again.".
Definition DAILY_VIDEO_LIMIT_REACHED : string :=
  "Daily video limit reached. Try again tomorrow.".

(** [function updateUIState()] *)
Definition updateUIState (w0 : World) : World :=
  let busy := isGenerating (vars w0) in
  let w := set_flag generateButton disabled (busy || promptIsEmpty w0) w0 in
  let w := set_flag imageModeRadio disabled busy w in
  let w := set_flag videoModeRadio disabled busy w in
  let w := set_flag uploadButton disabled busy w in
  let w := set_flag examplePromptsList class_disabled busy w in
  let w := set_flag promptInput disabled busy w in
  let w := set_flag refreshButton disabled
             (busy || isGeneratingNewPrompts (vars w0)) w in
  let w :=
    if busy && has_ai w0 then
      set_flag generateButton disabled true
        (set_attr generateButton textContent "Generating..." w)
    else if negb (has_ai w0) then
      set_attr generateButton textContent "Setup Required" w
    else
      let w := set_attr generateButton textContent "Generate" w in
      if videoMode w0 && isVideoDailyLimitReached (vars w0) then
        setStatus DAILY_VIDEO_LIMIT_REACHED
          (set_flag generateButton disabled true w)
      else w in
  match uploadedImage (vars w0) with
  | Some _ =>
      set_attr promptInput placeholder
        (if videoMode w0
         then "Describe how you want to animate this image..."
         else "Describe how to use this image as inspiration...") w
  | None =>
      set_attr promptInput placeholder "Describe your vision in detail..." w
  end.

(** [function resetUI()] *)
Definition resetUI (w : World) : World :=
  let w := set_isGenerating false w in
  let w := set_attr queueStatusContainer display "none" w in
  let w :=
    match countdownInterval (vars w) with
    | Some _ => set_countdownInterval None w      (* clearInterval *)
    | None => w
    end in
  updateUIState w.

(** [function handleModeChange()] *)
Definition handleModeChange : World -> World := updateUIState.

(** [M:SS] as [startCountdown] formats it. *)
Definition format_remaining (remaining : Z) : string :=
  let secs := Js.of_number (remaining mod 60) in
  "Time remaining: ~" +:+ Js.of_number (remaining / 60) +:+ ":"
    +:+ (if (String.length secs <? 2)%nat then "0" +:+ secs else secs).

(** [function startCountdown(seconds: number)]: the synchronous part; the
    ticks of the interval only rewrite [queueCountdown]. *)
Definition startCountdown (seconds : Z) (w : World) : World :=
  let w := set_attr outputPlaceholder display "none" w in
  let w := set_attr queueStatusContainer display "flex" w in
  let w :=
    if videoMode w then
      set_attr queueDesc textContent
        "This process can take up to a minute. Please wait while we bring your idea to life."
        (set_attr queueTitle textContent "Creating Video..." w)
    else
      set_attr queueDesc textContent "This should only take a moment."
        (set_attr queueTitle textContent "Creating Your Vision..." w) in
  let w := set_attr queueCountdown textContent (format_remaining seconds) w in
  set_countdownInterval (Some (S (timers w))) (new_timer w).

(** [function populateExamplePrompts()]: one item per prompt. *)
Definition populateExamplePrompts (w : World) : World :=
  set_examplePromptItems (examplePrompts (vars w)) w.

(** *** History *)

(** [function renderHistory()]: one card per entry (none: the notice). *)
Definition renderHistory (w : World) : World :=
  set_historyGrid (history (vars w)) w.

(** [function loadHistory()] *)
Definition loadHistory (w : World) : World :=
  let w :=
    match stored_history (localStorage w) with
    | Some savedHistory => set_history savedHistory w
    | None => w
    end in
  renderHistory w.

(** [function saveHistory()] *)
Definition saveHistory (w : World) : World :=
  store_history (history (vars w)) w.

(** [history.unshift(newItem); if (history.length > 20) history.pop();] *)
Definition unshift_capped (newItem : HistoryItem) (h : list HistoryItem)
    : list HistoryItem :=
  let h := newItem :: h in
  if (20 <? length h)%nat then removelast h else h.

(** [function addToHistory(type, dataUrl, prompt)] *)
Definition addToHistory (type : ItemType) (dataUrl prompt : string)
    (w : World) : World :=
  let newItem :=
    {| id := "history-" +:+ Js.of_number (now w);
       type := type; dataUrl := dataUrl; prompt := prompt |} in
  let w := set_history (unshift_capped newItem (history (vars w))) w in
  let w := saveHistory w in
  renderHistory w.

(* ================================================================== *)
(** ** Asynchronous functions *)

(** How a computation ends: normally, by an exception, or (for the bounded
    model of a loop only) by running out of fuel. *)
Inductive Outcome (A : Type) :=
  | Normal (a : A)
  | Throw (e : JsError)
  | OutOfFuel.
Arguments Normal {A} a.
Arguments Throw {A} e.
Arguments OutOfFuel {A}.

Definition M (A : Type) : Type := World -> Outcome A * World.

Definition ret {A} (a : A) : M A := fun w => (Normal a, w).

Definition bind {A B} (m : M A) (k : A -> M B) : M B :=
  fun w =>
    match m w with
    | (Normal a, w') => k a w'
    | (Throw e, w') => (Throw e, w')
    | (OutOfFuel, w') => (OutOfFuel, w')
    end.

(** [throw e] *)
Definition throw {A} (e : JsError) : M A := fun w => (Throw e, w).

(** [try { m } catch (e) { h e }] *)
Definition try_catch {A} (m : M A) (h : JsError -> M A) : M A :=
  fun w =>
    match m w with
    | (Throw e, w') => h e w'
    | r => r
    end.

(** [try { m } finally { f }], for an [f] that cannot throw. *)
Definition try_finally {A} (m : M A) (f : World -> World) : M A :=
  fun w => let (r, w') := m w in (r, f w').

(** Read the world; run a synchronous function. *)
Definition gets {A} (f : World -> A) : M A := fun w => (Normal (f w), w).
Definition exec (f : World -> World) : M unit := fun w => (Normal tt, f w).

Declare Scope js_scope.
Delimit Scope js_scope with js.
Notation "x <- m ;; k" := (bind m (fun x => k))
  (at level 20, m at level 99, k at level 200, only parsing) : js_scope.
Notation "m ;; k" := (bind m (fun _ => k))
  (at level 100, k at level 200, right associativity, only parsing)
  : js_scope.
Local Open Scope js_scope.

Definition TIMEOUT_MS : Z := 60000.
Definition POLL_INTERVAL_MS : Z := 10000.

(** Iterations that the polling loop can need: each one lasts at least
    [POLL_INTERVAL_MS] and none starts after [TIMEOUT_MS]. *)
Definition poll_fuel : nat := 6.

Definition GENERATION_FAILED : string :=
  "An unexpected error occurred. Please try again.".
Definition VIDEO_DAILY_LIMIT_MESSAGE : string :=
  "You have reached the daily limit for free video generations. Please try again tomorrow.".
Definition HIGH_DEMAND_MESSAGE : string :=
  "The service is currently under high demand. Please try again in a few moments.".
Definition GENERAL_QUOTA_MESSAGE : string :=
  "You've exceeded your API usage quota. Please wait and try again later, or check your Google AI Studio plan and billing details.".
Definition VIDEO_TIMED_OUT : string :=
  "Video generation timed out after 60 seconds. The model may be under high demand or the request is complex. Please try again later.".

Section Page.

Variable env : Remote.

(** [await] of a request: it is logged, time passes, and the promise
    settles as the environment says. *)
Definition await {A} (reply : Remote -> nat -> Settled A) (r : Request)
    : M A :=
  fun w =>
    let n := length (requests w) in
    let w' := elapse (Z.of_N (latency env n)) (send r w) in
    match reply env n with
    | Fulfilled a => (Normal a, w')
    | Rejected e => (Throw e, w')
    end.

(** [await new Promise(resolve => setTimeout(resolve, ms))] *)
Definition sleep (ms : Z) : M unit :=
  fun w =>
    (Normal tt,
     elapse (ms + Z.of_N (timer_lag env (length (requests w)))) w).

(** The value of [ai] in [ai.models...]; a [TypeError] when undefined. *)
Definition the_ai : M Client :=
  fun w =>
    match ai (vars w) with
    | Some c => (Normal c, w)
    | None => (Throw TypeError, w)
    end.

(** [async function initializeAppWithKey(key: string)] *)
Definition initializeAppWithKey (key : string) : M unit :=
  exec (set_apiKey (Some key)) ;;
  let tempAi := {| client_apiKey := key |} in
  try_catch
    (_ <- await content_reply
            (generateContent tempAi "gemini-2.5-flash" (Text "test") false) ;;
     exec (set_ai (Some tempAi)) ;;
     exec (store_apiKey (Some key)) ;;
     exec (set_isGenerating false) ;;
     exec populateExamplePrompts ;;
     exec handleModeChange ;;
     exec updateUIState ;;
     exec (set_flag apiKeyModalOverlay class_visible false) ;;
     exec (setStatus ""))
    (fun e =>
     exec (setStatus API_KEY_INVALID) ;;
     exec (set_isGenerating true) ;;
     exec updateUIState ;;
     exec (store_apiKey None) ;;
     exec (set_apiKey None) ;;
     exec (set_attr apiKeyInput value "") ;;
     exec (set_flag apiKeyModalOverlay class_visible true)).

(** [async function handleSaveApiKey()] ([alert] leaves no trace). *)
Definition handleSaveApiKey : M unit :=
  key <- gets (fun w => Js.trim (attr (dom w) apiKeyInput value)) ;;
  if negb (Js.truthy key) then ret tt
  else
    exec (set_flag saveApiKeyButton disabled true) ;;
    exec (set_attr saveApiKeyButton textContent "Verifying...") ;;
    initializeAppWithKey key ;;
    ready <- gets has_ai ;;
    if negb ready then
      exec (set_flag saveApiKeyButton disabled false) ;;
      exec (set_attr saveApiKeyButton textContent "Save and Start")
    else ret tt.

(** [async function init()], after the listeners are registered. *)
Definition init : M unit :=
  exec (set_isGenerating true) ;;
  exec updateUIState ;;
  exec loadHistory ;;
  storedApiKey <- gets (fun w => stored_apiKey (localStorage w)) ;;
  match storedApiKey with
  | Some k =>
      if Js.truthy k then initializeAppWithKey k
      else exec (set_flag apiKeyModalOverlay class_visible true)
  | None => exec (set_flag apiKeyModalOverlay class_visible true)
  end.

(** The prompt sent with an attachment to have it described. *)
Definition analysisPrompt (originalUserPrompt : string) : string :=
  "Analyze the provided image and the user's prompt. Create a new, highly detailed and creative prompt for an AI image generator that combines the style, subjects, colors, and composition of the image with the user's instructions. The new prompt should be a standalone instruction, not a conversation. User's prompt: "
  +:+ Js.dquote +:+ originalUserPrompt +:+ Js.dquote.

(** [async function generateImage()] *)
Definition generateImage : M unit :=
  originalUserPrompt <- gets (fun w => attr (dom w) promptInput value) ;;
  uploaded <- gets (fun w => uploadedImage (vars w)) ;;
  finalPrompt <-
    match uploaded with
    | Some img =>
        exec (setStatus "Analyzing image for inspiration...") ;;
        try_catch
          (c <- the_ai ;;
           await content_reply
             (generateContent c "gemini-2.5-flash"
                (Parts (analysisPrompt originalUserPrompt) img) false))
          (fun error =>
           let apiError := analyzeApiError error in
           if ErrorType_eqb apiError GENERAL_QUOTA then throw error
           else
             exec (setStatus
               "Image analysis failed. Using the original prompt instead.") ;;
             ret originalUserPrompt)
    | None => ret originalUserPrompt
    end ;;
  exec (setStatus "Generating image...") ;;
  c <- the_ai ;;
  generatedImages <- await images_reply
    (generateImages c "imagen-3.0-generate-002" finalPrompt
       1 "image/jpeg" "16:9") ;;
  match generatedImages with
  | [] => throw TypeError
  | imageData :: _ =>
      let dataUrl := "data:image/jpeg;base64," +:+ imageData in
      exec (set_attr imageOutput src dataUrl) ;;
      exec (set_attr imageOutput display "block") ;;
      exec (set_attr downloadButton href dataUrl) ;;
      t <- gets now ;;
      exec (set_attr downloadButton download
              ("image-" +:+ Js.of_number t +:+ ".jpg")) ;;
      exec (set_attr downloadButton display "inline-block") ;;
      exec (addToHistory image dataUrl originalUserPrompt) ;;
      exec resetUI ;;
      exec (setStatus "Image generated successfully.")
  end.

(** The body of the [while] loop of [generateVideo]: wait, then poll. *)
Definition pollOnce (operation : Operation) : M Operation :=
  sleep POLL_INTERVAL_MS ;;
  try_catch
    (c <- the_ai ;;
     await poll_reply (getVideosOperation c operation))
    (fun e =>
     let apiError := analyzeApiError e in
     if ErrorType_eqb apiError GENERAL_QUOTA then throw e
     else ret operation).

(** The [while] loop of [generateVideo]; it returns the last [operation]. *)
Fixpoint pollLoop (fuel : nat) (startTime : Z) (operation : Operation)
    : M Operation :=
  fun w =>
    if negb (done operation) && (now w - startTime <? TIMEOUT_MS)%Z then
      match fuel with
      | O => (OutOfFuel, w)
      | S fuel' =>
          (operation' <- pollOnce operation ;;
           pollLoop fuel' startTime operation') w
      end
    else (Normal operation, w).

(** [async function generateVideo()].  The [onloadend] callback of the
    [FileReader] runs as a later task, after the rest of the function. *)
Definition generateVideo : M unit :=
  originalUserPrompt <- gets (fun w => attr (dom w) promptInput value) ;;
  uploaded <- gets (fun w => uploadedImage (vars w)) ;;
  exec (startCountdown 60) ;;
  c <- the_ai ;;
  operation <- await videos_reply
    (generateVideos c "veo-2.0-generate-001" originalUserPrompt 1
       uploaded) ;;
  startTime <- gets now ;;
  operation <- pollLoop poll_fuel startTime operation ;;
  if negb (done operation) then
    exec (setStatus VIDEO_TIMED_OUT) ;;
    exec (set_attr outputPlaceholder display "block") ;;
    exec resetUI
  else
    match op_error operation with
    | Some err => throw err
    | None =>
        match videoUri operation with
        | None =>
            throw (new_Error
              "Video URI not found in the successful operation response.")
        | Some uri =>
            if negb (Js.truthy uri) then
              throw (new_Error
                "Video URI not found in the successful operation response.")
            else
              k <- gets (fun w => apiKey (vars w)) ;;
              videoBlob <- await fetch_reply
                (fetch (uri +:+ "&key=" +:+ default "null" k)) ;;
              let videoDataUrl := objectURL videoBlob in
              exec (set_attr videoPlayer src videoDataUrl) ;;
              exec (set_attr videoPlayer display "block") ;;
              exec (set_attr downloadButton href videoDataUrl) ;;
              t <- gets now ;;
              exec (set_attr downloadButton download
                      ("video-" +:+ Js.of_number t +:+ ".mp4")) ;;
              exec (set_attr downloadButton display "inline-block") ;;
              exec resetUI ;;
              exec (setStatus "Video generated successfully.") ;;
              exec (addToHistory video (asDataURL videoBlob)
                      originalUserPrompt)
        end
    end.

(** The [catch] block of [handleGenerateClick]. *)
Definition generationFailed (error : JsError) : M unit :=
  let apiError := analyzeApiError error in
  let errorMessage :=
    match apiError with
    | VIDEO_DAILY_LIMIT => VIDEO_DAILY_LIMIT_MESSAGE
    | HIGH_DEMAND => HIGH_DEMAND_MESSAGE
    | GENERAL_QUOTA => GENERAL_QUOTA_MESSAGE
    | OTHER => GENERATION_FAILED
    end in
  (if ErrorType_eqb apiError VIDEO_DAILY_LIMIT
   then exec (set_isVideoDailyLimitReached true) else ret tt) ;;
  exec (setStatus errorMessage) ;;
  exec (set_attr outputPlaceholder display "block") ;;
  exec resetUI.

(** What [handleGenerateClick] does before its [try]. *)
Definition startGenerating (w : World) : World :=
  let w := set_isGenerating true w in
  let w := updateUIState w in
  let w := setStatus "" w in
  let w := set_attr outputPlaceholder display "none" w in
  let w := set_attr imageOutput display "none" w in
  let w := set_attr videoPlayer display "none" w in
  set_attr downloadButton display "none" w.

(** The body of the [try]. *)
Definition generate : M unit :=
  isVideo <- gets videoMode ;;
  if isVideo then generateVideo else generateImage.

(** [async function handleGenerateClick()] *)
Definition handleGenerateClick : M unit :=
  fun w =>
    if isGenerating (vars w) || promptIsEmpty w || negb (has_ai w) then
      (Normal tt, w)
    else
      (exec startGenerating ;;
       try_catch generate generationFailed) w.

(** [async function getNewExamplePrompts()] *)
Definition getNewExamplePrompts : M unit :=
  fun w =>
    if negb (has_ai w) then (Normal tt, w)
    else
      (exec (set_isGeneratingNewPrompts true) ;;
       exec (set_flag refreshButton class_loading true) ;;
       exec updateUIState ;;
       try_finally
         (try_catch
            (c <- the_ai ;;
             text <- await content_reply
               (generateContent c "gemini-2.5-flash"
                  (Text "Generate 5 fresh, creative, and visually interesting prompts for an AI image/video generator. The prompts should be diverse and inspiring.")
                  true) ;;
             match parse_prompts env text with
             | Rejected e => throw e
             | Fulfilled [] => ret tt
             | Fulfilled prompts =>
                 exec (set_examplePrompts prompts) ;;
                 exec populateExamplePrompts ;;
                 exec (setStatus "")
             end)
            (fun error =>
             let apiError := analyzeApiError error in
             if ErrorType_eqb apiError GENERAL_QUOTA then
               exec (setStatus
                 "Could not fetch new examples due to API quota limits.")
             else
               exec (setStatus
                 "Could not fetch new examples at this time.")))
         (fun w =>
          updateUIState
            (set_flag refreshButton class_loading false
               (set_isGeneratingNewPrompts false w)))) w.

(** The [onload] callback of [handleFileUpload], for a file whose
    content is [base64Data] and whose type is [fileType]. *)
Definition handleFileUpload (base64Data fileType : string) (w : World)
    : World :=
  let dataUrl := "data:" +:+ fileType +:+ ";base64," +:+ base64Data in
  let w :=
    set_uploadedImage
      (Some {| data := base64Data; mimeType := fileType |}) w in
  let w := set_attr imagePreview src dataUrl w in
  let w := set_attr imagePreviewContainer display "block" w in
  updateUIState w.

(** [function removeUploadedImage()] *)
Definition removeUploadedImage (w : World) : World :=
  let w := set_uploadedImage None w in
  let w := set_attr imagePreview src "" w in
  let w := set_attr imagePreviewContainer display "none" w in
  updateUIState w.

End Page.

(* ================================================================== *)
(** ** The user *)

(** What the user can do once the page is set up.  A disabled control
    receives neither clicks nor input; a radio fires [change] only when the
    selection changes. *)
Inductive UserEvent :=
  | ClickGenerate
  | EditPrompt (text : string)
  | ChooseMode (mode : ItemType)
  | ClickRefresh
  | ClickExample (n : nat)
  | FileLoaded (base64Data fileType : string)
  | ClickRemoveImage.

Definition is_video (mode : ItemType) : bool :=
  match mode with video => true | image => false end.

Definition dispatch (env : Remote) (ev : UserEvent) (w : World) : World :=
  match ev with
  | ClickGenerate =>
      if flag (dom w) generateButton disabled then w
      else snd (handleGenerateClick env w)
  | EditPrompt text =>
      if flag (dom w) promptInput disabled then w
      else updateUIState (set_attr promptInput value text w)
  | ChooseMode mode =>
      if flag (dom w) (if is_video mode then videoModeRadio
                       else imageModeRadio) disabled then w
      else if Bool.eqb (videoMode w) (is_video mode) then w
      else
        handleModeChange
          (set_flag imageModeRadio checked (negb (is_video mode))
             (set_flag videoModeRadio checked (is_video mode) w))
  | ClickRefresh =>
      if flag (dom w) refreshButton disabled then w
      else snd (getNewExamplePrompts env w)
  | ClickExample n =>
      match nth_error (examplePromptItems (dom w)) n with
      | Some p => updateUIState (set_attr promptInput value p w)
      | None => w
      end
  | FileLoaded base64Data fileType => handleFileUpload base64Data fileType w
  | ClickRemoveImage => removeUploadedImage w
  end.

(** The events of a session, in order. *)
Definition session (env : Remote) (evs : list UserEvent) (w : World) : World :=
  fold_left (fun w ev => dispatch env ev w) evs w.

(** *** History insertions *)

(** One insertion: some time passes, then [addToHistory] is called. *)
Record Insertion := {
  after_ms : N;
  ins_type : ItemType;
  ins_dataUrl : string;
  ins_prompt : string
}.

Definition insert (i : Insertion) (w : World) : World :=
  addToHistory (ins_type i) (ins_dataUrl i) (ins_prompt i)
    (elapse (Z.of_N (after_ms i)) w).

Definition insertAll (l : list Insertion) (w : World) : World :=
  fold_left (fun w i => insert i w) l w.

(** The entries that the insertions [l] create, oldest first, when the
    clock shows [t] before the first of them. *)
Fixpoint entries (t : Z) (l : list Insertion) : list HistoryItem :=
  match l with
  | [] => []
  | i :: l' =>
      let t' := (t + Z.of_N (after_ms i))%Z in
      {| id := "history-" +:+ Js.of_number t'; type := ins_type i;
         dataUrl := ins_dataUrl i; prompt := ins_prompt i |}
      :: entries t' l'
  end.

(** *** Requests of one kind *)

Definition is_generateVideos (r : Request) : bool :=
  match r with generateVideos _ _ _ _ _ => true | _ => false end.

Definition is_generateImages (r : Request) : bool :=
  match r with generateImages _ _ _ _ _ _ => true | _ => false end.

Definition is_poll (r : Request) : bool :=
  match r with getVideosOperation _ _ => true | _ => false end.

(* ================================================================== *)
(** ** Sample worlds and environments *)

Module Sample.

Definition blank : Dom :=
  {| attr := fun _ _ => ""; flag := fun _ _ => false;
     historyGrid := []; examplePromptItems := [] |}.

(** The page before [init]. *)
Definition fresh : World :=
  {| vars := initial_vars; dom := blank;
     localStorage := {| stored_apiKey := None; stored_history := None |};
     requests := []; now := 1700000000000; timers := 0 |}.

Definition offline_error : JsError :=
  {| stringified := "{}"; error_code := None |}.

(** Nothing answers. *)
Definition offline : Remote :=
  {| content_reply := fun _ => Rejected offline_error;
     images_reply := fun _ => Rejected offline_error;
     videos_reply := fun _ => Rejected offline_error;
     poll_reply := fun _ => Rejected offline_error;
     fetch_reply := fun _ => Rejected offline_error;
     latency := fun _ => 0%N;
     timer_lag := fun _ => 0%N;
     parse_prompts := fun _ => Rejected offline_error |}.

Definition pending : Operation :=
  {| done := false; op_error := None; videoUri := None |}.

(** A service that answers everything, but whose video jobs never
    finish. *)
Definition slow_video : Remote :=
  {| content_reply := fun _ => Fulfilled "A richer prompt";
     images_reply := fun _ => Fulfilled ["QUJD"];
     videos_reply := fun _ => Fulfilled pending;
     poll_reply := fun _ => Fulfilled pending;
     fetch_reply := fun _ => Rejected offline_error;
     latency := fun _ => 120%N;
     timer_lag := fun _ => 3%N;
     parse_prompts := fun _ => Fulfilled [] |}.

(** The same service, but it refuses to describe an attachment. *)
Definition no_description (e : JsError) : Remote :=
  {| content_reply := fun _ => Rejected e;
     images_reply := images_reply slow_video;
     videos_reply := videos_reply slow_video;
     poll_reply := poll_reply slow_video;
     fetch_reply := fetch_reply slow_video;
     latency := latency slow_video;
     timer_lag := timer_lag slow_video;
     parse_prompts := parse_prompts slow_video |}.

(** The same service, but the daily allowance of videos is used up. *)
Definition no_more_videos (e : JsError) : Remote :=
  {| content_reply := content_reply slow_video;
     images_reply := images_reply slow_video;
     videos_reply := fun _ => Rejected e;
     poll_reply := poll_reply slow_video;
     fetch_reply := fetch_reply slow_video;
     latency := latency slow_video;
     timer_lag := timer_lag slow_video;
     parse_prompts := parse_prompts slow_video |}.

Definition astronaut : string :=
  "A cinematic shot of an astronaut riding a horse on Mars".

(** A page whose key was validated with [slow_video], the prompt typed. *)
Definition ready : World :=
  dispatch slow_video (EditPrompt astronaut)
    (snd (initializeAppWithKey slow_video "AIza-key"
            (snd (init slow_video fresh)))).

Definition cat : UploadedImage :=
  {| data := "iVBORw0KGgo="; mimeType := "image/png" |}.

(** [{"error":{"code":429,"message":...,"status":"RESOURCE_EXHAUSTED"}}] *)
Definition api_error (code : Z) (message : string) : JsError :=
  let q := Js.dquote in
  {| stringified :=
       "{" +:+ q +:+ "error" +:+ q +:+ ":{" +:+ q +:+ "code" +:+ q +:+ ":"
       +:+ Js.of_number code +:+ "," +:+ q +:+ "message" +:+ q +:+ ":"
       +:+ q +:+ message +:+ q +:+ "," +:+ q +:+ "status" +:+ q +:+ ":"
       +:+ q +:+ "RESOURCE_EXHAUSTED" +:+ q +:+ "}}";
     error_code := Some code |}.

Definition rate_limited : JsError :=
  api_error 429 "Too many requests, slow down.".

Definition daily_limit_429 : JsError :=
  api_error 429
    "You exceeded your quota: there are limited free generations per day.".

(** [ready] with an attachment. *)
Definition ready_with_cat : World :=
  dispatch slow_video (FileLoaded (data cat) (mimeType cat)) ready.

(** [ready] in video mode. *)
Definition ready_for_video : World :=
  dispatch slow_video (ChooseMode video) ready.

Definition entry (n : nat) : HistoryItem :=
  {| id := "history-" +:+ Js.of_number (Z.of_nat n); type := image;
     dataUrl := "data:image/jpeg;base64,QUJD"; prompt := astronaut |}.

End Sample.


(* ================================================================== *)
(** ** Predicates of the properties *)

(** The page is idle: not busy, no countdown, and every control that the
    busy flag disables is enabled again.  The generate button stays
    disabled for its other two reasons only: an empty prompt, or video mode
    after the daily limit was hit. *)
Record idle (w : World) : Prop := {
  idle_not_busy : isGenerating (vars w) = false;
  idle_no_countdown : countdownInterval (vars w) = None;
  idle_queue_hidden : attr (dom w) queueStatusContainer display = "none";
  idle_imageMode : flag (dom w) imageModeRadio disabled = false;
  idle_videoMode : flag (dom w) videoModeRadio disabled = false;
  idle_upload : flag (dom w) uploadButton disabled = false;
  idle_examples : flag (dom w) examplePromptsList class_disabled = false;
  idle_prompt : flag (dom w) promptInput disabled = false;
  idle_refresh :
    flag (dom w) refreshButton disabled = isGeneratingNewPrompts (vars w);
  idle_generate :
    flag (dom w) generateButton disabled =
    promptIsEmpty w || (videoMode w && isVideoDailyLimitReached (vars w));
  idle_label : attr (dom w) generateButton textContent = "Generate"
}.

(** The world is what [resetUI] left, up to the status line and the
    history entry that the success paths write after it. *)
Inductive after_resetUI (w : World) : Prop :=
  | reset_last (w0 : World) :
      w = resetUI w0 -> after_resetUI w
  | reset_then_status (w0 : World) (text : string) :
      w = setStatus text (resetUI w0) -> after_resetUI w
  | reset_then_status_and_entry (w0 : World) (text : string)
      (t : ItemType) (d p : string) :
      w = addToHistory t d p (setStatus text (resetUI w0)) ->
      after_resetUI w.


(** The page is the same; only the clock and the request log differ. *)
Definition same_page (w w' : World) : Prop :=
  vars w' = vars w /\ dom w' = dom w /\ localStorage w' = localStorage w
  /\ timers w' = timers w.

(** What [updateUIState] leaves in each boolean property, read off its
    assignments along the three branches. *)
Definition ui_flag (w : World) (e : Elem) (p : Flag) : bool :=
  let busy := isGenerating (vars w) in
  match e, p with
  | generateButton, disabled =>
      busy || promptIsEmpty w
      || (has_ai w && videoMode w && isVideoDailyLimitReached (vars w))
  | imageModeRadio, disabled | videoModeRadio, disabled
  | uploadButton, disabled | promptInput, disabled => busy
  | examplePromptsList, class_disabled => busy
  | refreshButton, disabled => busy || isGeneratingNewPrompts (vars w)
  | _, _ => flag (dom w) e p
  end.

(** The same for the string properties. *)
Definition ui_attr (w : World) (e : Elem) (a : Attr) : string :=
  let busy := isGenerating (vars w) in
  match e, a with
  | generateButton, textContent =>
      if busy && has_ai w then "Generating..."
      else if negb (has_ai w) then "Setup Required"
      else "Generate"
  | statusEl, textContent =>
      if negb busy && has_ai w && videoMode w
         && isVideoDailyLimitReached (vars w)
      then DAILY_VIDEO_LIMIT_REACHED
      else attr (dom w) statusEl textContent
  | promptInput, placeholder =>
      match uploadedImage (vars w) with
      | Some _ =>
          if videoMode w
          then "Describe how you want to animate this image..."
          else "Describe how to use this image as inspiration..."
      | None => "Describe your vision in detail..."
      end
  | _, _ => attr (dom w) e a
  end.

(** What [startCountdown] leaves in each string property. *)
Definition countdown_attr (seconds : Z) (w : World) (e : Elem) (a : Attr)
    : string :=
  match e, a with
  | outputPlaceholder, display => "none"
  | queueStatusContainer, display => "flex"
  | queueTitle, textContent =>
      if videoMode w then "Creating Video..." else "Creating Your Vision..."
  | queueDesc, textContent =>
      if videoMode w
      then "This process can take up to a minute. Please wait while we bring your idea to life."
      else "This should only take a moment."
  | queueCountdown, textContent => format_remaining seconds
  | _, _ => attr (dom w) e a
  end.

Arguments updateUIState : simpl never.
Arguments resetUI : simpl never.
Arguments unshift_capped : simpl never.
Arguments startCountdown : simpl never.

(** What a generation reads but does not write: the client, the mode and
    the prompt. *)
Definition inputs (w : World) : option Client * bool * string :=
  (ai (vars w), videoMode w, attr (dom w) promptInput value).

(** The requests for a new video sent so far. *)
Definition video_requests (w : World) : list Request :=
  List.filter is_generateVideos (requests w).

(** [m] leaves the observation [g] of the world as it was, however it
    ends. *)
Definition keeps {A B} (g : World -> B) (m : M A) : Prop :=
  forall w, g (snd (m w)) = g w.

(** A generation that returns has passed through [resetUI]; one that
    throws has not yet; none runs out of fuel. *)
Definition reset_or_thrown {A} (r : Outcome A) (w : World) : Prop :=
  match r with
  | Normal _ => after_resetUI w
  | Throw _ => True
  | OutOfFuel => False
  end.

(** The daily limit is in force: the flag is set on a page that is set up
    and not busy, and whenever video mode is selected the generate button
    is disabled and the status line shows the notice. *)
Record limit_enforced (w : World) : Prop := {
  limit_reached : isVideoDailyLimitReached (vars w) = true;
  limit_client : has_ai w = true;
  limit_not_busy : isGenerating (vars w) = false;
  limit_blocks_video :
    videoMode w = true ->
    flag (dom w) generateButton disabled = true
    /\ status w = DAILY_VIDEO_LIMIT_REACHED
}.

(** The variables that decide whether [updateUIState] enforces the
    limit. *)
Definition gate (w : World) : bool * bool * bool :=
  (isVideoDailyLimitReached (vars w), has_ai w, isGenerating (vars w)).


(** [m], started in [w], ends with an outcome and a world that satisfy
    [Q]. *)
Definition ensures {A} (m : M A) (w : World)
    (Q : Outcome A -> World -> Prop) : Prop :=
  Q (fst (m w)) (snd (m w)).

(* ================================================================== *)
(** ** Page loads *)

(** A page load: the module starts afresh on the document [d]; of the
    page only [localStorage] survives.  The clock and the request log of
    the environment go on. *)
Definition reload (d : Dom) (w : World) : World :=
  {| vars := initial_vars; dom := d; localStorage := localStorage w;
     requests := requests w; now := now w; timers := 0 |}.

(* ================================================================== *)
(** ** The intro and the terms dialog *)

(** [sessionStorage] and what only these functions touch: the classes of
    [termsModalOverlay] and of [document.body], the scroll listener (it is
    registered with [once: true]) and the pending 500 ms time-outs. *)
Record Intro := {
  termsAccepted : option string;  (* sessionStorage.getItem('termsAccepted') *)
  terms_visible : bool;           (* termsModalOverlay has class visible *)
  intro_scrolled : bool;          (* body has class intro-scrolled *)
  scroll_listening : bool;
  terms_timeouts : nat
}.

(** The intro when the module has been loaded, before [init]. *)
Definition loaded_intro (accepted : option string) : Intro :=
  {| termsAccepted := accepted; terms_visible := false;
     intro_scrolled := false; scroll_listening := false;
     terms_timeouts := 0 |}.

(** [function initIntroAnimation()] *)
Definition initIntroAnimation (i : Intro) : Intro :=
  {| termsAccepted := termsAccepted i; terms_visible := terms_visible i;
     intro_scrolled := intro_scrolled i; scroll_listening := true;
     terms_timeouts := terms_timeouts i |}.

(** [function showTermsModalIfNeeded()]: it only schedules the callback. *)
Definition showTermsModalIfNeeded (i : Intro) : Intro :=
  {| termsAccepted := termsAccepted i; terms_visible := terms_visible i;
     intro_scrolled := intro_scrolled i;
     scroll_listening := scroll_listening i;
     terms_timeouts := S (terms_timeouts i) |}.

(** The scroll listener, which runs once. *)
Definition onScroll (i : Intro) : Intro :=
  if scroll_listening i then
    showTermsModalIfNeeded
      {| termsAccepted := termsAccepted i; terms_visible := terms_visible i;
         intro_scrolled := true; scroll_listening := false;
         terms_timeouts := terms_timeouts i |}
  else i.

(** [sessionStorage.getItem('termsAccepted') !== 'true'] *)
Definition terms_pending (i : Intro) : bool :=
  match termsAccepted i with
  | Some s => negb (String.eqb s "true")
  | None => true
  end.

(** The callback of the time-out, when it fires on the page [w]. *)
Definition onTermsTimeout (w : World) (i : Intro) : Intro :=
  match terms_timeouts i with
  | O => i
  | S n =>
      {| termsAccepted := termsAccepted i;
         terms_visible :=
           if terms_pending i
              && negb (flag (dom w) apiKeyModalOverlay class_visible)
           then true else terms_visible i;
         intro_scrolled := intro_scrolled i;
         scroll_listening := scroll_listening i;
         terms_timeouts := n |}
  end.

(** [function handleTermsAgree()] *)
Definition handleTermsAgree (i : Intro) : Intro :=
  {| termsAccepted := Some "true"; terms_visible := false;
     intro_scrolled := intro_scrolled i;
     scroll_listening := scroll_listening i;
     terms_timeouts := terms_timeouts i |}.

(** What can happen to the intro: the user scrolls, a time-out fires on
    the page as it is then, the user agrees. *)
Inductive IntroEvent :=
  | Scroll
  | TermsTimeout (w : World)
  | ClickAgree.

Definition intro_step (i : Intro) (ev : IntroEvent) : Intro :=
  match ev with
  | Scroll => onScroll i
  | TermsTimeout w => onTermsTimeout w i
  | ClickAgree => handleTermsAgree i
  end.

Definition intro_run (evs : list IntroEvent) (i : Intro) : Intro :=
  fold_left intro_step evs i.

(** The time-outs among the events that fire while the key dialog is
    hidden. *)
Definition fires_unblocked (ev : IntroEvent) : bool :=
  match ev with
  | TermsTimeout w => negb (flag (dom w) apiKeyModalOverlay class_visible)
  | _ => false
  end.

(* ================================================================== *)
(** ** More environments *)

Module Scenario.


Definition clip : Blob :=
  {| objectURL := "blob:https://example.invalid/1f2e";
     asDataURL := "data:video/mp4;base64,AAAAIGZ0eXA=" |}.


(** A service that refuses polls with the error [e]. *)
Definition no_polls (e : JsError) : Remote :=
  {| content_reply := content_reply Sample.slow_video;
     images_reply := images_reply Sample.slow_video;
     videos_reply := videos_reply Sample.slow_video;
     poll_reply := fun _ => Rejected e;
     fetch_reply := fetch_reply Sample.slow_video;
     latency := latency Sample.slow_video;
     timer_lag := timer_lag Sample.slow_video;
     parse_prompts := parse_prompts Sample.slow_video |}.

(** A service whose video jobs are returned finished, as [operation]. *)
Definition instant_video (operation : Operation) : Remote :=
  {| content_reply := content_reply Sample.slow_video;
     images_reply := images_reply Sample.slow_video;
     videos_reply := fun _ => Fulfilled operation;
     poll_reply := poll_reply Sample.slow_video;
     fetch_reply := fun _ => Fulfilled clip;
     latency := latency Sample.slow_video;
     timer_lag := timer_lag Sample.slow_video;
     parse_prompts := parse_prompts Sample.slow_video |}.

Definition ideas : list string :=
  ["A lighthouse in a storm, oil painting"; "A fox made of autumn leaves"].

(** A service that answers the request for new examples with [ideas]. *)
Definition inspiring : Remote :=
  {| content_reply := content_reply Sample.slow_video;
     images_reply := images_reply Sample.slow_video;
     videos_reply := videos_reply Sample.slow_video;
     poll_reply := poll_reply Sample.slow_video;
     fetch_reply := fetch_reply Sample.slow_video;
     latency := latency Sample.slow_video;
     timer_lag := timer_lag Sample.slow_video;
     parse_prompts := fun _ => Fulfilled ideas |}.

(** The page before [init], with a key in [localStorage]. *)
Definition returning (key : string) : World :=
  store_apiKey (Some key) Sample.fresh.

(** The page before [init], the user having typed a key into the dialog. *)
Definition key_typed (text : string) : World :=
  set_attr apiKeyInput value text (snd (init Sample.slow_video Sample.fresh)).

End Scenario.
(* ================================================================== *)
(** ** The history cache *)

Section HistoryCache.

Implicit Types (h : list HistoryItem) (x : HistoryItem) (w : World).

Lemma unshift_capped_length x h :
  length (unshift_capped x h) =
  if (length h <? 20)%nat then S (length h) else length h.
Proof.
  unfold unshift_capped.
  change (length (x :: h)) with (S (length h)).
  destruct (Nat.ltb_spec 20 (S (length h))) as [Hgt | Hle];
    destruct (Nat.ltb_spec (length h) 20) as [Hlt | Hge]; try lia.
  - rewrite removelast_firstn_len, length_take. cbn [length]. lia.
  - reflexivity.
Qed.

Lemma unshift_capped_take x h :
  (length h <= 20)%nat -> unshift_capped x h = take 20 (x :: h).
Proof.
  intros Hh. unfold unshift_capped.
  change (length (x :: h)) with (S (length h)).
  destruct (Nat.ltb_spec 20 (S (length h))) as [Hgt | Hle].
  - rewrite removelast_firstn_len. cbn [length].
    replace (Nat.pred (S (length h))) with 20%nat by lia. reflexivity.
  - symmetry. apply take_ge. cbn [length]. lia.
Qed.

Lemma take_app_take {A} (n : nat) (l k : list A) :
  take n (l ++ take n k) = take n (l ++ k).
Proof.
  rewrite !take_app, take_take. f_equal. f_equal. lia.
Qed.

Lemma history_addToHistory t d p w :
  history (vars (addToHistory t d p w)) =
  unshift_capped
    {| id := "history-" +:+ Js.of_number (now w); type := t;
       dataUrl := d; prompt := p |} (history (vars w)).
Proof. reflexivity. Qed.

Lemma stored_addToHistory t d p w :
  stored_history (localStorage (addToHistory t d p w)) =
  Some (history (vars (addToHistory t d p w))).
Proof. reflexivity. Qed.

Lemma insertAll_history l : forall w,
  (length (history (vars w)) <= 20)%nat ->
  history (vars (insertAll l w)) =
  take 20 (rev (entries (now w) l) ++ history (vars w)).
Proof.
  induction l as [| i l IH]; intros w Hw.
  - cbn. symmetry. apply take_ge. exact Hw.
  - change (insertAll (i :: l) w) with (insertAll l (insert i w)).
    assert (Hi : history (vars (insert i w)) =
                 take 20 ({| id := "history-" +:+
                               Js.of_number (now w + Z.of_N (after_ms i));
                             type := ins_type i; dataUrl := ins_dataUrl i;
                             prompt := ins_prompt i |} :: history (vars w))).
    { unfold insert. rewrite history_addToHistory.
      apply unshift_capped_take. exact Hw. }
    rewrite IH by (rewrite Hi, length_take; lia).
    rewrite Hi. cbn [entries rev]. rewrite take_app_take.
    rewrite <- app_assoc. reflexivity.
Qed.

Lemma insertAll_stored l : forall w,
  l <> [] ->
  stored_history (localStorage (insertAll l w)) =
  Some (history (vars (insertAll l w))).
Proof.
  induction l as [| i l IH]; intros w Hl; [congruence |].
  change (insertAll (i :: l) w) with (insertAll l (insert i w)).
  destruct l as [| j l]; [reflexivity |].
  apply IH. discriminate.
Qed.

End HistoryCache.

(** C1. Whatever the sequence of [addToHistory] calls, from a history of
    at most 20 entries: the history never has more than 20 entries, it is
    the newest 20 of all entries with the most recent first (every call puts
    its entry at the front and the oldest one falls off the end), and the
    stored copy is the same list. *)
Theorem history_capped_most_recent_first (l : list Insertion) (w : World) :
  (length (history (vars w)) <= 20)%nat ->
  let w' := insertAll l w in
  (length (history (vars w')) <= 20)%nat
  /\ history (vars w') = take 20 (rev (entries (now w) l) ++ history (vars w))
  /\ (l <> [] -> stored_history (localStorage w') = Some (history (vars w'))).
Proof.
  intros Hw w'. subst w'.
  rewrite (insertAll_history l w Hw).
  split; [| split].
  - rewrite length_take. lia.
  - reflexivity.
  - intros Hl. rewrite (insertAll_stored l w Hl).
    rewrite (insertAll_history l w Hw). reflexivity.
Qed.

Lemma history_capped_most_recent_first_witness :
  let l :=
    repeat {| after_ms := 5; ins_type := image;
              ins_dataUrl := "data:image/jpeg;base64,QUJD";
              ins_prompt := Sample.astronaut |} 21 in
  let w' := insertAll l Sample.fresh in
  (length (history (vars w')) <= 20)%nat
  /\ history (vars w') =
     take 20 (rev (entries (now Sample.fresh) l)
              ++ history (vars Sample.fresh))
  /\ (l <> [] -> stored_history (localStorage w') = Some (history (vars w'))).
Proof.
  apply (history_capped_most_recent_first _ Sample.fresh).
  cbn. lia.
Defined.

(** C10. [loadHistory] takes the stored list as it is, of any length, and
    one [addToHistory] removes at most one entry: after loading a list of
    more than 20 entries the next insertion leaves more than 20, and the
    cap holds after it exactly when the loaded list had at most 20. *)
Theorem loaded_history_not_truncated
    (l : list HistoryItem) (t : ItemType) (d p : string) (w : World) :
  stored_history (localStorage w) = Some l ->
  let w1 := loadHistory w in
  let w2 := addToHistory t d p w1 in
  history (vars w1) = l
  /\ length (history (vars w2)) =
     (if (length l <? 20)%nat then S (length l) else length l)
  /\ ((20 < length l)%nat -> (20 < length (history (vars w2)))%nat)
  /\ ((length l <= 20)%nat -> (length (history (vars w2)) <= 20)%nat).
Proof.
  intros Hl w1 w2.
  assert (H1 : history (vars w1) = l).
  { subst w1. unfold loadHistory. rewrite Hl. reflexivity. }
  assert (H2 : length (history (vars w2)) =
               if (length l <? 20)%nat then S (length l) else length l).
  { subst w2. rewrite history_addToHistory, unshift_capped_length, H1.
    reflexivity. }
  split; [exact H1 | split; [exact H2 |]].
  rewrite H2. destruct (Nat.ltb_spec (length l) 20); split; lia.
Qed.

Lemma loaded_history_not_truncated_witness :
  let l := map Sample.entry (seq 0 21) in
  let w1 := loadHistory (store_history l Sample.fresh) in
  let w2 :=
    addToHistory image "data:image/jpeg;base64,QUJD" Sample.astronaut w1 in
  history (vars w1) = l
  /\ length (history (vars w2)) = 21%nat
  /\ (20 < length (history (vars w2)))%nat.
Proof.
  destruct (loaded_history_not_truncated
              (map Sample.entry (seq 0 21)) image
              "data:image/jpeg;base64,QUJD" Sample.astronaut
              (store_history (map Sample.entry (seq 0 21)) Sample.fresh))
    as (Hloaded & Hlength & Hover & _).
  - reflexivity.
  - split; [exact Hloaded |]. split; [exact Hlength |].
    apply Hover. cbn. lia.
Defined.

(* ================================================================== *)
(** ** Strings *)

Section Strings.

Lemma prefix_toLowerCase (n : string) : forall s,
  String.prefix n s = true ->
  String.prefix (Js.toLowerCase n) (Js.toLowerCase s) = true.
Proof.
  induction n as [| a n IH]; intros s H; [destruct s; reflexivity |].
  destruct s as [| b s]; [discriminate |].
  cbn in H |- *. destruct (ascii_dec a b) as [-> | Hne]; [| discriminate].
  destruct (ascii_dec (Js.lower_char b) (Js.lower_char b)); [| congruence].
  apply IH, H.
Qed.

Lemma includes_toLowerCase (n : string) : forall s,
  Js.includes s n = true ->
  Js.includes (Js.toLowerCase s) (Js.toLowerCase n) = true.
Proof.
  induction s as [| b s IH]; intros H.
  - cbn in H |- *. rewrite orb_false_r in H |- *.
    apply (prefix_toLowerCase n ""), H.
  - cbn [Js.includes] in H. apply orb_true_iff in H as [H | H].
    + pose proof (prefix_toLowerCase n (String b s) H) as Hp.
      cbn [Js.toLowerCase Js.includes] in Hp |- *.
      rewrite Hp. reflexivity.
    + cbn [Js.toLowerCase Js.includes].
      rewrite (IH H). apply orb_true_r.
Qed.

(** A lower-case phrase found in a text is found in the text once the
    text is lowered. *)
Lemma includes_lowered (s n : string) :
  Js.toLowerCase n = n ->
  Js.includes s n = true -> Js.includes (Js.toLowerCase s) n = true.
Proof.
  intros Hn H. rewrite <- Hn. apply includes_toLowerCase, H.
Qed.

End Strings.

(* ================================================================== *)
(** ** The error classifier *)

(** C5. A payload with code 429, or whose text has "quota" or
    "resource_exhausted", is classified as general quota, unless its text
    also has the daily-limit phrase: that check comes first and wins. *)
Theorem quota_signals_classified (e : JsError) :
  code_is e 429 = true
  \/ Js.includes (stringified e) "quota" = true
  \/ Js.includes (stringified e) "resource_exhausted" = true ->
  analyzeApiError e =
  if Js.includes (Js.toLowerCase (stringified e))
       "limited free generations per day"
  then VIDEO_DAILY_LIMIT else GENERAL_QUOTA.
Proof.
  intros H. unfold analyzeApiError.
  destruct (Js.includes _ "limited free generations per day");
    [reflexivity |].
  destruct H as [H | [H | H]].
  - rewrite H, !orb_true_r. reflexivity.
  - rewrite (includes_lowered _ "quota" eq_refl H). reflexivity.
  - rewrite (includes_lowered _ "resource_exhausted" eq_refl H),
      orb_true_r. reflexivity.
Qed.

Lemma quota_signals_classified_witness :
  code_is Sample.rate_limited 429 = true
  /\ analyzeApiError Sample.rate_limited = GENERAL_QUOTA.
Proof.
  split; [reflexivity |].
  exact (quota_signals_classified Sample.rate_limited
           (or_introl eq_refl)).
Defined.

(** A payload with code 429 and the words "quota" and "RESOURCE_EXHAUSTED"
    that is not classified as general quota. *)
Lemma quota_signals_daily_limit_first :
  code_is Sample.daily_limit_429 429 = true
  /\ Js.includes (stringified Sample.daily_limit_429) "quota" = true
  /\ analyzeApiError Sample.daily_limit_429 = VIDEO_DAILY_LIMIT
  /\ analyzeApiError Sample.daily_limit_429 <> GENERAL_QUOTA.
Proof.
  vm_compute.
  split; [reflexivity | split; [reflexivity | split; [reflexivity |]]].
  discriminate.
Qed.

(* ================================================================== *)
(** ** Reading after an assignment *)

(** Every read of a component after an assignment, as an equation: proofs
    push the projections inwards by rewriting with them. *)

Section Reads.

Implicit Types (w : World) (v : Vars) (d : Dom) (s : Storage).

Lemma vars_with_vars f w : vars (with_vars f w) = f (vars w).
Proof. reflexivity. Qed.

Lemma dom_with_vars f w : dom (with_vars f w) = dom w.
Proof. reflexivity. Qed.

Lemma localStorage_with_vars f w : localStorage (with_vars f w) = localStorage w.
Proof. reflexivity. Qed.

Lemma requests_with_vars f w : requests (with_vars f w) = requests w.
Proof. reflexivity. Qed.

Lemma now_with_vars f w : now (with_vars f w) = now w.
Proof. reflexivity. Qed.

Lemma timers_with_vars f w : timers (with_vars f w) = timers w.
Proof. reflexivity. Qed.

Lemma vars_with_dom f w : vars (with_dom f w) = vars w.
Proof. reflexivity. Qed.

Lemma dom_with_dom f w : dom (with_dom f w) = f (dom w).
Proof. reflexivity. Qed.

Lemma localStorage_with_dom f w : localStorage (with_dom f w) = localStorage w.
Proof. reflexivity. Qed.

Lemma requests_with_dom f w : requests (with_dom f w) = requests w.
Proof. reflexivity. Qed.

Lemma now_with_dom f w : now (with_dom f w) = now w.
Proof. reflexivity. Qed.

Lemma timers_with_dom f w : timers (with_dom f w) = timers w.
Proof. reflexivity. Qed.

Lemma vars_with_localStorage f w : vars (with_localStorage f w) = vars w.
Proof. reflexivity. Qed.

Lemma dom_with_localStorage f w : dom (with_localStorage f w) = dom w.
Proof. reflexivity. Qed.

Lemma localStorage_with_localStorage f w : localStorage (with_localStorage f w) = f (localStorage w).
Proof. reflexivity. Qed.

Lemma requests_with_localStorage f w : requests (with_localStorage f w) = requests w.
Proof. reflexivity. Qed.

Lemma now_with_localStorage f w : now (with_localStorage f w) = now w.
Proof. reflexivity. Qed.

Lemma timers_with_localStorage f w : timers (with_localStorage f w) = timers w.
Proof. reflexivity. Qed.

Lemma vars_elapse ms w : vars (elapse ms w) = vars w.
Proof. reflexivity. Qed.

Lemma dom_elapse ms w : dom (elapse ms w) = dom w.
Proof. reflexivity. Qed.

Lemma localStorage_elapse ms w : localStorage (elapse ms w) = localStorage w.
Proof. reflexivity. Qed.

Lemma requests_elapse ms w : requests (elapse ms w) = requests w.
Proof. reflexivity. Qed.

Lemma now_elapse ms w : now (elapse ms w) = (now w + ms)%Z.
Proof. reflexivity. Qed.

Lemma timers_elapse ms w : timers (elapse ms w) = timers w.
Proof. reflexivity. Qed.

Lemma vars_send r w : vars (send r w) = vars w.
Proof. reflexivity. Qed.

Lemma dom_send r w : dom (send r w) = dom w.
Proof. reflexivity. Qed.

Lemma localStorage_send r w : localStorage (send r w) = localStorage w.
Proof. reflexivity. Qed.

Lemma requests_send r w : requests (send r w) = (requests w ++ [r])%list.
Proof. reflexivity. Qed.

Lemma now_send r w : now (send r w) = now w.
Proof. reflexivity. Qed.

Lemma timers_send r w : timers (send r w) = timers w.
Proof. reflexivity. Qed.

Lemma vars_new_timer w : vars (new_timer w) = vars w.
Proof. reflexivity. Qed.

Lemma dom_new_timer w : dom (new_timer w) = dom w.
Proof. reflexivity. Qed.

Lemma localStorage_new_timer w : localStorage (new_timer w) = localStorage w.
Proof. reflexivity. Qed.

Lemma requests_new_timer w : requests (new_timer w) = requests w.
Proof. reflexivity. Qed.

Lemma now_new_timer w : now (new_timer w) = now w.
Proof. reflexivity. Qed.

Lemma timers_new_timer w : timers (new_timer w) = S (timers w).
Proof. reflexivity. Qed.

Lemma isGenerating_assign_isGenerating x v : isGenerating (assign_isGenerating x v) = x.
Proof. reflexivity. Qed.

Lemma isVideoDailyLimitReached_assign_isGenerating x v : isVideoDailyLimitReached (assign_isGenerating x v) = isVideoDailyLimitReached v.
Proof. reflexivity. Qed.

Lemma countdownInterval_assign_isGenerating x v : countdownInterval (assign_isGenerating x v) = countdownInterval v.
Proof. reflexivity. Qed.

Lemma uploadedImage_assign_isGenerating x v : uploadedImage (assign_isGenerating x v) = uploadedImage v.
Proof. reflexivity. Qed.

Lemma history_assign_isGenerating x v : history (assign_isGenerating x v) = history v.
Proof. reflexivity. Qed.

Lemma apiKey_assign_isGenerating x v : apiKey (assign_isGenerating x v) = apiKey v.
Proof. reflexivity. Qed.

Lemma examplePrompts_assign_isGenerating x v : examplePrompts (assign_isGenerating x v) = examplePrompts v.
Proof. reflexivity. Qed.

Lemma isGeneratingNewPrompts_assign_isGenerating x v : isGeneratingNewPrompts (assign_isGenerating x v) = isGeneratingNewPrompts v.
Proof. reflexivity. Qed.

Lemma ai_assign_isGenerating x v : ai (assign_isGenerating x v) = ai v.
Proof. reflexivity. Qed.

Lemma isGenerating_assign_isVideoDailyLimitReached x v : isGenerating (assign_isVideoDailyLimitReached x v) = isGenerating v.
Proof. reflexivity. Qed.

Lemma isVideoDailyLimitReached_assign_isVideoDailyLimitReached x v : isVideoDailyLimitReached (assign_isVideoDailyLimitReached x v) = x.
Proof. reflexivity. Qed.

Lemma countdownInterval_assign_isVideoDailyLimitReached x v : countdownInterval (assign_isVideoDailyLimitReached x v) = countdownInterval v.
Proof. reflexivity. Qed.

Lemma uploadedImage_assign_isVideoDailyLimitReached x v : uploadedImage (assign_isVideoDailyLimitReached x v) = uploadedImage v.
Proof. reflexivity. Qed.

Lemma history_assign_isVideoDailyLimitReached x v : history (assign_isVideoDailyLimitReached x v) = history v.
Proof. reflexivity. Qed.

Lemma apiKey_assign_isVideoDailyLimitReached x v : apiKey (assign_isVideoDailyLimitReached x v) = apiKey v.
Proof. reflexivity. Qed.

Lemma examplePrompts_assign_isVideoDailyLimitReached x v : examplePrompts (assign_isVideoDailyLimitReached x v) = examplePrompts v.
Proof. reflexivity. Qed.

Lemma isGeneratingNewPrompts_assign_isVideoDailyLimitReached x v : isGeneratingNewPrompts (assign_isVideoDailyLimitReached x v) = isGeneratingNewPrompts v.
Proof. reflexivity. Qed.

Lemma ai_assign_isVideoDailyLimitReached x v : ai (assign_isVideoDailyLimitReached x v) = ai v.
Proof. reflexivity. Qed.

Lemma isGenerating_assign_countdownInterval x v : isGenerating (assign_countdownInterval x v) = isGenerating v.
Proof. reflexivity. Qed.

Lemma isVideoDailyLimitReached_assign_countdownInterval x v : isVideoDailyLimitReached (assign_countdownInterval x v) = isVideoDailyLimitReached v.
Proof. reflexivity. Qed.

Lemma countdownInterval_assign_countdownInterval x v : countdownInterval (assign_countdownInterval x v) = x.
Proof. reflexivity. Qed.

Lemma uploadedImage_assign_countdownInterval x v : uploadedImage (assign_countdownInterval x v) = uploadedImage v.
Proof. reflexivity. Qed.

Lemma history_assign_countdownInterval x v : history (assign_countdownInterval x v) = history v.
Proof. reflexivity. Qed.

Lemma apiKey_assign_countdownInterval x v : apiKey (assign_countdownInterval x v) = apiKey v.
Proof. reflexivity. Qed.

Lemma examplePrompts_assign_countdownInterval x v : examplePrompts (assign_countdownInterval x v) = examplePrompts v.
Proof. reflexivity. Qed.

Lemma isGeneratingNewPrompts_assign_countdownInterval x v : isGeneratingNewPrompts (assign_countdownInterval x v) = isGeneratingNewPrompts v.
Proof. reflexivity. Qed.

Lemma ai_assign_countdownInterval x v : ai (assign_countdownInterval x v) = ai v.
Proof. reflexivity. Qed.

Lemma isGenerating_assign_uploadedImage x v : isGenerating (assign_uploadedImage x v) = isGenerating v.
Proof. reflexivity. Qed.

Lemma isVideoDailyLimitReached_assign_uploadedImage x v : isVideoDailyLimitReached (assign_uploadedImage x v) = isVideoDailyLimitReached v.
Proof. reflexivity. Qed.

Lemma countdownInterval_assign_uploadedImage x v : countdownInterval (assign_uploadedImage x v) = countdownInterval v.
Proof. reflexivity. Qed.

Lemma uploadedImage_assign_uploadedImage x v : uploadedImage (assign_uploadedImage x v) = x.
Proof. reflexivity. Qed.

Lemma history_assign_uploadedImage x v : history (assign_uploadedImage x v) = history v.
Proof. reflexivity. Qed.

Lemma apiKey_assign_uploadedImage x v : apiKey (assign_uploadedImage x v) = apiKey v.
Proof. reflexivity. Qed.

Lemma examplePrompts_assign_uploadedImage x v : examplePrompts (assign_uploadedImage x v) = examplePrompts v.
Proof. reflexivity. Qed.

Lemma isGeneratingNewPrompts_assign_uploadedImage x v : isGeneratingNewPrompts (assign_uploadedImage x v) = isGeneratingNewPrompts v.
Proof. reflexivity. Qed.

Lemma ai_assign_uploadedImage x v : ai (assign_uploadedImage x v) = ai v.
Proof. reflexivity. Qed.

Lemma isGenerating_assign_history x v : isGenerating (assign_history x v) = isGenerating v.
Proof. reflexivity. Qed.

Lemma isVideoDailyLimitReached_assign_history x v : isVideoDailyLimitReached (assign_history x v) = isVideoDailyLimitReached v.
Proof. reflexivity. Qed.

Lemma countdownInterval_assign_history x v : countdownInterval (assign_history x v) = countdownInterval v.
Proof. reflexivity. Qed.

Lemma uploadedImage_assign_history x v : uploadedImage (assign_history x v) = uploadedImage v.
Proof. reflexivity. Qed.

Lemma history_assign_history x v : history (assign_history x v) = x.
Proof. reflexivity. Qed.

Lemma apiKey_assign_history x v : apiKey (assign_history x v) = apiKey v.
Proof. reflexivity. Qed.

Lemma examplePrompts_assign_history x v : examplePrompts (assign_history x v) = examplePrompts v.
Proof. reflexivity. Qed.

Lemma isGeneratingNewPrompts_assign_history x v : isGeneratingNewPrompts (assign_history x v) = isGeneratingNewPrompts v.
Proof. reflexivity. Qed.

Lemma ai_assign_history x v : ai (assign_history x v) = ai v.
Proof. reflexivity. Qed.

Lemma isGenerating_assign_apiKey x v : isGenerating (assign_apiKey x v) = isGenerating v.
Proof. reflexivity. Qed.

Lemma isVideoDailyLimitReached_assign_apiKey x v : isVideoDailyLimitReached (assign_apiKey x v) = isVideoDailyLimitReached v.
Proof. reflexivity. Qed.

Lemma countdownInterval_assign_apiKey x v : countdownInterval (assign_apiKey x v) = countdownInterval v.
Proof. reflexivity. Qed.

Lemma uploadedImage_assign_apiKey x v : uploadedImage (assign_apiKey x v) = uploadedImage v.
Proof. reflexivity. Qed.

Lemma history_assign_apiKey x v : history (assign_apiKey x v) = history v.
Proof. reflexivity. Qed.

Lemma apiKey_assign_apiKey x v : apiKey (assign_apiKey x v) = x.
Proof. reflexivity. Qed.

Lemma examplePrompts_assign_apiKey x v : examplePrompts (assign_apiKey x v) = examplePrompts v.
Proof. reflexivity. Qed.

Lemma isGeneratingNewPrompts_assign_apiKey x v : isGeneratingNewPrompts (assign_apiKey x v) = isGeneratingNewPrompts v.
Proof. reflexivity. Qed.

Lemma ai_assign_apiKey x v : ai (assign_apiKey x v) = ai v.
Proof. reflexivity. Qed.

Lemma isGenerating_assign_examplePrompts x v : isGenerating (assign_examplePrompts x v) = isGenerating v.
Proof. reflexivity. Qed.

Lemma isVideoDailyLimitReached_assign_examplePrompts x v : isVideoDailyLimitReached (assign_examplePrompts x v) = isVideoDailyLimitReached v.
Proof. reflexivity. Qed.

Lemma countdownInterval_assign_examplePrompts x v : countdownInterval (assign_examplePrompts x v) = countdownInterval v.
Proof. reflexivity. Qed.

Lemma uploadedImage_assign_examplePrompts x v : uploadedImage (assign_examplePrompts x v) = uploadedImage v.
Proof. reflexivity. Qed.

Lemma history_assign_examplePrompts x v : history (assign_examplePrompts x v) = history v.
Proof. reflexivity. Qed.

Lemma apiKey_assign_examplePrompts x v : apiKey (assign_examplePrompts x v) = apiKey v.
Proof. reflexivity. Qed.

Lemma examplePrompts_assign_examplePrompts x v : examplePrompts (assign_examplePrompts x v) = x.
Proof. reflexivity. Qed.

Lemma isGeneratingNewPrompts_assign_examplePrompts x v : isGeneratingNewPrompts (assign_examplePrompts x v) = isGeneratingNewPrompts v.
Proof. reflexivity. Qed.

Lemma ai_assign_examplePrompts x v : ai (assign_examplePrompts x v) = ai v.
Proof. reflexivity. Qed.

Lemma isGenerating_assign_isGeneratingNewPrompts x v : isGenerating (assign_isGeneratingNewPrompts x v) = isGenerating v.
Proof. reflexivity. Qed.

Lemma isVideoDailyLimitReached_assign_isGeneratingNewPrompts x v : isVideoDailyLimitReached (assign_isGeneratingNewPrompts x v) = isVideoDailyLimitReached v.
Proof. reflexivity. Qed.

Lemma countdownInterval_assign_isGeneratingNewPrompts x v : countdownInterval (assign_isGeneratingNewPrompts x v) = countdownInterval v.
Proof. reflexivity. Qed.

Lemma uploadedImage_assign_isGeneratingNewPrompts x v : uploadedImage (assign_isGeneratingNewPrompts x v) = uploadedImage v.
Proof. reflexivity. Qed.

Lemma history_assign_isGeneratingNewPrompts x v : history (assign_isGeneratingNewPrompts x v) = history v.
Proof. reflexivity. Qed.

Lemma apiKey_assign_isGeneratingNewPrompts x v : apiKey (assign_isGeneratingNewPrompts x v) = apiKey v.
Proof. reflexivity. Qed.

Lemma examplePrompts_assign_isGeneratingNewPrompts x v : examplePrompts (assign_isGeneratingNewPrompts x v) = examplePrompts v.
Proof. reflexivity. Qed.

Lemma isGeneratingNewPrompts_assign_isGeneratingNewPrompts x v : isGeneratingNewPrompts (assign_isGeneratingNewPrompts x v) = x.
Proof. reflexivity. Qed.

Lemma ai_assign_isGeneratingNewPrompts x v : ai (assign_isGeneratingNewPrompts x v) = ai v.
Proof. reflexivity. Qed.

Lemma isGenerating_assign_ai x v : isGenerating (assign_ai x v) = isGenerating v.
Proof. reflexivity. Qed.

Lemma isVideoDailyLimitReached_assign_ai x v : isVideoDailyLimitReached (assign_ai x v) = isVideoDailyLimitReached v.
Proof. reflexivity. Qed.

Lemma countdownInterval_assign_ai x v : countdownInterval (assign_ai x v) = countdownInterval v.
Proof. reflexivity. Qed.

Lemma uploadedImage_assign_ai x v : uploadedImage (assign_ai x v) = uploadedImage v.
Proof. reflexivity. Qed.

Lemma history_assign_ai x v : history (assign_ai x v) = history v.
Proof. reflexivity. Qed.

Lemma apiKey_assign_ai x v : apiKey (assign_ai x v) = apiKey v.
Proof. reflexivity. Qed.

Lemma examplePrompts_assign_ai x v : examplePrompts (assign_ai x v) = examplePrompts v.
Proof. reflexivity. Qed.

Lemma isGeneratingNewPrompts_assign_ai x v : isGeneratingNewPrompts (assign_ai x v) = isGeneratingNewPrompts v.
Proof. reflexivity. Qed.

Lemma ai_assign_ai x v : ai (assign_ai x v) = x.
Proof. reflexivity. Qed.

Lemma attr_write_attr e a x d e' a' :
  attr (write_attr e a x d) e' a' =
  if Elem_beq e e' && Attr_beq a a' then x else attr d e' a'.
Proof. reflexivity. Qed.

Lemma flag_write_attr e a x d e' p' :
  flag (write_attr e a x d) e' p' = flag d e' p'.
Proof. reflexivity. Qed.

Lemma historyGrid_write_attr e a x d : historyGrid (write_attr e a x d) = historyGrid d.
Proof. reflexivity. Qed.

Lemma examplePromptItems_write_attr e a x d : examplePromptItems (write_attr e a x d) = examplePromptItems d.
Proof. reflexivity. Qed.

Lemma attr_write_flag e p x d e' a' :
  attr (write_flag e p x d) e' a' = attr d e' a'.
Proof. reflexivity. Qed.

Lemma flag_write_flag e p x d e' p' :
  flag (write_flag e p x d) e' p' =
  if Elem_beq e e' && Flag_beq p p' then x else flag d e' p'.
Proof. reflexivity. Qed.

Lemma historyGrid_write_flag e p x d : historyGrid (write_flag e p x d) = historyGrid d.
Proof. reflexivity. Qed.

Lemma examplePromptItems_write_flag e p x d : examplePromptItems (write_flag e p x d) = examplePromptItems d.
Proof. reflexivity. Qed.

Lemma attr_write_historyGrid l d e' a' :
  attr (write_historyGrid l d) e' a' = attr d e' a'.
Proof. reflexivity. Qed.

Lemma flag_write_historyGrid l d e' p' :
  flag (write_historyGrid l d) e' p' = flag d e' p'.
Proof. reflexivity. Qed.

Lemma historyGrid_write_historyGrid l d : historyGrid (write_historyGrid l d) = l.
Proof. reflexivity. Qed.

Lemma examplePromptItems_write_historyGrid l d : examplePromptItems (write_historyGrid l d) = examplePromptItems d.
Proof. reflexivity. Qed.

Lemma attr_write_examplePromptItems l d e' a' :
  attr (write_examplePromptItems l d) e' a' = attr d e' a'.
Proof. reflexivity. Qed.

Lemma flag_write_examplePromptItems l d e' p' :
  flag (write_examplePromptItems l d) e' p' = flag d e' p'.
Proof. reflexivity. Qed.

Lemma historyGrid_write_examplePromptItems l d : historyGrid (write_examplePromptItems l d) = historyGrid d.
Proof. reflexivity. Qed.

Lemma examplePromptItems_write_examplePromptItems l d : examplePromptItems (write_examplePromptItems l d) = l.
Proof. reflexivity. Qed.

Lemma stored_apiKey_put_apiKey k s : stored_apiKey (put_apiKey k s) = k.
Proof. reflexivity. Qed.

Lemma stored_history_put_apiKey k s : stored_history (put_apiKey k s) = stored_history s.
Proof. reflexivity. Qed.

Lemma stored_apiKey_put_history h s : stored_apiKey (put_history h s) = stored_apiKey s.
Proof. reflexivity. Qed.

Lemma stored_history_put_history h s : stored_history (put_history h s) = Some h.
Proof. reflexivity. Qed.

Lemma upd_attr_read e a x (f : Elem -> Attr -> string) e' a' :
  upd_attr e a x f e' a' =
  if Elem_beq e e' && Attr_beq a a' then x else f e' a'.
Proof. reflexivity. Qed.

Lemma upd_flag_read e p x (f : Elem -> Flag -> bool) e' p' :
  upd_flag e p x f e' p' =
  if Elem_beq e e' && Flag_beq p p' then x else f e' p'.
Proof. reflexivity. Qed.

End Reads.

Create Rewrite HintDb page.

#[global] Hint Rewrite
  vars_with_vars dom_with_vars localStorage_with_vars requests_with_vars
  now_with_vars timers_with_vars vars_with_dom dom_with_dom
  localStorage_with_dom requests_with_dom now_with_dom timers_with_dom
  vars_with_localStorage dom_with_localStorage
  localStorage_with_localStorage requests_with_localStorage
  now_with_localStorage timers_with_localStorage vars_elapse dom_elapse
  localStorage_elapse requests_elapse now_elapse timers_elapse vars_send
  dom_send localStorage_send requests_send now_send timers_send
  vars_new_timer dom_new_timer localStorage_new_timer requests_new_timer
  now_new_timer timers_new_timer isGenerating_assign_isGenerating
  isVideoDailyLimitReached_assign_isGenerating
  countdownInterval_assign_isGenerating uploadedImage_assign_isGenerating
  history_assign_isGenerating apiKey_assign_isGenerating
  examplePrompts_assign_isGenerating
  isGeneratingNewPrompts_assign_isGenerating ai_assign_isGenerating
  isGenerating_assign_isVideoDailyLimitReached
  isVideoDailyLimitReached_assign_isVideoDailyLimitReached
  countdownInterval_assign_isVideoDailyLimitReached
  uploadedImage_assign_isVideoDailyLimitReached
  history_assign_isVideoDailyLimitReached
  apiKey_assign_isVideoDailyLimitReached
  examplePrompts_assign_isVideoDailyLimitReached
  isGeneratingNewPrompts_assign_isVideoDailyLimitReached
  ai_assign_isVideoDailyLimitReached isGenerating_assign_countdownInterval
  isVideoDailyLimitReached_assign_countdownInterval
  countdownInterval_assign_countdownInterval
  uploadedImage_assign_countdownInterval history_assign_countdownInterval
  apiKey_assign_countdownInterval examplePrompts_assign_countdownInterval
  isGeneratingNewPrompts_assign_countdownInterval
  ai_assign_countdownInterval isGenerating_assign_uploadedImage
  isVideoDailyLimitReached_assign_uploadedImage
  countdownInterval_assign_uploadedImage uploadedImage_assign_uploadedImage
  history_assign_uploadedImage apiKey_assign_uploadedImage
  examplePrompts_assign_uploadedImage
  isGeneratingNewPrompts_assign_uploadedImage ai_assign_uploadedImage
  isGenerating_assign_history isVideoDailyLimitReached_assign_history
  countdownInterval_assign_history uploadedImage_assign_history
  history_assign_history apiKey_assign_history
  examplePrompts_assign_history isGeneratingNewPrompts_assign_history
  ai_assign_history isGenerating_assign_apiKey
  isVideoDailyLimitReached_assign_apiKey countdownInterval_assign_apiKey
  uploadedImage_assign_apiKey history_assign_apiKey apiKey_assign_apiKey
  examplePrompts_assign_apiKey isGeneratingNewPrompts_assign_apiKey
  ai_assign_apiKey isGenerating_assign_examplePrompts
  isVideoDailyLimitReached_assign_examplePrompts
  countdownInterval_assign_examplePrompts
  uploadedImage_assign_examplePrompts history_assign_examplePrompts
  apiKey_assign_examplePrompts examplePrompts_assign_examplePrompts
  isGeneratingNewPrompts_assign_examplePrompts ai_assign_examplePrompts
  isGenerating_assign_isGeneratingNewPrompts
  isVideoDailyLimitReached_assign_isGeneratingNewPrompts
  countdownInterval_assign_isGeneratingNewPrompts
  uploadedImage_assign_isGeneratingNewPrompts
  history_assign_isGeneratingNewPrompts
  apiKey_assign_isGeneratingNewPrompts
  examplePrompts_assign_isGeneratingNewPrompts
  isGeneratingNewPrompts_assign_isGeneratingNewPrompts
  ai_assign_isGeneratingNewPrompts isGenerating_assign_ai
  isVideoDailyLimitReached_assign_ai countdownInterval_assign_ai
  uploadedImage_assign_ai history_assign_ai apiKey_assign_ai
  examplePrompts_assign_ai isGeneratingNewPrompts_assign_ai ai_assign_ai
  attr_write_attr flag_write_attr historyGrid_write_attr
  examplePromptItems_write_attr attr_write_flag flag_write_flag
  historyGrid_write_flag examplePromptItems_write_flag
  attr_write_historyGrid flag_write_historyGrid
  historyGrid_write_historyGrid examplePromptItems_write_historyGrid
  attr_write_examplePromptItems flag_write_examplePromptItems
  historyGrid_write_examplePromptItems
  examplePromptItems_write_examplePromptItems stored_apiKey_put_apiKey
  stored_history_put_apiKey stored_apiKey_put_history
  stored_history_put_history upd_attr_read upd_flag_read : page.

(** Unfold the compound assignments and the shorthands for reads. *)
Ltac peel :=
  unfold status, videoMode, promptIsEmpty, has_ai;
  unfold addToHistory, handleModeChange; cbv zeta;
  unfold renderHistory, saveHistory, populateExamplePrompts, setStatus;
  unfold set_attr, set_flag, set_historyGrid, set_examplePromptItems,
    set_isGenerating, set_isVideoDailyLimitReached, set_countdownInterval,
    set_uploadedImage, set_history, set_apiKey, set_examplePrompts,
    set_isGeneratingNewPrompts, set_ai, store_apiKey, store_history.

Ltac peel_in H :=
  unfold status, videoMode, promptIsEmpty, has_ai in H;
  unfold addToHistory, handleModeChange in H; cbv zeta in H;
  unfold renderHistory, saveHistory, populateExamplePrompts, setStatus in H;
  unfold set_attr, set_flag, set_historyGrid, set_examplePromptItems,
    set_isGenerating, set_isVideoDailyLimitReached, set_countdownInterval,
    set_uploadedImage, set_history, set_apiKey, set_examplePrompts,
    set_isGeneratingNewPrompts, set_ai, store_apiKey, store_history in H.

(** Decide the key tests and the closed forms on concrete keys. *)
Ltac keys :=
  cbn [ui_flag ui_attr countdown_attr Elem_beq Attr_beq Flag_beq
       andb orb negb fst snd].
Ltac keys_in H :=
  cbn [ui_flag ui_attr countdown_attr Elem_beq Attr_beq Flag_beq
       andb orb negb fst snd] in H.

(* ================================================================== *)
(** ** What the synchronous functions change *)

Section Frames.

Implicit Types (w : World).

(** Case analysis on the tests of [updateUIState]. *)
Ltac ui_cases w :=
  let busy := fresh "busy" in
  let limit := fresh "limit" in
  let uploaded := fresh "uploaded" in
  let client := fresh "client" in
  let d := fresh "d" in
  let Hv := fresh "Hv" in
  destruct w as [[busy limit ? uploaded ? ? ? ? client] d ? ? ? ?];
  unfold updateUIState, ui_flag, ui_attr, setStatus, has_ai, videoMode,
    promptIsEmpty;
  destruct busy, client, limit, uploaded; cbn;
  destruct (flag d videoModeRadio checked) eqn:Hv; cbn;
  rewrite ?Hv; cbn; try reflexivity.

Lemma vars_updateUIState w : vars (updateUIState w) = vars w.
Proof. ui_cases w. Qed.

Lemma localStorage_updateUIState w :
  localStorage (updateUIState w) = localStorage w.
Proof. ui_cases w. Qed.

Lemma requests_updateUIState w : requests (updateUIState w) = requests w.
Proof. ui_cases w. Qed.

Lemma now_updateUIState w : now (updateUIState w) = now w.
Proof. ui_cases w. Qed.

Lemma timers_updateUIState w : timers (updateUIState w) = timers w.
Proof. ui_cases w. Qed.

Lemma historyGrid_updateUIState w :
  historyGrid (dom (updateUIState w)) = historyGrid (dom w).
Proof. ui_cases w. Qed.

Lemma examplePromptItems_updateUIState w :
  examplePromptItems (dom (updateUIState w)) = examplePromptItems (dom w).
Proof. ui_cases w. Qed.

(** The boolean properties after [updateUIState]. *)
Lemma flag_updateUIState w e p :
  flag (dom (updateUIState w)) e p = ui_flag w e p.
Proof.
  ui_cases w; destruct e; try reflexivity; destruct p; cbn;
    rewrite ?orb_true_r, ?orb_false_r; reflexivity.
Qed.

(** The string properties after [updateUIState]. *)
Lemma attr_updateUIState w e a :
  attr (dom (updateUIState w)) e a = ui_attr w e a.
Proof.
  ui_cases w; destruct e; try reflexivity; destruct a; reflexivity.
Qed.

(** [resetUI] is [updateUIState] after three assignments. *)
Lemma vars_resetUI w :
  vars (resetUI w) =
  assign_countdownInterval None (assign_isGenerating false (vars w)).
Proof.
  unfold resetUI. cbv zeta. rewrite vars_updateUIState.
  destruct w as [[? ? countdown ? ? ? ? ? ?] ? ? ? ? ?].
  destruct countdown; reflexivity.
Qed.

Ltac reset_cases w :=
  unfold resetUI; cbv zeta;
  destruct w as [[? ? countdown ? ? ? ? ? ?] ? ? ? ? ?];
  destruct countdown.

Lemma localStorage_resetUI w : localStorage (resetUI w) = localStorage w.
Proof. reset_cases w; rewrite localStorage_updateUIState; reflexivity. Qed.

Lemma requests_resetUI w : requests (resetUI w) = requests w.
Proof. reset_cases w; rewrite requests_updateUIState; reflexivity. Qed.

Lemma now_resetUI w : now (resetUI w) = now w.
Proof. reset_cases w; rewrite now_updateUIState; reflexivity. Qed.

Lemma timers_resetUI w : timers (resetUI w) = timers w.
Proof. reset_cases w; rewrite timers_updateUIState; reflexivity. Qed.

Lemma historyGrid_resetUI w :
  historyGrid (dom (resetUI w)) = historyGrid (dom w).
Proof. reset_cases w; rewrite historyGrid_updateUIState; reflexivity. Qed.

Lemma examplePromptItems_resetUI w :
  examplePromptItems (dom (resetUI w)) = examplePromptItems (dom w).
Proof.
  reset_cases w; rewrite examplePromptItems_updateUIState; reflexivity.
Qed.

Lemma flag_resetUI w e p :
  flag (dom (resetUI w)) e p = ui_flag (set_isGenerating false w) e p.
Proof. reset_cases w; rewrite flag_updateUIState; reflexivity. Qed.

Lemma attr_resetUI w e a :
  attr (dom (resetUI w)) e a =
  ui_attr
    (set_attr queueStatusContainer display "none"
       (set_isGenerating false w)) e a.
Proof. reset_cases w; rewrite attr_updateUIState; reflexivity. Qed.

Ltac countdown_cases w :=
  unfold startCountdown, countdown_attr, videoMode; cbn;
  destruct (flag (dom w) videoModeRadio checked); try reflexivity.

Lemma vars_startCountdown seconds w :
  vars (startCountdown seconds w) =
  assign_countdownInterval (Some (S (timers w))) (vars w).
Proof. countdown_cases w. Qed.

Lemma localStorage_startCountdown seconds w :
  localStorage (startCountdown seconds w) = localStorage w.
Proof. countdown_cases w. Qed.

Lemma requests_startCountdown seconds w :
  requests (startCountdown seconds w) = requests w.
Proof. countdown_cases w. Qed.

Lemma now_startCountdown seconds w :
  now (startCountdown seconds w) = now w.
Proof. countdown_cases w. Qed.

Lemma timers_startCountdown seconds w :
  timers (startCountdown seconds w) = S (timers w).
Proof. countdown_cases w. Qed.

Lemma historyGrid_startCountdown seconds w :
  historyGrid (dom (startCountdown seconds w)) = historyGrid (dom w).
Proof. countdown_cases w. Qed.

Lemma examplePromptItems_startCountdown seconds w :
  examplePromptItems (dom (startCountdown seconds w)) =
  examplePromptItems (dom w).
Proof. countdown_cases w. Qed.

Lemma flag_startCountdown seconds w e p :
  flag (dom (startCountdown seconds w)) e p = flag (dom w) e p.
Proof. countdown_cases w. Qed.

Lemma attr_startCountdown seconds w e a :
  attr (dom (startCountdown seconds w)) e a = countdown_attr seconds w e a.
Proof.
  countdown_cases w; destruct e; try reflexivity; destruct a; reflexivity.
Qed.

Lemma promptIsEmpty_false w :
  Js.trim (attr (dom w) promptInput value) <> "" ->
  (String.length (Js.trim (attr (dom w) promptInput value)) =? 0)%nat
  = false.
Proof. destruct (Js.trim _); [congruence | reflexivity]. Qed.

End Frames.

(** The assignments before the [try] of [handleGenerateClick]. *)
Lemma startGenerating_assignments w :
  startGenerating w =
  set_attr downloadButton display "none"
    (set_attr videoPlayer display "none"
       (set_attr imageOutput display "none"
          (set_attr outputPlaceholder display "none"
             (setStatus "" (updateUIState (set_isGenerating true w)))))).
Proof. reflexivity. Qed.

#[global] Hint Rewrite startGenerating_assignments
  vars_updateUIState localStorage_updateUIState requests_updateUIState
  now_updateUIState timers_updateUIState historyGrid_updateUIState
  examplePromptItems_updateUIState flag_updateUIState attr_updateUIState
  vars_resetUI localStorage_resetUI requests_resetUI now_resetUI
  timers_resetUI historyGrid_resetUI examplePromptItems_resetUI
  flag_resetUI attr_resetUI
  vars_startCountdown localStorage_startCountdown requests_startCountdown
  now_startCountdown timers_startCountdown historyGrid_startCountdown
  examplePromptItems_startCountdown flag_startCountdown attr_startCountdown
  length_app : page.

(** Rewriting under the addition of the clock goes through this
    congruence. *)
#[global] Instance Z_add_eq_proper : Proper (eq ==> eq ==> eq) Z.add | 0.
Proof. intros a a' -> b b' ->. reflexivity. Qed.

(** Push the reads through the straight-line code, outermost first.  The
    assignments are matched by name, never by unfolding them. *)
Ltac page_rewrite :=
  with_strategy opaque
    [elapse send new_timer with_vars with_dom with_localStorage
     write_attr write_flag write_historyGrid write_examplePromptItems
     upd_attr upd_flag put_apiKey put_history
     assign_isGenerating assign_isVideoDailyLimitReached
     assign_countdownInterval assign_uploadedImage assign_history
     assign_apiKey assign_examplePrompts assign_isGeneratingNewPrompts
     assign_ai updateUIState resetUI startCountdown startGenerating
     loadHistory handleFileUpload removeUploadedImage unshift_capped reload]
    (rewrite_strat (topdown (hints page))).
Ltac page_rewrite_in H :=
  with_strategy opaque
    [elapse send new_timer with_vars with_dom with_localStorage
     write_attr write_flag write_historyGrid write_examplePromptItems
     upd_attr upd_flag put_apiKey put_history
     assign_isGenerating assign_isVideoDailyLimitReached
     assign_countdownInterval assign_uploadedImage assign_history
     assign_apiKey assign_examplePrompts assign_isGeneratingNewPrompts
     assign_ai updateUIState resetUI startCountdown startGenerating
     loadHistory handleFileUpload removeUploadedImage unshift_capped reload]
    (rewrite_strat (topdown (hints page)) in H).
Ltac page_simpl :=
  repeat (progress (peel; try page_rewrite; keys)).
Ltac page_simpl_in H :=
  repeat (progress (peel_in H; try page_rewrite_in H; keys_in H)).

(* ================================================================== *)
(** ** The guard of the generate handler *)

(** C2. A call of [handleGenerateClick] while the page is busy, or the
    trimmed prompt is empty, or no client was set up, returns at once: the
    world, and with it the request log, is unchanged. *)
Theorem generate_guard_noop (env : Remote) (w : World) :
  isGenerating (vars w) = true
  \/ Js.trim (attr (dom w) promptInput value) = ""
  \/ ai (vars w) = None ->
  handleGenerateClick env w = (Normal tt, w).
Proof.
  intros H. unfold handleGenerateClick.
  assert (Hg : isGenerating (vars w) || promptIsEmpty w || negb (has_ai w)
               = true).
  { destruct H as [H | [H | H]].
    - rewrite H. reflexivity.
    - unfold promptIsEmpty. rewrite H. apply orb_true_iff. left.
      apply orb_true_r.
    - unfold has_ai. rewrite H. apply orb_true_r. }
  rewrite Hg. reflexivity.
Qed.

Lemma generate_guard_noop_witness :
  handleGenerateClick Sample.slow_video Sample.fresh
  = (Normal tt, Sample.fresh).
Proof.
  apply (generate_guard_noop Sample.slow_video Sample.fresh).
  right. left. reflexivity.
Defined.

(* ================================================================== *)
(** ** The key store *)

Section KeyStore.

Variable env : Remote.

(** The two ways through [initializeAppWithKey]. *)
Lemma initializeAppWithKey_run key w :
  let tempAi := {| client_apiKey := key |} in
  let probed :=
    elapse (Z.of_N (latency env (length (requests w))))
      (send (generateContent tempAi "gemini-2.5-flash" (Text "test") false)
         (set_apiKey (Some key) w)) in
  initializeAppWithKey env key w =
  match content_reply env (length (requests w)) with
  | Fulfilled _ =>
      (Normal tt,
       setStatus ""
         (set_flag apiKeyModalOverlay class_visible false
            (updateUIState
               (handleModeChange
                  (populateExamplePrompts
                     (set_isGenerating false
                        (store_apiKey (Some key)
                           (set_ai (Some tempAi) probed))))))))
  | Rejected _ =>
      (Normal tt,
       set_flag apiKeyModalOverlay class_visible true
         (set_attr apiKeyInput value ""
            (set_apiKey None
               (store_apiKey None
                  (updateUIState
                     (set_isGenerating true
                        (setStatus API_KEY_INVALID probed)))))))
  end.
Proof.
  unfold initializeAppWithKey, bind, exec, try_catch, await.
  change (length (requests (set_apiKey (Some key) w)))
    with (length (requests w)).
  destruct (content_reply env (length (requests w))); reflexivity.
Qed.


End KeyStore.

(** C9. [initializeAppWithKey] probes the service once with the candidate
    key.  If the probe succeeds the candidate becomes the client and the
    current key, it is stored, the modal closes and the status line is
    cleared.  If the probe fails the candidate is dropped: the client is the
    one from before, the current key and the stored key are gone, the
    status line reports the invalid key, and the modal is shown again with
    an empty input. *)
Theorem key_validation_all_or_nothing
    (env : Remote) (key : string) (w : World) :
  let tempAi := {| client_apiKey := key |} in
  let w' := snd (initializeAppWithKey env key w) in
  fst (initializeAppWithKey env key w) = Normal tt
  /\ requests w' =
     (requests w ++
       [generateContent tempAi "gemini-2.5-flash" (Text "test") false])%list
  /\ match content_reply env (length (requests w)) with
     | Fulfilled _ =>
         ai (vars w') = Some tempAi
         /\ apiKey (vars w') = Some key
         /\ stored_apiKey (localStorage w') = Some key
         /\ status w' = ""
         /\ flag (dom w') apiKeyModalOverlay class_visible = false
         /\ isGenerating (vars w') = false
     | Rejected _ =>
         ai (vars w') = ai (vars w)
         /\ apiKey (vars w') = None
         /\ stored_apiKey (localStorage w') = None
         /\ status w' = API_KEY_INVALID
         /\ flag (dom w') apiKeyModalOverlay class_visible = true
         /\ attr (dom w') apiKeyInput value = ""
         /\ isGenerating (vars w') = true
     end.
Proof.
  intros tempAi w'. subst w' tempAi.
  rewrite initializeAppWithKey_run. cbv zeta.
  destruct (content_reply env (length (requests w))) as [text | e];
    (split; [reflexivity |]); cbn [snd].
  - repeat split; page_simpl; reflexivity.
  - repeat split; page_simpl; reflexivity.
Qed.

(* ================================================================== *)
(** ** The polling loop *)

Section Polling.

Variable env : Remote.

Lemma same_page_refl w : same_page w w.
Proof. repeat split. Qed.

Lemma same_page_trans w1 w2 w3 :
  same_page w1 w2 -> same_page w2 w3 -> same_page w1 w3.
Proof.
  intros (? & ? & ? & ?) (? & ? & ? & ?). repeat split; congruence.
Qed.

Lemma pollLoop_unfold fuel startTime operation w :
  pollLoop env (S fuel) startTime operation w =
  if negb (done operation) && (now w - startTime <? TIMEOUT_MS)%Z then
    match pollOnce env operation w with
    | (Normal operation', w') => pollLoop env fuel startTime operation' w'
    | (Throw e, w') => (Throw e, w')
    | (OutOfFuel, w') => (OutOfFuel, w')
    end
  else (Normal operation, w).
Proof.
  cbn [pollLoop]. destruct (negb (done operation) && _); reflexivity.
Qed.

(** An exception of the run-time carries no signal of the service. *)
Lemma analyzeApiError_TypeError : analyzeApiError TypeError = OTHER.
Proof. vm_compute. reflexivity. Qed.

(** One iteration takes at least the polling interval, sends at most one
    request, a poll, and leaves the page alone. *)
Lemma pollOnce_spec operation w :
  let r := pollOnce env operation w in
  fst r <> OutOfFuel
  /\ same_page w (snd r)
  /\ (now w + POLL_INTERVAL_MS <= now (snd r))%Z
  /\ exists polls,
       requests (snd r) = (requests w ++ polls)%list
       /\ Forall (fun q => is_poll q = true) polls
       /\ (length polls <= 1)%nat.
Proof.
  unfold pollOnce, bind, sleep, try_catch, the_ai, await, throw, ret.
  cbn -[Z.add]. unfold POLL_INTERVAL_MS.
  destruct (ai (vars w)) as [c |]; cbn -[Z.add].
  - destruct (poll_reply env _) as [op' | e]; cbn -[Z.add];
      [| destruct (ErrorType_eqb _ _); cbn -[Z.add] ];
      (split; [discriminate |]);
      (split; [repeat split |]);
      (split; [lia |]);
      (eexists [_]; split; [reflexivity |]; split;
       [repeat constructor | cbn; lia]).
  - rewrite analyzeApiError_TypeError. cbn -[Z.add].
    split; [discriminate |]. split; [repeat split |].
    split; [lia |].
    exists []. rewrite app_nil_r. split; [reflexivity |].
    split; [constructor | cbn; lia].
Qed.

(** The loop ends within its fuel: it never runs dry, it leaves the
    page alone, and all it sends are polls. *)
Lemma pollLoop_spec fuel : forall startTime operation w,
  (TIMEOUT_MS - (now w - startTime)
     <= POLL_INTERVAL_MS * Z.of_nat fuel)%Z ->
  let r := pollLoop env fuel startTime operation w in
  fst r <> OutOfFuel
  /\ same_page w (snd r)
  /\ exists polls,
       requests (snd r) = (requests w ++ polls)%list
       /\ Forall (fun q => is_poll q = true) polls
       /\ (length polls <= fuel)%nat.
Proof.
  induction fuel as [| fuel IH]; intros startTime operation w Hfuel.
  - cbn [pollLoop].
    destruct (Z.ltb_spec (now w - startTime) TIMEOUT_MS) as [Hlt | Hge];
      [unfold POLL_INTERVAL_MS in Hfuel; lia |].
    rewrite andb_false_r. cbn.
    split; [discriminate |]. split; [apply same_page_refl |].
    exists []. rewrite app_nil_r.
    split; [reflexivity | split; [constructor | cbn; lia]].
  - rewrite pollLoop_unfold.
    destruct (negb (done operation) && _) eqn:Hcond.
    + apply andb_true_iff in Hcond as [_ Hlt]. apply Z.ltb_lt in Hlt.
      destruct (pollOnce_spec operation w)
        as (Hne & Hpage & Hnow & polls & Hreq & Hpolls & Hlen).
      destruct (pollOnce env operation w) as [[operation' | e |] w1];
        cbn in Hne, Hpage, Hnow, Hreq.
      * destruct (IH startTime operation' w1)
          as (Hne' & Hpage' & polls' & Hreq' & Hpolls' & Hlen').
        { unfold POLL_INTERVAL_MS in *. lia. }
        split; [exact Hne' |].
        split; [eapply same_page_trans; eassumption |].
        exists (polls ++ polls')%list.
        rewrite Hreq', Hreq, app_assoc.
        split; [reflexivity |].
        split; [apply Forall_app; split; assumption |].
        rewrite length_app. lia.
      * cbn. split; [discriminate |]. split; [exact Hpage |].
        exists polls.
        split; [exact Hreq | split; [exact Hpolls | lia]].
      * congruence.
    + cbn. split; [discriminate |]. split; [apply same_page_refl |].
      exists []. rewrite app_nil_r.
      split; [reflexivity | split; [constructor | cbn; lia]].
Qed.


End Polling.

(* ================================================================== *)
(** ** Frame rules for the monad *)

Section Keeps.

Context {B : Type} (g : World -> B).

Lemma keeps_ret {A} (a : A) : keeps g (ret a).
Proof. intros w. reflexivity. Qed.

Lemma keeps_throw {A} (e : JsError) : keeps g (@throw A e).
Proof. intros w. reflexivity. Qed.

Lemma keeps_gets {A} (f : World -> A) : keeps g (gets f).
Proof. intros w. reflexivity. Qed.

Lemma keeps_the_ai : keeps g the_ai.
Proof. intros w. unfold the_ai. destruct (ai (vars w)); reflexivity. Qed.

Lemma keeps_exec (f : World -> World) :
  (forall w, g (f w) = g w) -> keeps g (exec f).
Proof. intros H w. apply H. Qed.

Lemma keeps_bind {A C} (m : M A) (k : A -> M C) :
  keeps g m -> (forall a, keeps g (k a)) -> keeps g (bind m k).
Proof.
  intros Hm Hk w. unfold bind. specialize (Hm w).
  destruct (m w) as [[a | e |] w1]; cbn in Hm |- *;
    [rewrite (Hk a w1) |..]; exact Hm.
Qed.

Lemma keeps_try_catch {A} (m : M A) (h : JsError -> M A) :
  keeps g m -> (forall e, keeps g (h e)) -> keeps g (try_catch m h).
Proof.
  intros Hm Hh w. unfold try_catch. specialize (Hm w).
  destruct (m w) as [[a | e |] w1]; cbn in Hm |- *;
    [| rewrite (Hh e w1) |]; exact Hm.
Qed.

Lemma keeps_try_finally {A} (m : M A) (f : World -> World) :
  keeps g m -> (forall w, g (f w) = g w) -> keeps g (try_finally m f).
Proof.
  intros Hm Hf w. unfold try_finally. specialize (Hm w).
  destruct (m w) as [r w1]. cbn in Hm |- *. rewrite Hf. exact Hm.
Qed.

Lemma keeps_await env {A} (reply : Remote -> nat -> Settled A) r :
  (forall w ms, g (elapse ms (send r w)) = g w) ->
  keeps g (await env reply r).
Proof.
  intros H w. unfold await. destruct (reply env _); apply H.
Qed.

Lemma keeps_sleep env ms :
  (forall w t, g (elapse t w) = g w) -> keeps g (sleep env ms).
Proof. intros H w. apply H. Qed.

Lemma keeps_pollLoop env fuel : forall startTime operation,
  (forall operation, keeps g (pollOnce env operation)) ->
  keeps g (pollLoop env fuel startTime operation).
Proof.
  induction fuel as [| fuel IH]; intros startTime operation Hbody w.
  - cbn [pollLoop]. destruct (negb (done operation) && _); reflexivity.
  - cbn [pollLoop]. destruct (negb (done operation) && _); [| reflexivity].
    apply (keeps_bind (pollOnce env operation)
             (fun operation' => pollLoop env fuel startTime operation'));
      [apply Hbody | intros operation'; apply IH, Hbody].
Qed.

End Keeps.

(** Take a computation apart along its structure; what is left are the
    assignments, which the caller discharges. *)
Ltac keeps_step :=
  lazymatch goal with
  | |- keeps _ (bind _ _) => apply keeps_bind; [| intros ?]
  | |- keeps _ (try_catch _ _) => apply keeps_try_catch; [| intros ?]
  | |- keeps _ (try_finally _ _) => apply keeps_try_finally; [| intros ?]
  | |- keeps _ (ret _) => apply keeps_ret
  | |- keeps _ (throw _) => apply keeps_throw
  | |- keeps _ (gets _) => apply keeps_gets
  | |- keeps _ the_ai => apply keeps_the_ai
  | |- keeps _ (exec _) => apply keeps_exec; intros ?
  | |- keeps _ (await _ _ _) => apply keeps_await; intros ? ?
  | |- keeps _ (sleep _ _) => apply keeps_sleep; intros ? ?
  | |- keeps _ (pollLoop _ _ _ _) => apply keeps_pollLoop; intros ?
  | |- keeps _ (pollOnce _ _) => unfold pollOnce
  | |- keeps _ (match ?x with _ => _ end) => destruct x
  | |- keeps _ (let _ := _ in _) => cbv zeta
  end.

Ltac keeps_structure := repeat keeps_step.

(** Discharge an assignment: the observation reads the same after it. *)
Ltac same_read g := unfold g; page_simpl; reflexivity.

Section GenerationFrames.

Variable env : Remote.

Lemma generateImage_keeps_inputs : keeps inputs (generateImage env).
Proof. unfold generateImage. keeps_structure; same_read inputs. Qed.

Lemma generateVideo_keeps_inputs : keeps inputs (generateVideo env).
Proof.
  unfold generateVideo, pollOnce. keeps_structure; same_read inputs.
Qed.

End GenerationFrames.

(* ================================================================== *)
(** ** Stepping through a computation *)

Section Ensures.

Context {A : Type}.
Implicit Types (w : World) (Q : Outcome A -> World -> Prop).

Lemma ensures_ret (a : A) w Q : Q (Normal a) w -> ensures (ret a) w Q.
Proof. exact (fun H => H). Qed.

Lemma ensures_throw e w Q : Q (Throw e) w -> ensures (throw e) w Q.
Proof. exact (fun H => H). Qed.

Lemma ensures_gets (f : World -> A) w Q :
  Q (Normal (f w)) w -> ensures (gets f) w Q.
Proof. exact (fun H => H). Qed.

Lemma ensures_bind {B} (m : M B) (k : B -> M A) w Q :
  ensures m w
    (fun r w' =>
       match r with
       | Normal b => ensures (k b) w' Q
       | Throw e => Q (Throw e) w'
       | OutOfFuel => Q OutOfFuel w'
       end) ->
  ensures (bind m k) w Q.
Proof.
  unfold ensures, bind. destruct (m w) as [[b | e |] w']; exact (fun H => H).
Qed.

Lemma ensures_try_catch (m : M A) (h : JsError -> M A) w Q :
  ensures m w
    (fun r w' =>
       match r with
       | Normal a => Q (Normal a) w'
       | Throw e => ensures (h e) w' Q
       | OutOfFuel => Q OutOfFuel w'
       end) ->
  ensures (try_catch m h) w Q.
Proof.
  unfold ensures, try_catch.
  destruct (m w) as [[a | e |] w']; exact (fun H => H).
Qed.

Lemma ensures_try_finally (m : M A) (f : World -> World) w Q :
  ensures m w (fun r w' => Q r (f w')) -> ensures (try_finally m f) w Q.
Proof.
  unfold ensures, try_finally. destruct (m w) as [r w']. exact (fun H => H).
Qed.

Lemma ensures_await env (reply : Remote -> nat -> Settled A) r w Q :
  match reply env (length (requests w)) with
  | Fulfilled a =>
      Q (Normal a)
        (elapse (Z.of_N (latency env (length (requests w)))) (send r w))
  | Rejected e =>
      Q (Throw e)
        (elapse (Z.of_N (latency env (length (requests w)))) (send r w))
  end ->
  ensures (await env reply r) w Q.
Proof.
  unfold ensures, await. destruct (reply env _); exact (fun H => H).
Qed.

End Ensures.

Lemma ensures_exec (f : World -> World) w Q :
  Q (Normal tt) (f w) -> ensures (exec f) w Q.
Proof. exact (fun H => H). Qed.

Lemma ensures_sleep env ms w Q :
  Q (Normal tt)
    (elapse (ms + Z.of_N (timer_lag env (length (requests w)))) w) ->
  ensures (sleep env ms) w Q.
Proof. exact (fun H => H). Qed.

Lemma ensures_the_ai w Q :
  match ai (vars w) with
  | Some c => Q (Normal c) w
  | None => Q (Throw TypeError) w
  end ->
  ensures the_ai w Q.
Proof.
  unfold ensures, the_ai. destruct (ai (vars w)); exact (fun H => H).
Qed.

Lemma ensures_mono {A} (m : M A) w (Q Q' : Outcome A -> World -> Prop) :
  ensures m w Q -> (forall r w', Q r w' -> Q' r w') -> ensures m w Q'.
Proof. unfold ensures. intros H HQ. apply HQ, H. Qed.

(** What is to be shown of [m w], as a goal about [ensures]. *)
Lemma ensures_run {A} (m : M A) w (Q : Outcome A -> World -> Prop) :
  ensures m w Q -> Q (fst (m w)) (snd (m w)).
Proof. exact (fun H => H). Qed.

(** The same steps, with what is read given by an equation. *)
Lemma ensures_gets_eq {A} (f : World -> A) (a : A) w Q :
  f w = a -> Q (Normal a) w -> ensures (gets f) w Q.
Proof. intros <-. exact (fun H => H). Qed.

Lemma ensures_the_ai_some c w Q :
  ai (vars w) = Some c -> Q (Normal c) w -> ensures the_ai w Q.
Proof. intros H HQ. apply ensures_the_ai. rewrite H. exact HQ. Qed.

Lemma ensures_await_at {A} env (reply : Remote -> nat -> Settled A) r n w
    (Q : Outcome A -> World -> Prop) :
  length (requests w) = n ->
  match reply env n with
  | Fulfilled a => Q (Normal a) (elapse (Z.of_N (latency env n)) (send r w))
  | Rejected e => Q (Throw e) (elapse (Z.of_N (latency env n)) (send r w))
  end ->
  ensures (await env reply r) w Q.
Proof. intros <-. apply ensures_await. Qed.

(** One step of the computation at the head of the goal. *)
Ltac wp_step :=
  lazymatch goal with
  | |- ensures (bind _ _) _ _ => apply ensures_bind
  | |- ensures (try_catch _ _) _ _ => apply ensures_try_catch
  | |- ensures (try_finally _ _) _ _ => apply ensures_try_finally
  | |- ensures (exec _) _ _ => apply ensures_exec; cbv beta iota
  | |- ensures (gets _) _ _ => apply ensures_gets; cbv beta iota
  | |- ensures (ret _) _ _ => apply ensures_ret; cbv beta iota
  | |- ensures (throw _) _ _ => apply ensures_throw; cbv beta iota
  | |- ensures (sleep _ _) _ _ => apply ensures_sleep; cbv beta iota
  | |- ensures the_ai _ _ => apply ensures_the_ai
  | |- ensures (await _ _ _) _ _ => apply ensures_await
  | |- ensures (let _ := _ in _) _ _ => cbv zeta
  end.

Ltac wp := repeat wp_step.

(** A read of the current world: simplify it, then take its value from
    the hypotheses if they give it. *)
Ltac solve_read :=
  cbv beta; page_simpl; first [eassumption | reflexivity].

(** One step, evaluating what the step reads. *)
Ltac eval_step :=
  lazymatch goal with
  | |- ensures (bind _ _) _ _ => apply ensures_bind
  | |- ensures (try_catch _ _) _ _ => apply ensures_try_catch
  | |- ensures (try_finally _ _) _ _ => apply ensures_try_finally
  | |- ensures (exec _) _ _ => apply ensures_exec; cbv beta iota
  | |- ensures (gets _) _ _ =>
      eapply ensures_gets_eq; [solve_read | cbv beta iota]
  | |- ensures (ret _) _ _ => apply ensures_ret; cbv beta iota
  | |- ensures (throw _) _ _ => apply ensures_throw; cbv beta iota
  | |- ensures (sleep _ _) _ _ => apply ensures_sleep; cbv beta iota
  | |- ensures the_ai _ _ =>
      eapply ensures_the_ai_some; [solve_read | cbv beta iota]
  | |- ensures (await _ _ _) _ _ =>
      eapply ensures_await_at; [solve_read |]
  | |- ensures (let _ := _ in _) _ _ => cbv zeta
  end.

Ltac evaluate := repeat eval_step.

(* ================================================================== *)
(** ** Every generation ends in [resetUI] *)

Section Idle.

Implicit Types (w : World).

Lemma has_ai_true w : ai (vars w) <> None -> has_ai w = true.
Proof. unfold has_ai. destruct (ai (vars w)); congruence. Qed.

(** [resetUI] leaves an idle page, once the client exists. *)
Lemma idle_resetUI w : has_ai w = true -> idle (resetUI w).
Proof.
  unfold has_ai. intros Hai.
  split; page_simpl; try reflexivity;
    destruct (ai (vars w)); try discriminate; reflexivity.
Qed.

Lemma idle_setStatus text w : idle w -> idle (setStatus text w).
Proof.
  intros [? ? ? ? ? ? ? ? ? ? ?]. split; page_simpl; assumption.
Qed.

Lemma idle_addToHistory t d p w : idle w -> idle (addToHistory t d p w).
Proof.
  intros [? ? ? ? ? ? ? ? ? ? ?]. split; page_simpl; assumption.
Qed.

Lemma has_ai_resetUI w : has_ai (resetUI w) = has_ai w.
Proof. page_simpl. reflexivity. Qed.

(** Whatever came after [resetUI] kept the page idle. *)
Lemma after_resetUI_idle w : after_resetUI w -> has_ai w = true -> idle w.
Proof.
  intros [w0 -> | w0 text -> | w0 text t d p ->] Hai.
  - apply idle_resetUI. rewrite <- has_ai_resetUI. exact Hai.
  - apply idle_setStatus, idle_resetUI. rewrite <- has_ai_resetUI.
    revert Hai. page_simpl. trivial.
  - apply idle_addToHistory, idle_setStatus, idle_resetUI.
    rewrite <- has_ai_resetUI. revert Hai. page_simpl. trivial.
Qed.

End Idle.

Section Lifecycle.

Variable env : Remote.

(** The last steps of the image path. *)
Lemma generateImage_ends_reset w :
  ensures (generateImage env) w reset_or_thrown.
Proof.
  unfold generateImage. wp.
  destruct (uploadedImage (vars w)) as [img |]; wp.
  - destruct (ai _) as [c |]; wp.
    + destruct (content_reply env _) as [text | e]; wp.
      * destruct (ai _) as [c' |]; wp; [| exact I].
        destruct (images_reply env _) as [[| imageData rest] | e];
          wp; try exact I.
        eapply reset_then_status; reflexivity.
      * destruct (ErrorType_eqb _ _); wp; [exact I |].
        destruct (ai _) as [c' |]; wp; [| exact I].
        destruct (images_reply env _) as [[| imageData rest] | e'];
          wp; try exact I.
        eapply reset_then_status; reflexivity.
    + rewrite analyzeApiError_TypeError. cbn [ErrorType_eqb]. wp.
      destruct (ai _) as [c' |]; wp; [| exact I].
      destruct (images_reply env _) as [[| imageData rest] | e'];
        wp; try exact I.
      eapply reset_then_status; reflexivity.
  - destruct (ai _) as [c |]; wp; [| exact I].
    destruct (images_reply env _) as [[| imageData rest] | e];
      wp; try exact I.
    eapply reset_then_status; reflexivity.
Qed.

(** The loop of [generateVideo] starts with the whole time-out ahead. *)
Lemma ensures_pollLoop operation w (Q : Outcome Operation -> World -> Prop) :
  (forall r w',
     r <> OutOfFuel ->
     same_page w w' ->
     (exists polls,
        requests w' = (requests w ++ polls)%list
        /\ Forall (fun q => is_poll q = true) polls
        /\ (length polls <= poll_fuel)%nat) ->
     Q r w') ->
  ensures (pollLoop env poll_fuel (now w) operation) w Q.
Proof.
  intros HQ. unfold ensures.
  destruct (pollLoop_spec env poll_fuel (now w) operation w)
    as (Hne & Hpage & Hpolls).
  { rewrite Z.sub_diag. unfold TIMEOUT_MS, POLL_INTERVAL_MS, poll_fuel.
    lia. }
  apply HQ; assumption.
Qed.

Lemma generateVideo_ends_reset w :
  ensures (generateVideo env) w reset_or_thrown.
Proof.
  unfold generateVideo. wp.
  destruct (ai _) as [c |]; wp; [| exact I].
  destruct (videos_reply env _) as [operation | e]; wp; [| exact I].
  apply ensures_pollLoop. intros [operation' | e |] w' Hne _ _;
    [| exact I | congruence].
  destruct (negb (done operation')); wp;
    [eapply reset_last; reflexivity |].
  destruct (op_error operation'); wp; [exact I |].
  destruct (videoUri operation') as [uri |]; wp; [| exact I].
  destruct (negb (Js.truthy uri)); wp; [exact I |].
  destruct (fetch_reply env _) as [videoBlob | e]; wp; [| exact I].
  eapply reset_then_status_and_entry. reflexivity.
Qed.

Lemma generate_ends_reset w : ensures (generate env) w reset_or_thrown.
Proof.
  unfold generate. wp.
  destruct (videoMode w);
    [apply generateVideo_ends_reset | apply generateImage_ends_reset].
Qed.

Lemma generate_keeps_inputs : keeps inputs (generate env).
Proof.
  unfold generate. keeps_structure;
    [apply generateVideo_keeps_inputs | apply generateImage_keeps_inputs].
Qed.

Lemma generationFailed_keeps_inputs e : keeps inputs (generationFailed e).
Proof. unfold generationFailed. keeps_structure; same_read inputs. Qed.

Lemma inputs_startGenerating w : inputs (startGenerating w) = inputs w.
Proof. unfold startGenerating. cbv zeta. same_read inputs. Qed.

Lemma handleGenerateClick_keeps_inputs :
  keeps inputs (handleGenerateClick env).
Proof.
  intros w. unfold handleGenerateClick.
  destruct (isGenerating (vars w) || promptIsEmpty w || negb (has_ai w));
    [reflexivity |].
  apply (keeps_bind inputs (exec startGenerating)
           (fun _ => try_catch (generate env) generationFailed)).
  - intros w0. apply inputs_startGenerating.
  - intros _. apply keeps_try_catch;
      [apply generate_keeps_inputs | apply generationFailed_keeps_inputs].
Qed.

Lemma has_ai_inputs w w' : inputs w' = inputs w -> has_ai w' = has_ai w.
Proof. unfold inputs, has_ai. intros [= -> _ _]. reflexivity. Qed.

(** The handler past its guard. *)
Lemma handleGenerateClick_started w :
  isGenerating (vars w) = false ->
  Js.trim (attr (dom w) promptInput value) <> "" ->
  ai (vars w) <> None ->
  handleGenerateClick env w =
  try_catch (generate env) generationFailed (startGenerating w).
Proof.
  intros Hbusy Hprompt Hai. unfold handleGenerateClick.
  rewrite Hbusy, (has_ai_true w Hai). unfold promptIsEmpty.
  rewrite (promptIsEmpty_false w Hprompt). reflexivity.
Qed.

(** The [catch] block returns through [resetUI]. *)
Lemma generationFailed_resets e w :
  ensures (generationFailed e) w
    (fun r w' => r = Normal tt /\ after_resetUI w').
Proof.
  unfold generationFailed. cbv zeta. wp.
  destruct (ErrorType_eqb _ _); wp;
    (split; [reflexivity | eapply reset_last; reflexivity]).
Qed.

(** Past its guard the handler returns normally, through [resetUI]. *)
Lemma handleGenerateClick_resets w :
  isGenerating (vars w) = false ->
  Js.trim (attr (dom w) promptInput value) <> "" ->
  ai (vars w) <> None ->
  fst (handleGenerateClick env w) = Normal tt
  /\ after_resetUI (snd (handleGenerateClick env w)).
Proof.
  intros Hbusy Hprompt Hai.
  rewrite (handleGenerateClick_started w Hbusy Hprompt Hai).
  apply (ensures_run (try_catch (generate env) generationFailed)
           (startGenerating w)
           (fun r w' => r = Normal tt /\ after_resetUI w')).
  wp. eapply ensures_mono; [apply generate_ends_reset |].
  intros [[] | e |] w1 H; cbn [reset_or_thrown] in H.
  - split; [reflexivity | exact H].
  - apply generationFailed_resets.
  - contradiction.
Qed.

End Lifecycle.

(** C3. Once a generation has started, whatever the service answers
    (success, an error caught by the handler, or a video that times out),
    [handleGenerateClick] returns normally through [resetUI]: the busy flag
    is false, the countdown is gone, and the controls that the busy flag
    disables are enabled again. *)
Theorem generation_always_ends_idle (env : Remote) (w : World) :
  isGenerating (vars w) = false ->
  Js.trim (attr (dom w) promptInput value) <> "" ->
  ai (vars w) <> None ->
  let w' := snd (handleGenerateClick env w) in
  fst (handleGenerateClick env w) = Normal tt
  /\ after_resetUI w'
  /\ idle w'
  /\ isGenerating (vars w') = false.
Proof.
  intros Hbusy Hprompt Hai. cbv zeta.
  destruct (handleGenerateClick_resets env w Hbusy Hprompt Hai)
    as [Hr Hreset].
  assert (Hidle : idle (snd (handleGenerateClick env w))).
  { apply after_resetUI_idle; [exact Hreset |].
    rewrite <- (has_ai_true w Hai). apply has_ai_inputs.
    apply handleGenerateClick_keeps_inputs. }
  split; [exact Hr |]. split; [exact Hreset |].
  split; [exact Hidle | exact (idle_not_busy _ Hidle)].
Qed.

Lemma generation_always_ends_idle_witness :
  let w' := snd (handleGenerateClick Sample.slow_video Sample.ready) in
  fst (handleGenerateClick Sample.slow_video Sample.ready) = Normal tt
  /\ after_resetUI w'
  /\ idle w'
  /\ isGenerating (vars w') = false.
Proof.
  apply (generation_always_ends_idle Sample.slow_video Sample.ready).
  - reflexivity.
  - vm_compute. discriminate.
  - vm_compute. discriminate.
Defined.

(* ================================================================== *)
(** ** The image path *)

(** State the goal about the outcome and the final world of [m w] as a
    goal about [ensures]. *)
Ltac to_ensures m w :=
  pattern (fst (m w)), (snd (m w)); apply ensures_run.

(** C8. With a client, a prompt, image mode and no attachment, a click on
    generate sends exactly one request: an image request with the prompt
    as typed, one image, JPEG, 16:9.  If it is answered with an image, one
    entry of type image with that prompt goes to the front of the history
    and the busy flag is false again. *)
Theorem image_generation_end_to_end (env : Remote) (c : Client) (w : World) :
  isGenerating (vars w) = false ->
  Js.trim (attr (dom w) promptInput value) <> "" ->
  ai (vars w) = Some c ->
  videoMode w = false ->
  uploadedImage (vars w) = None ->
  let text := attr (dom w) promptInput value in
  let n := length (requests w) in
  let w' := snd (handleGenerateClick env w) in
  requests w' =
    (requests w ++
     [generateImages c "imagen-3.0-generate-002" text 1 "image/jpeg" "16:9"])
    %list
  /\ forall imageData rest,
       images_reply env n = Fulfilled (imageData :: rest) ->
       fst (handleGenerateClick env w) = Normal tt
       /\ history (vars w') =
          unshift_capped
            {| id := "history-" +:+
                     Js.of_number (now w + Z.of_N (latency env n));
               type := image;
               dataUrl := "data:image/jpeg;base64," +:+ imageData;
               prompt := text |}
            (history (vars w))
       /\ isGenerating (vars w') = false
       /\ status w' = "Image generated successfully.".
Proof.
  intros Hbusy Hprompt Hai Hmode Hup. cbv zeta.
  rewrite (handleGenerateClick_started env w Hbusy Hprompt)
    by (rewrite Hai; discriminate).
  to_ensures (try_catch (generate env) generationFailed) (startGenerating w).
  unfold videoMode in Hmode.
  unfold generate. evaluate. unfold generateImage. evaluate.
  destruct (images_reply env (length (requests w)))
    as [[| imageData rest] | e]; evaluate.
  - unfold generationFailed. cbv zeta. evaluate.
    destruct (ErrorType_eqb _ _); evaluate;
      (split; [page_simpl; reflexivity | intros ? ? [=]]).
  - split; [page_simpl; reflexivity |].
    intros ? ? [= <- <-].
    repeat split; page_simpl; rewrite ?Hmode; reflexivity.
  - unfold generationFailed. cbv zeta. evaluate.
    destruct (ErrorType_eqb _ _); evaluate;
      (split; [page_simpl; reflexivity | intros ? ? [=]]).
Qed.

Lemma image_generation_end_to_end_witness :
  let w := Sample.ready in
  let c := {| client_apiKey := "AIza-key" |} in
  let w' := snd (handleGenerateClick Sample.slow_video w) in
  requests w' =
    (requests w ++
     [generateImages c "imagen-3.0-generate-002" Sample.astronaut
        1 "image/jpeg" "16:9"])%list
  /\ fst (handleGenerateClick Sample.slow_video w) = Normal tt
  /\ history (vars w') =
     [{| id := "history-" +:+ Js.of_number (now w + 120);
         type := image;
         dataUrl := "data:image/jpeg;base64,QUJD";
         prompt := Sample.astronaut |}]
  /\ isGenerating (vars w') = false
  /\ status w' = "Image generated successfully.".
Proof.
  destruct (image_generation_end_to_end Sample.slow_video
              {| client_apiKey := "AIza-key" |} Sample.ready)
    as [Hrequests Hsuccess].
  - vm_compute. reflexivity.
  - vm_compute. discriminate.
  - vm_compute. reflexivity.
  - vm_compute. reflexivity.
  - vm_compute. reflexivity.
  - split; [exact Hrequests |].
    exact (Hsuccess "QUJD" [] eq_refl).
Defined.

(** C7. Image mode with an attachment, and the request that describes the
    attachment is rejected with the error [e].  What happens next is
    decided by the class of [e].  It is general quota exactly when [e] has
    a quota signal (code 429, or the text quota or resource_exhausted) and
    its text lacks the daily-limit phrase.  If [e] is not of that class,
    which includes a quota payload with the daily-limit phrase, the image
    request follows and carries the prompt as typed; when it is answered
    the run ends as a success, with the entry under the typed prompt.  If
    [e] is of that class, the describing request is the only one sent,
    and the handler of the click reports the quota message; the history is
    as before. *)
Theorem description_failure_falls_back
    (env : Remote) (c : Client) (img : UploadedImage) (e : JsError)
    (w : World) :
  isGenerating (vars w) = false ->
  Js.trim (attr (dom w) promptInput value) <> "" ->
  ai (vars w) = Some c ->
  videoMode w = false ->
  uploadedImage (vars w) = Some img ->
  content_reply env (length (requests w)) = Rejected e ->
  let text := attr (dom w) promptInput value in
  let n := length (requests w) in
  let describe :=
    generateContent c "gemini-2.5-flash" (Parts (analysisPrompt text) img)
      false in
  let w' := snd (handleGenerateClick env w) in
  (analyzeApiError e <> GENERAL_QUOTA ->
   requests w' =
     (requests w ++
      [describe;
       generateImages c "imagen-3.0-generate-002" text 1 "image/jpeg" "16:9"])
     %list
   /\ forall imageData rest,
        images_reply env (S n) = Fulfilled (imageData :: rest) ->
        fst (handleGenerateClick env w) = Normal tt
        /\ status w' = "Image generated successfully."
        /\ history (vars w') =
           unshift_capped
             {| id := "history-" +:+
                      Js.of_number (now w + Z.of_N (latency env n)
                                    + Z.of_N (latency env (S n)));
                type := image;
                dataUrl := "data:image/jpeg;base64," +:+ imageData;
                prompt := text |}
             (history (vars w)))
  /\ (analyzeApiError e = GENERAL_QUOTA ->
      fst (handleGenerateClick env w) = Normal tt
      /\ requests w' = (requests w ++ [describe])%list
      /\ status w' = GENERAL_QUOTA_MESSAGE
      /\ history (vars w') = history (vars w)
      /\ isGenerating (vars w') = false)
  /\ (analyzeApiError e = GENERAL_QUOTA <->
      Js.includes (Js.toLowerCase (stringified e))
        "limited free generations per day" = false
      /\ (Js.includes (Js.toLowerCase (stringified e)) "quota"
          || Js.includes (Js.toLowerCase (stringified e)) "resource_exhausted"
          || code_is e 429) = true).
Proof.
  intros Hbusy Hprompt Hai Hmode Hup Hreply. cbv zeta.
  assert (Hquota :
    analyzeApiError e = GENERAL_QUOTA <->
    Js.includes (Js.toLowerCase (stringified e))
      "limited free generations per day" = false
    /\ (Js.includes (Js.toLowerCase (stringified e)) "quota"
        || Js.includes (Js.toLowerCase (stringified e)) "resource_exhausted"
        || code_is e 429) = true).
  { unfold analyzeApiError. cbv zeta.
    destruct (Js.includes _ "limited free generations per day");
      [split; [discriminate | intros [H _]; discriminate] |].
    destruct (_ || _ || code_is e 429);
      [split; [intros _; split; reflexivity | reflexivity] |].
    destruct (_ || _);
      (split; [discriminate | intros [_ H]; discriminate]). }
  refine ((fun H => conj (proj1 H) (conj (proj2 H) Hquota)) _).
  clear Hquota.
  rewrite (handleGenerateClick_started env w Hbusy Hprompt)
    by (rewrite Hai; discriminate).
  to_ensures (try_catch (generate env) generationFailed) (startGenerating w).
  unfold videoMode in Hmode.
  unfold generate. evaluate. unfold generateImage. evaluate.
  rewrite Hreply. evaluate.
  destruct (ErrorType_eqb (analyzeApiError e) GENERAL_QUOTA) eqn:Hclass;
    evaluate.
  - assert (Hquota : analyzeApiError e = GENERAL_QUOTA)
      by (destruct (analyzeApiError e); (discriminate || reflexivity)).
    unfold generationFailed. cbv zeta. rewrite Hquota.
    cbn [ErrorType_eqb]. evaluate.
    split; [congruence | intros _].
    repeat split; page_simpl; rewrite ?Hmode, ?Hai; reflexivity.
  - assert (Hother : analyzeApiError e <> GENERAL_QUOTA)
      by (intros Hquota; rewrite Hquota in Hclass; discriminate).
    cbn [length]. rewrite Nat.add_1_r.
    destruct (images_reply env (S (length (requests w))))
      as [[| imageData rest] | e']; evaluate.
    + unfold generationFailed. cbv zeta. evaluate.
      destruct (ErrorType_eqb _ VIDEO_DAILY_LIMIT); evaluate;
        (split; [intros _ | contradiction]);
        (split; [page_simpl; rewrite <- ?app_assoc; reflexivity
                | intros ? ? [=]]).
    + split; [intros _ | contradiction].
      split; [page_simpl; rewrite <- ?app_assoc; reflexivity |].
      intros ? ? [= <- <-].
      repeat split; page_simpl; rewrite ?Hmode, ?Hai; reflexivity.
    + unfold generationFailed. cbv zeta. evaluate.
      destruct (ErrorType_eqb _ VIDEO_DAILY_LIMIT); evaluate;
        (split; [intros _ | contradiction]);
        (split; [page_simpl; rewrite <- ?app_assoc; reflexivity
                | intros ? ? [=]]).
Qed.

Lemma description_failure_falls_back_witness :
  let w := Sample.ready_with_cat in
  let c := {| client_apiKey := "AIza-key" |} in
  let describe :=
    generateContent c "gemini-2.5-flash"
      (Parts (analysisPrompt Sample.astronaut) Sample.cat) false in
  requests
    (snd (handleGenerateClick (Sample.no_description Sample.offline_error) w))
  = (requests w ++
     [describe;
      generateImages c "imagen-3.0-generate-002" Sample.astronaut
        1 "image/jpeg" "16:9"])%list
  /\ requests
       (snd (handleGenerateClick
               (Sample.no_description Sample.rate_limited) w))
     = (requests w ++ [describe])%list.
Proof.
  split.
  - destruct (description_failure_falls_back
                (Sample.no_description Sample.offline_error)
                {| client_apiKey := "AIza-key" |} Sample.cat
                Sample.offline_error Sample.ready_with_cat)
      as (Hfallback & _ & _).
    + vm_compute. reflexivity.
    + vm_compute. discriminate.
    + vm_compute. reflexivity.
    + vm_compute. reflexivity.
    + vm_compute. reflexivity.
    + vm_compute. reflexivity.
    + destruct Hfallback as [Hrequests _];
        [vm_compute; discriminate | exact Hrequests].
  - destruct (description_failure_falls_back
                (Sample.no_description Sample.rate_limited)
                {| client_apiKey := "AIza-key" |} Sample.cat
                Sample.rate_limited Sample.ready_with_cat)
      as (_ & Hquota & _).
    + vm_compute. reflexivity.
    + vm_compute. discriminate.
    + vm_compute. reflexivity.
    + vm_compute. reflexivity.
    + vm_compute. reflexivity.
    + vm_compute. reflexivity.
    + destruct Hquota as (_ & Hrequests & _);
        [vm_compute; reflexivity | exact Hrequests].
Defined.

(** A quota error that is not propagated: the describing request fails
    with code 429, the word quota and the status RESOURCE_EXHAUSTED, and
    its message has the daily-limit phrase.  The image request is sent all
    the same and the run ends as a success. *)
Lemma description_quota_error_swallowed :
  let env := Sample.no_description Sample.daily_limit_429 in
  let w := Sample.ready_with_cat in
  let w' := snd (handleGenerateClick env w) in
  content_reply env (length (requests w)) = Rejected Sample.daily_limit_429
  /\ code_is Sample.daily_limit_429 429 = true
  /\ Js.includes (stringified Sample.daily_limit_429) "quota" = true
  /\ Js.includes (stringified Sample.daily_limit_429) "RESOURCE_EXHAUSTED"
     = true
  /\ analyzeApiError Sample.daily_limit_429 <> GENERAL_QUOTA
  /\ requests w' =
     (requests w ++
      [generateContent {| client_apiKey := "AIza-key" |} "gemini-2.5-flash"
         (Parts (analysisPrompt Sample.astronaut) Sample.cat) false;
       generateImages {| client_apiKey := "AIza-key" |}
         "imagen-3.0-generate-002" Sample.astronaut 1 "image/jpeg" "16:9"])
     %list
  /\ status w' = "Image generated successfully."
  /\ isVideoDailyLimitReached (vars w') = false.
Proof.
  vm_compute.
  split; [reflexivity |]. split; [reflexivity |]. split; [reflexivity |].
  split; [reflexivity |]. split; [discriminate |].
  split; [reflexivity |]. split; reflexivity.
Qed.
(* ================================================================== *)
(** ** The video path *)

Section PollingTimes.

Variable env : Remote.




End PollingTimes.


(* ================================================================== *)
(** ** The daily video limit *)

(** What a computation leaves alone holds of the world it ends in. *)
Lemma keeps_ensures {A B} (g : World -> B) (m : M A) w
    (Q : Outcome A -> World -> Prop) :
  keeps g m -> (forall r w', g w' = g w -> Q r w') -> ensures m w Q.
Proof. intros Hm HQ. apply HQ, Hm. Qed.

Section DailyLimit.

Variable env : Remote.

Implicit Types (w : World).

(** [updateUIState] puts the limit in force. *)
Lemma limit_enforced_updateUIState w :
  isVideoDailyLimitReached (vars w) = true ->
  has_ai w = true ->
  isGenerating (vars w) = false ->
  limit_enforced (updateUIState w).
Proof.
  unfold has_ai. intros Hlimit Hai Hbusy.
  split; page_simpl; try assumption.
  intros Hmode. rewrite Hlimit, Hai, Hbusy, Hmode, !orb_true_r.
  split; reflexivity.
Qed.

Lemma limit_enforced_resetUI w :
  isVideoDailyLimitReached (vars w) = true ->
  has_ai w = true ->
  limit_enforced (resetUI w).
Proof.
  unfold has_ai. intros Hlimit Hai.
  split; page_simpl; try assumption; try reflexivity.
  intros Hmode. rewrite Hlimit, Hai, Hmode, !orb_true_r.
  split; reflexivity.
Qed.

(** The limit stays in force when [updateUIState] runs after assignments
    that leave the three variables alone. *)
Lemma limit_enforced_gate w w0 :
  limit_enforced w -> gate w0 = gate w -> limit_enforced (updateUIState w0).
Proof.
  intros [Hlimit Hai Hbusy _]. unfold gate. intros [= H1 H2 H3].
  apply limit_enforced_updateUIState; congruence.
Qed.

Lemma limit_enforced_status text w :
  limit_enforced w -> videoMode w = false ->
  limit_enforced (setStatus text w).
Proof.
  intros [Hlimit Hai Hbusy _] Hmode. unfold has_ai, videoMode in *.
  split; page_simpl; try assumption.
  intros Hvideo. congruence.
Qed.

Lemma limit_enforced_entry t d p w :
  limit_enforced w -> videoMode w = false ->
  limit_enforced (addToHistory t d p w).
Proof.
  intros [Hlimit Hai Hbusy _] Hmode. unfold has_ai, videoMode in *.
  split; page_simpl; try assumption.
  intros Hvideo. congruence.
Qed.

Lemma video_requests_send r ms w :
  is_generateVideos r = false ->
  video_requests (elapse ms (send r w)) = video_requests w.
Proof.
  intros Hr. unfold video_requests. page_simpl.
  rewrite List.filter_app. cbn [List.filter]. rewrite Hr. apply app_nil_r.
Qed.

(** The image path asks for no video. *)
Lemma generateImage_keeps_video_requests :
  keeps video_requests (generateImage env).
Proof.
  unfold generateImage. keeps_structure;
    first [apply video_requests_send; reflexivity
          | same_read video_requests].
Qed.

Lemma generationFailed_keeps_video_requests e :
  keeps video_requests (generationFailed e).
Proof.
  unfold generationFailed. keeps_structure; same_read video_requests.
Qed.

(** Neither path clears the flag. *)
Lemma generate_keeps_limit :
  keeps (fun w => isVideoDailyLimitReached (vars w)) (generate env).
Proof.
  unfold generate, generateImage, generateVideo. keeps_structure;
    page_simpl; reflexivity.
Qed.

(** The handler never clears the flag. *)
Lemma handleGenerateClick_limit w :
  isVideoDailyLimitReached (vars w) = true ->
  isVideoDailyLimitReached (vars (snd (handleGenerateClick env w))) = true.
Proof.
  intros Hlimit. unfold handleGenerateClick.
  destruct (isGenerating (vars w) || promptIsEmpty w || negb (has_ai w));
    [exact Hlimit |].
  apply (ensures_run
           (bind (exec startGenerating)
              (fun _ => try_catch (generate env) generationFailed)) w
           (fun _ w' => isVideoDailyLimitReached (vars w') = true)).
  wp. apply (keeps_ensures _ _ _ _ generate_keeps_limit).
  intros [[] | e |] w1 Hkept; revert Hkept; page_simpl; intros Hkept;
    try congruence.
  unfold generationFailed. cbv zeta. wp.
  destruct (ErrorType_eqb _ VIDEO_DAILY_LIMIT); wp; page_simpl;
    congruence.
Qed.

(** In image mode the handler asks for no video. *)
Lemma handleGenerateClick_image w :
  videoMode w = false ->
  video_requests (snd (handleGenerateClick env w)) = video_requests w.
Proof.
  unfold videoMode. intros Hmode. unfold handleGenerateClick.
  destruct (isGenerating (vars w) || promptIsEmpty w || negb (has_ai w));
    [reflexivity |].
  apply (ensures_run
           (bind (exec startGenerating)
              (fun _ => try_catch (generate env) generationFailed)) w
           (fun _ w' => video_requests w' = video_requests w)).
  wp. unfold generate. evaluate.
  apply (keeps_ensures _ _ _ _ generateImage_keeps_video_requests).
  assert (Hstart : video_requests (startGenerating w) = video_requests w)
    by same_read video_requests.
  intros [[] | e |] w1 Hkept; try congruence.
  apply (keeps_ensures _ _ _ _ (generationFailed_keeps_video_requests e)).
  intros _ w2 Hkept'. congruence.
Qed.

(** The handler leaves the page not busy. *)
Lemma handleGenerateClick_not_busy w :
  isGenerating (vars w) = false ->
  has_ai w = true ->
  isGenerating (vars (snd (handleGenerateClick env w))) = false.
Proof.
  intros Hbusy Hai.
  destruct (promptIsEmpty w) eqn:Hprompt.
  - unfold handleGenerateClick. rewrite Hbusy, Hprompt. exact Hbusy.
  - assert (Hclient : ai (vars w) <> None)
      by (unfold has_ai in Hai; destruct (ai (vars w)); congruence).
    assert (Htyped : Js.trim (attr (dom w) promptInput value) <> "").
    { unfold promptIsEmpty in Hprompt. intros Hempty.
      rewrite Hempty in Hprompt. discriminate. }
    destruct (handleGenerateClick_resets env w Hbusy Htyped Hclient)
      as [_ Hreset].
    apply idle_not_busy, after_resetUI_idle; [exact Hreset |].
    rewrite (has_ai_inputs _ _ (handleGenerateClick_keeps_inputs env w)).
    exact Hai.
Qed.

(** A click on the generate button keeps the limit in force and asks for
    no video: in video mode the button is disabled. *)
Lemma click_generate_enforced w :
  limit_enforced w ->
  limit_enforced (dispatch env ClickGenerate w)
  /\ video_requests (dispatch env ClickGenerate w) = video_requests w.
Proof.
  intros Hw. cbn [dispatch].
  destruct (flag (dom w) generateButton disabled) eqn:Hbutton;
    [split; [exact Hw | reflexivity] |].
  assert (Hmode : videoMode w = false).
  { destruct (videoMode w) eqn:Hmode; [| reflexivity].
    destruct (limit_blocks_video w Hw Hmode) as [Hdisabled _].
    congruence. }
  split; [| apply handleGenerateClick_image, Hmode].
  pose proof (handleGenerateClick_keeps_inputs env w) as Hin.
  assert (Hmode' : videoMode (snd (handleGenerateClick env w)) = false).
  { unfold inputs in Hin. injection Hin as _ Hv _. congruence. }
  assert (Hai' : has_ai (snd (handleGenerateClick env w)) = true).
  { rewrite (has_ai_inputs _ _ Hin). apply (limit_client w Hw). }
  split.
  - apply handleGenerateClick_limit, (limit_reached w Hw).
  - exact Hai'.
  - apply handleGenerateClick_not_busy;
      [apply (limit_not_busy w Hw) | apply (limit_client w Hw)].
  - intros Hvideo. congruence.
Qed.

(** The refresh of the examples ends in [updateUIState]. *)
Lemma click_refresh_enforced w :
  limit_enforced w ->
  limit_enforced (snd (getNewExamplePrompts env w))
  /\ video_requests (snd (getNewExamplePrompts env w)) = video_requests w.
Proof.
  intros Hw. unfold getNewExamplePrompts.
  destruct (negb (has_ai w)); [split; [exact Hw | reflexivity] |].
  lazymatch goal with
  | |- context [snd (?m w)] =>
      apply (ensures_run m w
               (fun _ w' =>
                  limit_enforced w'
                  /\ video_requests w' = video_requests w))
  end.
  destruct Hw as [Hlimit Hai Hbusy _]. unfold has_ai in Hai.
  destruct (ai (vars w)) as [c |] eqn:Hclient; [| discriminate].
  evaluate.
  destruct (content_reply env (length (requests w))) as [text | e];
    evaluate.
  - destruct (parse_prompts env text) as [[| p ps] | e]; evaluate.
    3: destruct (ErrorType_eqb _ GENERAL_QUOTA); evaluate.
    all: (split;
          [apply limit_enforced_updateUIState; unfold has_ai;
           page_simpl; rewrite ?Hclient; first [assumption | reflexivity]
          | unfold video_requests; page_simpl;
            rewrite List.filter_app; cbn [List.filter is_generateVideos];
            apply app_nil_r]).
  - destruct (ErrorType_eqb _ GENERAL_QUOTA); evaluate.
    all: (split;
          [apply limit_enforced_updateUIState; unfold has_ai;
           page_simpl; rewrite ?Hclient; first [assumption | reflexivity]
          | unfold video_requests; page_simpl;
            rewrite List.filter_app; cbn [List.filter is_generateVideos];
            apply app_nil_r]).
Qed.

(** Every event keeps the limit in force and asks for no video. *)
Lemma dispatch_enforced ev w :
  limit_enforced w ->
  limit_enforced (dispatch env ev w)
  /\ video_requests (dispatch env ev w) = video_requests w.
Proof.
  intros Hw. destruct ev as [| text | mode | | n | base64Data fileType |].
  - apply click_generate_enforced, Hw.
  - cbn [dispatch]. destruct (flag (dom w) promptInput disabled);
      [split; [exact Hw | reflexivity] |].
    split; [apply (limit_enforced_gate w _ Hw) |];
      [same_read gate | same_read video_requests].
  - cbn [dispatch].
    destruct (flag (dom w) _ disabled);
      [split; [exact Hw | reflexivity] |].
    destruct (Bool.eqb _ _); [split; [exact Hw | reflexivity] |].
    split; [apply (limit_enforced_gate w _ Hw) |];
      [same_read gate | same_read video_requests].
  - cbn [dispatch]. destruct (flag (dom w) refreshButton disabled);
      [split; [exact Hw | reflexivity] |].
    apply click_refresh_enforced, Hw.
  - cbn [dispatch]. destruct (nth_error _ n) as [p |];
      [| split; [exact Hw | reflexivity]].
    split; [apply (limit_enforced_gate w _ Hw) |];
      [same_read gate | same_read video_requests].
  - cbn [dispatch]. unfold handleFileUpload. cbv zeta.
    split; [apply (limit_enforced_gate w _ Hw) |];
      [same_read gate | same_read video_requests].
  - cbn [dispatch]. unfold removeUploadedImage. cbv zeta.
    split; [apply (limit_enforced_gate w _ Hw) |];
      [same_read gate | same_read video_requests].
Qed.

Lemma session_enforced evs : forall w,
  limit_enforced w ->
  limit_enforced (session env evs w)
  /\ video_requests (session env evs w) = video_requests w.
Proof.
  induction evs as [| ev evs IH]; intros w Hw;
    [split; [exact Hw | reflexivity] |].
  destruct (dispatch_enforced ev w Hw) as [Hstep Hsame].
  destruct (IH (dispatch env ev w) Hstep) as [Hrest Hsame'].
  unfold session in *. cbn [fold_left].
  split; [exact Hrest | congruence].
Qed.

(** The [catch] block, for an error of the daily limit. *)
Lemma generationFailed_daily_limit e w :
  analyzeApiError e = VIDEO_DAILY_LIMIT ->
  has_ai w = true ->
  ensures (generationFailed e) w
    (fun r w' =>
       r = Normal tt
       /\ isVideoDailyLimitReached (vars w') = true
       /\ limit_enforced w').
Proof.
  intros Hclass Hai. unfold generationFailed. cbv zeta.
  rewrite Hclass. cbn [ErrorType_eqb]. wp.
  split; [reflexivity |].
  split; [page_simpl; reflexivity |].
  apply limit_enforced_resetUI; [page_simpl; reflexivity |].
  revert Hai. unfold has_ai. page_simpl. trivial.
Qed.

End DailyLimit.

(** C4. An error whose stringified form contains the phrase of the daily
    limit is classified as [VIDEO_DAILY_LIMIT].  When the generation started
    by a click throws such an error, the handler sets
    [isVideoDailyLimitReached].  From then on, whatever the user does, the
    flag stays set and no request for a new video is sent; whenever video
    mode is selected the generate button is disabled, the status line shows
    the fixed notice, and a click on the button changes nothing. *)
Theorem daily_limit_is_sticky (env : Remote) (e : JsError) (w : World) :
  isGenerating (vars w) = false ->
  Js.trim (attr (dom w) promptInput value) <> "" ->
  ai (vars w) <> None ->
  fst (generate env (startGenerating w)) = Throw e ->
  Js.includes (stringified e) "limited free generations per day" = true ->
  let w1 := snd (handleGenerateClick env w) in
  analyzeApiError e = VIDEO_DAILY_LIMIT
  /\ isVideoDailyLimitReached (vars w1) = true
  /\ forall evs : list UserEvent,
       let w2 := session env evs w1 in
       isVideoDailyLimitReached (vars w2) = true
       /\ video_requests w2 = video_requests w1
       /\ (videoMode w2 = true ->
           flag (dom w2) generateButton disabled = true
           /\ status w2 = DAILY_VIDEO_LIMIT_REACHED
           /\ dispatch env ClickGenerate w2 = w2).
Proof.
  intros Hbusy Hprompt Hai Hthrow Hphrase. cbv zeta.
  assert (Hclass : analyzeApiError e = VIDEO_DAILY_LIMIT).
  { unfold analyzeApiError. cbv zeta.
    rewrite (includes_lowered _ _ eq_refl Hphrase). reflexivity. }
  assert (Hafter :
    isVideoDailyLimitReached (vars (snd (handleGenerateClick env w))) = true
    /\ limit_enforced (snd (handleGenerateClick env w))).
  { rewrite (handleGenerateClick_started env w Hbusy Hprompt Hai).
    apply (ensures_run (try_catch (generate env) generationFailed)
             (startGenerating w)
             (fun _ w' =>
                isVideoDailyLimitReached (vars w') = true
                /\ limit_enforced w')).
    apply ensures_try_catch. unfold ensures at 1. rewrite Hthrow.
    eapply ensures_mono;
      [apply (generationFailed_daily_limit e _ Hclass) |].
    - rewrite (has_ai_inputs _ _
                 (generate_keeps_inputs env (startGenerating w))).
      rewrite (has_ai_inputs _ _ (inputs_startGenerating w)).
      apply has_ai_true, Hai.
    - intros r w' (_ & Hflag & Henforced). split; assumption. }
  destruct Hafter as [Hflag Henforced].
  split; [exact Hclass |]. split; [exact Hflag |].
  intros evs.
  destruct (session_enforced env evs _ Henforced) as [Hlater Hsame].
  split; [apply (limit_reached _ Hlater) |].
  split; [exact Hsame |].
  intros Hmode.
  destruct (limit_blocks_video _ Hlater Hmode) as [Hdisabled Hstatus].
  split; [exact Hdisabled |]. split; [exact Hstatus |].
  cbn [dispatch]. rewrite Hdisabled. reflexivity.
Qed.

Lemma daily_limit_is_sticky_witness :
  let env := Sample.no_more_videos Sample.daily_limit_429 in
  let w1 := snd (handleGenerateClick env Sample.ready_for_video) in
  analyzeApiError Sample.daily_limit_429 = VIDEO_DAILY_LIMIT
  /\ isVideoDailyLimitReached (vars w1) = true
  /\ forall evs : list UserEvent,
       let w2 := session env evs w1 in
       isVideoDailyLimitReached (vars w2) = true
       /\ video_requests w2 = video_requests w1
       /\ (videoMode w2 = true ->
           flag (dom w2) generateButton disabled = true
           /\ status w2 = DAILY_VIDEO_LIMIT_REACHED
           /\ dispatch env ClickGenerate w2 = w2).
Proof.
  apply (daily_limit_is_sticky
           (Sample.no_more_videos Sample.daily_limit_429)
           Sample.daily_limit_429 Sample.ready_for_video).
  - vm_compute. reflexivity.
  - vm_compute. discriminate.
  - vm_compute. discriminate.
  - vm_compute. reflexivity.
  - vm_compute. reflexivity.
Defined.
(* ================================================================== *)
(** ** Further properties of the page *)

(** Split a conjunction into its parts, and nothing else. *)
Ltac conjuncts := repeat match goal with |- _ /\ _ => split end.

(* ================================================================== *)
(** ** The classifier and letter case *)



(* ================================================================== *)
(** ** Saving a key *)

Lemma truthy_nonempty (s : string) : s <> "" -> Js.truthy s = true.
Proof. destruct s; [congruence | reflexivity]. Qed.

(** X2. [handleSaveApiKey] with nothing but white space in the input
    returns at once: no probe is sent and nothing changes. *)
Theorem save_blank_key_noop (env : Remote) (w : World) :
  Js.trim (attr (dom w) apiKeyInput value) = "" ->
  handleSaveApiKey env w = (Normal tt, w).
Proof.
  intros Hblank. unfold handleSaveApiKey, bind, gets.
  rewrite Hblank. reflexivity.
Qed.

Lemma save_blank_key_noop_witness :
  handleSaveApiKey Sample.slow_video (Scenario.key_typed "   ")
  = (Normal tt, Scenario.key_typed "   ").
Proof.
  apply (save_blank_key_noop Sample.slow_video (Scenario.key_typed "   ")).
  vm_compute. reflexivity.
Defined.

(** X3. [handleSaveApiKey] on a page without a client probes the service
    once, with the trimmed text of the input as the key.  If the probe
    succeeds the key is stored and the dialog is closed, its button left
    disabled.  If it fails nothing is stored, the dialog is shown with an
    empty input, and the button is enabled again under its first label. *)
Theorem save_key_probes_trimmed (env : Remote) (w : World) :
  Js.trim (attr (dom w) apiKeyInput value) <> "" ->
  ai (vars w) = None ->
  let key := Js.trim (attr (dom w) apiKeyInput value) in
  let tempAi := {| client_apiKey := key |} in
  let w' := snd (handleSaveApiKey env w) in
  fst (handleSaveApiKey env w) = Normal tt
  /\ requests w' =
     (requests w ++
      [generateContent tempAi "gemini-2.5-flash" (Text "test") false])%list
  /\ match content_reply env (length (requests w)) with
     | Fulfilled _ =>
         ai (vars w') = Some tempAi
         /\ stored_apiKey (localStorage w') = Some key
         /\ flag (dom w') apiKeyModalOverlay class_visible = false
         /\ flag (dom w') saveApiKeyButton disabled = true
         /\ attr (dom w') saveApiKeyButton textContent = "Verifying..."
     | Rejected _ =>
         ai (vars w') = None
         /\ stored_apiKey (localStorage w') = None
         /\ flag (dom w') apiKeyModalOverlay class_visible = true
         /\ attr (dom w') apiKeyInput value = ""
         /\ flag (dom w') saveApiKeyButton disabled = false
         /\ attr (dom w') saveApiKeyButton textContent = "Save and Start"
     end.
Proof.
  intros Hkey Hai. cbv zeta.
  to_ensures (handleSaveApiKey env) w.
  unfold handleSaveApiKey. evaluate.
  rewrite (truthy_nonempty _ Hkey). cbn [negb]. evaluate.
  unfold initializeAppWithKey. cbv zeta. evaluate.
  destruct (content_reply env (length (requests w))) as [text | e];
    evaluate.
  - cbn [negb]. evaluate.
    split; [reflexivity |]. conjuncts; page_simpl; reflexivity.
  - rewrite Hai. cbn [negb]. evaluate.
    split; [reflexivity |].
    conjuncts; page_simpl; first [reflexivity | exact Hai].
Qed.

Lemma save_key_probes_trimmed_witness :
  let w := Scenario.key_typed "  AIza-key " in
  let w' := snd (handleSaveApiKey Sample.slow_video w) in
  requests w' =
    (requests w ++
     [generateContent {| client_apiKey := "AIza-key" |} "gemini-2.5-flash"
        (Text "test") false])%list
  /\ stored_apiKey (localStorage w') = Some "AIza-key".
Proof.
  destruct (save_key_probes_trimmed Sample.slow_video
              (Scenario.key_typed "  AIza-key "))
    as (_ & Hrequests & _ & Hstored & _).
  - vm_compute. discriminate.
  - vm_compute. reflexivity.
  - split; [exact Hrequests | exact Hstored].
Defined.

(* ================================================================== *)
(** ** Loading the page *)

Section Loading.

Implicit Types (w : World).

Lemma vars_loadHistory w :
  vars (loadHistory w) =
  match stored_history (localStorage w) with
  | Some savedHistory => assign_history savedHistory (vars w)
  | None => vars w
  end.
Proof. unfold loadHistory. destruct (stored_history _); reflexivity. Qed.

Lemma attr_loadHistory w e a :
  attr (dom (loadHistory w)) e a = attr (dom w) e a.
Proof. unfold loadHistory. destruct (stored_history _); reflexivity. Qed.

Lemma flag_loadHistory w e p :
  flag (dom (loadHistory w)) e p = flag (dom w) e p.
Proof. unfold loadHistory. destruct (stored_history _); reflexivity. Qed.

Lemma historyGrid_loadHistory w :
  historyGrid (dom (loadHistory w)) =
  match stored_history (localStorage w) with
  | Some savedHistory => savedHistory
  | None => history (vars w)
  end.
Proof. unfold loadHistory. destruct (stored_history _); reflexivity. Qed.

Lemma examplePromptItems_loadHistory w :
  examplePromptItems (dom (loadHistory w)) = examplePromptItems (dom w).
Proof. unfold loadHistory. destruct (stored_history _); reflexivity. Qed.

Lemma localStorage_loadHistory w :
  localStorage (loadHistory w) = localStorage w.
Proof. unfold loadHistory. destruct (stored_history _); reflexivity. Qed.

Lemma requests_loadHistory w : requests (loadHistory w) = requests w.
Proof. unfold loadHistory. destruct (stored_history _); reflexivity. Qed.

Lemma now_loadHistory w : now (loadHistory w) = now w.
Proof. unfold loadHistory. destruct (stored_history _); reflexivity. Qed.

Lemma timers_loadHistory w : timers (loadHistory w) = timers w.
Proof. unfold loadHistory. destruct (stored_history _); reflexivity. Qed.

Lemma vars_reload d w : vars (reload d w) = initial_vars.
Proof. reflexivity. Qed.

Lemma dom_reload d w : dom (reload d w) = d.
Proof. reflexivity. Qed.

Lemma localStorage_reload d w : localStorage (reload d w) = localStorage w.
Proof. reflexivity. Qed.

Lemma requests_reload d w : requests (reload d w) = requests w.
Proof. reflexivity. Qed.

Lemma now_reload d w : now (reload d w) = now w.
Proof. reflexivity. Qed.

End Loading.

#[global] Hint Rewrite vars_loadHistory attr_loadHistory flag_loadHistory
  historyGrid_loadHistory examplePromptItems_loadHistory
  localStorage_loadHistory requests_loadHistory now_loadHistory
  timers_loadHistory vars_reload dom_reload localStorage_reload
  requests_reload now_reload : page.

(** The two ways through [init], by what [localStorage] holds. *)
Lemma init_without_key_run (env : Remote) (d : Dom) (w0 : World) :
  stored_apiKey (localStorage w0) = None
  \/ stored_apiKey (localStorage w0) = Some "" ->
  init env (reload d w0) =
  (Normal tt,
   set_flag apiKeyModalOverlay class_visible true
     (loadHistory (updateUIState (set_isGenerating true (reload d w0))))).
Proof.
  intros Hkey. unfold init, bind, exec, gets.
  rewrite localStorage_loadHistory, localStorage_updateUIState.
  change (stored_apiKey (localStorage (set_isGenerating true (reload d w0))))
    with (stored_apiKey (localStorage w0)).
  destruct Hkey as [-> | ->]; reflexivity.
Qed.

Lemma init_with_key_run (env : Remote) (d : Dom) (key : string) (w0 : World) :
  stored_apiKey (localStorage w0) = Some key ->
  key <> "" ->
  init env (reload d w0) =
  initializeAppWithKey env key
    (loadHistory (updateUIState (set_isGenerating true (reload d w0)))).
Proof.
  intros Hkey Hfilled. unfold init at 1. unfold bind, exec, gets.
  rewrite localStorage_loadHistory, localStorage_updateUIState.
  change (stored_apiKey (localStorage (set_isGenerating true (reload d w0))))
    with (stored_apiKey (localStorage w0)).
  rewrite Hkey, (truthy_nonempty key Hfilled). reflexivity.
Qed.

(** X4. A page load without a stored key sends nothing.  [init] takes the
    history from [localStorage], shows the key dialog and leaves the page
    locked: the busy flag is set, the prompt and the generate button are
    disabled, the button reads Setup Required, and a call of the generate
    handler does nothing. *)
Theorem init_without_key_locks (env : Remote) (d : Dom) (w0 : World) :
  stored_apiKey (localStorage w0) = None
  \/ stored_apiKey (localStorage w0) = Some "" ->
  let w' := snd (init env (reload d w0)) in
  fst (init env (reload d w0)) = Normal tt
  /\ requests w' = requests w0
  /\ flag (dom w') apiKeyModalOverlay class_visible = true
  /\ isGenerating (vars w') = true
  /\ ai (vars w') = None
  /\ flag (dom w') generateButton disabled = true
  /\ flag (dom w') promptInput disabled = true
  /\ attr (dom w') generateButton textContent = "Setup Required"
  /\ history (vars w') = default [] (stored_history (localStorage w0))
  /\ historyGrid (dom w') = history (vars w')
  /\ handleGenerateClick env w' = (Normal tt, w').
Proof.
  intros Hkey. cbv zeta.
  rewrite (init_without_key_run env d w0 Hkey). cbn [fst snd].
  split; [reflexivity |].
  assert (Hbusy :
    isGenerating
      (vars (set_flag apiKeyModalOverlay class_visible true
               (loadHistory
                  (updateUIState (set_isGenerating true (reload d w0))))))
    = true).
  { page_simpl. destruct (stored_history _); reflexivity. }
  conjuncts.
  - page_simpl. reflexivity.
  - page_simpl. reflexivity.
  - exact Hbusy.
  - page_simpl. destruct (stored_history _); reflexivity.
  - page_simpl. reflexivity.
  - page_simpl. reflexivity.
  - page_simpl. reflexivity.
  - page_simpl. destruct (stored_history _); reflexivity.
  - page_simpl. destruct (stored_history _); reflexivity.
  - unfold handleGenerateClick. rewrite Hbusy. reflexivity.
Qed.

Lemma init_without_key_locks_witness :
  let w' := snd (init Sample.slow_video (reload Sample.blank Sample.fresh)) in
  requests w' = []
  /\ flag (dom w') apiKeyModalOverlay class_visible = true
  /\ isGenerating (vars w') = true.
Proof.
  destruct (init_without_key_locks Sample.slow_video Sample.blank
              Sample.fresh)
    as (_ & Hrequests & Hdialog & Hbusy & _).
  - left. reflexivity.
  - split; [exact Hrequests |]. split; [exact Hdialog | exact Hbusy].
Defined.

(** X5. A page load with a stored key probes the service once with that
    key.  If the probe is rejected the key is removed from [localStorage],
    so that the next page load sends nothing and asks for a key; if it
    succeeds the key stays, and the next page load probes with it again. *)
Theorem stored_key_decides_next_load
    (env env' : Remote) (d d' : Dom) (key : string) (w0 : World) :
  stored_apiKey (localStorage w0) = Some key ->
  key <> "" ->
  let probe :=
    generateContent {| client_apiKey := key |} "gemini-2.5-flash"
      (Text "test") false in
  let w1 := snd (init env (reload d w0)) in
  let w2 := snd (init env' (reload d' w1)) in
  requests w1 = (requests w0 ++ [probe])%list
  /\ match content_reply env (length (requests w0)) with
     | Fulfilled _ =>
         stored_apiKey (localStorage w1) = Some key
         /\ ai (vars w1) = Some {| client_apiKey := key |}
         /\ isGenerating (vars w1) = false
         /\ requests w2 = (requests w1 ++ [probe])%list
     | Rejected _ =>
         stored_apiKey (localStorage w1) = None
         /\ ai (vars w1) = None
         /\ isGenerating (vars w1) = true
         /\ requests w2 = requests w1
         /\ flag (dom w2) apiKeyModalOverlay class_visible = true
     end.
Proof.
  intros Hkey Hfilled. cbv zeta.
  rewrite (init_with_key_run env d key w0 Hkey Hfilled).
  set (w1 := snd (initializeAppWithKey env key _)).
  assert (H1 :
    requests w1 =
      (requests w0 ++
       [generateContent {| client_apiKey := key |} "gemini-2.5-flash"
          (Text "test") false])%list
    /\ match content_reply env (length (requests w0)) with
       | Fulfilled _ =>
           stored_apiKey (localStorage w1) = Some key
           /\ ai (vars w1) = Some {| client_apiKey := key |}
           /\ isGenerating (vars w1) = false
       | Rejected _ =>
           stored_apiKey (localStorage w1) = None
           /\ ai (vars w1) = None
           /\ isGenerating (vars w1) = true
       end).
  { subst w1.
    lazymatch goal with
    | |- context [snd (initializeAppWithKey env key ?w)] =>
        apply (ensures_run (initializeAppWithKey env key) w
                 (fun _ w1 =>
                    requests w1 =
                      (requests w0 ++
                       [generateContent {| client_apiKey := key |}
                          "gemini-2.5-flash" (Text "test") false])%list
                    /\ match content_reply env (length (requests w0)) with
                       | Fulfilled _ =>
                           stored_apiKey (localStorage w1) = Some key
                           /\ ai (vars w1) = Some {| client_apiKey := key |}
                           /\ isGenerating (vars w1) = false
                       | Rejected _ =>
                           stored_apiKey (localStorage w1) = None
                           /\ ai (vars w1) = None
                           /\ isGenerating (vars w1) = true
                       end))
    end.
    unfold initializeAppWithKey. cbv zeta. evaluate.
    destruct (content_reply env (length (requests w0))) as [text | e];
      evaluate; conjuncts; page_simpl;
      try (destruct (stored_history _)); reflexivity. }
  destruct H1 as [Hrequests Hstate].
  split; [exact Hrequests |].
  destruct (content_reply env (length (requests w0))) as [text | e].
  - destruct Hstate as (Hstored & Hclient & Hbusy).
    split; [exact Hstored |]. split; [exact Hclient |].
    split; [exact Hbusy |].
    rewrite (init_with_key_run env' d' key w1 Hstored Hfilled).
    lazymatch goal with
    | |- context [snd (initializeAppWithKey env' key ?w)] =>
        apply (ensures_run (initializeAppWithKey env' key) w
                 (fun _ w2 =>
                    requests w2 =
                      (requests w1 ++
                       [generateContent {| client_apiKey := key |}
                          "gemini-2.5-flash" (Text "test") false])%list))
    end.
    unfold initializeAppWithKey. cbv zeta. evaluate.
    destruct (content_reply env' _) as [text' | e']; evaluate;
      page_simpl; reflexivity.
  - destruct Hstate as (Hstored & Hclient & Hbusy).
    split; [exact Hstored |]. split; [exact Hclient |].
    split; [exact Hbusy |].
    rewrite (init_without_key_run env' d' w1 (or_introl Hstored)).
    cbn [snd]. split; page_simpl; reflexivity.
Qed.

Lemma stored_key_decides_next_load_witness :
  let w0 := Scenario.returning "AIza-old" in
  let env := Sample.no_description Sample.offline_error in
  let w1 := snd (init env (reload Sample.blank w0)) in
  let w2 := snd (init Sample.slow_video (reload Sample.blank w1)) in
  stored_apiKey (localStorage w1) = None
  /\ requests w2 = requests w1
  /\ flag (dom w2) apiKeyModalOverlay class_visible = true.
Proof.
  destruct (stored_key_decides_next_load
              (Sample.no_description Sample.offline_error) Sample.slow_video
              Sample.blank Sample.blank "AIza-old"
              (Scenario.returning "AIza-old"))
    as (_ & Hremoved & _ & _ & Hquiet & Hdialog).
  - reflexivity.
  - discriminate.
  - split; [exact Hremoved |]. split; [exact Hquiet | exact Hdialog].
Defined.

(* ================================================================== *)
(** ** New example prompts *)

(** X6. [getNewExamplePrompts] never throws and never leaves the refresh
    button loading.  Without a client it does nothing.  With a client it
    sends one request, whatever the answer; afterwards
    [isGeneratingNewPrompts] is false, the loading class is gone, and the
    refresh button is disabled only while a generation is running.  Only
    an answer that parses to a non-empty list replaces the examples, in the
    variable and in the list on the page alike. *)
Theorem refresh_always_settles (env : Remote) (w : World) :
  let w' := snd (getNewExamplePrompts env w) in
  let n := length (requests w) in
  fst (getNewExamplePrompts env w) = Normal tt
  /\ (ai (vars w) = None -> w' = w)
  /\ forall c, ai (vars w) = Some c ->
       requests w' =
         (requests w ++
          [generateContent c "gemini-2.5-flash"
             (Text "Generate 5 fresh, creative, and visually interesting prompts for an AI image/video generator. The prompts should be diverse and inspiring.")
             true])%list
       /\ isGeneratingNewPrompts (vars w') = false
       /\ flag (dom w') refreshButton class_loading = false
       /\ flag (dom w') refreshButton disabled = isGenerating (vars w)
       /\ examplePrompts (vars w') =
          match content_reply env n with
          | Fulfilled text =>
              match parse_prompts env text with
              | Fulfilled (p :: ps) => p :: ps
              | _ => examplePrompts (vars w)
              end
          | Rejected _ => examplePrompts (vars w)
          end
       /\ examplePromptItems (dom w') =
          match content_reply env n with
          | Fulfilled text =>
              match parse_prompts env text with
              | Fulfilled (p :: ps) => p :: ps
              | _ => examplePromptItems (dom w)
              end
          | Rejected _ => examplePromptItems (dom w)
          end.
Proof.
  cbv zeta. unfold getNewExamplePrompts, has_ai.
  destruct (ai (vars w)) as [c |] eqn:Hclient; cbn [negb].
  2: { split; [reflexivity |]. split; [reflexivity | discriminate]. }
  lazymatch goal with
  | |- context [snd (?m w)] => to_ensures m w
  end.
  evaluate.
  destruct (content_reply env (length (requests w))) as [text | e];
    evaluate.
  - destruct (parse_prompts env text) as [[| p ps] | e]; evaluate.
    3: destruct (ErrorType_eqb _ GENERAL_QUOTA); evaluate.
    all: (split; [reflexivity |]; split; [discriminate |];
          intros c' [= <-]; conjuncts; page_simpl;
          rewrite ?orb_false_r; reflexivity).
  - destruct (ErrorType_eqb _ GENERAL_QUOTA); evaluate.
    all: (split; [reflexivity |]; split; [discriminate |];
          intros c' [= <-]; conjuncts; page_simpl;
          rewrite ?orb_false_r; reflexivity).
Qed.

(* ================================================================== *)
(** ** More of the video path *)

(** One turn of the loop, and its end, as steps of a computation. *)
Lemma ensures_pollLoop_turn env fuel startTime operation t w
    (Q : Outcome Operation -> World -> Prop) :
  done operation = false ->
  now w = t ->
  (t - startTime < TIMEOUT_MS)%Z ->
  ensures (bind (pollOnce env operation)
             (fun operation' => pollLoop env fuel startTime operation')) w Q ->
  ensures (pollLoop env (S fuel) startTime operation) w Q.
Proof.
  intros Hdone <- Htime. unfold ensures at 2. rewrite pollLoop_unfold.
  rewrite Hdone. cbn [negb andb].
  destruct (Z.ltb_spec (now w - startTime) TIMEOUT_MS) as [_ | Hge];
    [| lia].
  unfold ensures, bind.
  destruct (pollOnce env operation w) as [[operation' | e |] w1];
    exact (fun H => H).
Qed.

Lemma ensures_pollLoop_done env fuel startTime operation w
    (Q : Outcome Operation -> World -> Prop) :
  done operation = true ->
  Q (Normal operation) w ->
  ensures (pollLoop env fuel startTime operation) w Q.
Proof.
  intros Hdone HQ. unfold ensures.
  destruct fuel; cbn [pollLoop]; rewrite Hdone; exact HQ.
Qed.

(** X7. Video mode, the job accepted but unfinished, and the first poll
    rejected with an error that is classified as general quota: the loop
    stops there.  The video request and that one poll are all that is sent,
    the handler of the click reports the quota message, and the history is
    as it was. *)
Theorem poll_quota_error_escalates
    (env : Remote) (c : Client) (operation : Operation) (e : JsError)
    (w : World) :
  isGenerating (vars w) = false ->
  Js.trim (attr (dom w) promptInput value) <> "" ->
  ai (vars w) = Some c ->
  videoMode w = true ->
  isVideoDailyLimitReached (vars w) = false ->
  videos_reply env (length (requests w)) = Fulfilled operation ->
  done operation = false ->
  poll_reply env (S (length (requests w))) = Rejected e ->
  analyzeApiError e = GENERAL_QUOTA ->
  let text := attr (dom w) promptInput value in
  let w' := snd (handleGenerateClick env w) in
  fst (handleGenerateClick env w) = Normal tt
  /\ requests w' =
     (requests w ++
      [generateVideos c "veo-2.0-generate-001" text 1 (uploadedImage (vars w));
       getVideosOperation c operation])%list
  /\ status w' = GENERAL_QUOTA_MESSAGE
  /\ attr (dom w') outputPlaceholder display = "block"
  /\ history (vars w') = history (vars w)
  /\ isVideoDailyLimitReached (vars w') = false
  /\ isGenerating (vars w') = false.
Proof.
  intros Hbusy Hprompt Hai Hmode Hlimit Hreply Hdone Hpoll Hclass.
  cbv zeta.
  rewrite (handleGenerateClick_started env w Hbusy Hprompt)
    by (rewrite Hai; discriminate).
  to_ensures (try_catch (generate env) generationFailed) (startGenerating w).
  unfold videoMode in Hmode.
  unfold generate. evaluate. unfold generateVideo. evaluate.
  rewrite Hreply. evaluate.
  eapply ensures_pollLoop_turn;
    [exact Hdone | solve_read | unfold TIMEOUT_MS; lia |].
  unfold pollOnce. evaluate.
  cbn [length]. rewrite Nat.add_1_r, Hpoll. evaluate.
  rewrite Hclass. cbn [ErrorType_eqb]. evaluate.
  unfold generationFailed. cbv zeta. rewrite Hclass.
  cbn [ErrorType_eqb]. evaluate.
  split; [reflexivity |].
  conjuncts; page_simpl; rewrite ?Hlimit, ?andb_false_r, <- ?app_assoc;
    first [reflexivity | assumption].
Qed.

Lemma poll_quota_error_escalates_witness :
  let env := Scenario.no_polls Sample.rate_limited in
  let w' := snd (handleGenerateClick env Sample.ready_for_video) in
  status w' = GENERAL_QUOTA_MESSAGE
  /\ length (requests w') = (length (requests Sample.ready_for_video) + 2)%nat.
Proof.
  destruct (poll_quota_error_escalates
              (Scenario.no_polls Sample.rate_limited)
              {| client_apiKey := "AIza-key" |} Sample.pending
              Sample.rate_limited Sample.ready_for_video)
    as (_ & Hrequests & Hstatus & _).
  - vm_compute. reflexivity.
  - vm_compute. discriminate.
  - vm_compute. reflexivity.
  - vm_compute. reflexivity.
  - vm_compute. reflexivity.
  - vm_compute. reflexivity.
  - vm_compute. reflexivity.
  - vm_compute. reflexivity.
  - vm_compute. reflexivity.
  - split; [exact Hstatus |]. rewrite Hrequests, length_app. reflexivity.
Defined.



(** An error made by the page itself carries no signal of the service,
    whatever its message. *)
Lemma analyzeApiError_new_Error (message : string) :
  analyzeApiError (new_Error message) = OTHER.
Proof. unfold new_Error. vm_compute. reflexivity. Qed.

(** X9. Video mode, and the job is returned finished but without a video:
    with an error, or with no location or an empty one.  Nothing is polled
    or fetched.  What is thrown is the error of the operation, else an
    error of the page itself, which carries no signal of the service.  The
    handler of the click classifies it: the daily-limit flag is set exactly
    when it was set or the error is of the daily limit; the status line
    shows the message of the class, except that under the flag the notice
    of [updateUIState] has replaced it; the history is as before. *)
Theorem video_finished_without_result
    (env : Remote) (c : Client) (operation : Operation) (w : World) :
  isGenerating (vars w) = false ->
  Js.trim (attr (dom w) promptInput value) <> "" ->
  ai (vars w) = Some c ->
  videoMode w = true ->
  videos_reply env (length (requests w)) = Fulfilled operation ->
  done operation = true ->
  op_error operation <> None
  \/ videoUri operation = None \/ videoUri operation = Some "" ->
  let text := attr (dom w) promptInput value in
  let thrown :=
    match op_error operation with
    | Some err => err
    | None =>
        new_Error "Video URI not found in the successful operation response."
    end in
  let w' := snd (handleGenerateClick env w) in
  fst (handleGenerateClick env w) = Normal tt
  /\ requests w' =
     (requests w ++
      [generateVideos c "veo-2.0-generate-001" text 1
         (uploadedImage (vars w))])%list
  /\ history (vars w') = history (vars w)
  /\ attr (dom w') outputPlaceholder display = "block"
  /\ isGenerating (vars w') = false
  /\ isVideoDailyLimitReached (vars w') =
     isVideoDailyLimitReached (vars w)
     || ErrorType_eqb (analyzeApiError thrown) VIDEO_DAILY_LIMIT
  /\ status w' =
     if isVideoDailyLimitReached (vars w') then DAILY_VIDEO_LIMIT_REACHED
     else match analyzeApiError thrown with
          | VIDEO_DAILY_LIMIT => VIDEO_DAILY_LIMIT_MESSAGE
          | HIGH_DEMAND => HIGH_DEMAND_MESSAGE
          | GENERAL_QUOTA => GENERAL_QUOTA_MESSAGE
          | OTHER => GENERATION_FAILED
          end.
Proof.
  intros Hbusy Hprompt Hai Hmode Hreply Hdone Hmissing. cbv zeta.
  rewrite (handleGenerateClick_started env w Hbusy Hprompt)
    by (rewrite Hai; discriminate).
  to_ensures (try_catch (generate env) generationFailed) (startGenerating w).
  unfold videoMode in Hmode.
  unfold generate. evaluate. unfold generateVideo. evaluate.
  rewrite Hreply. evaluate.
  apply ensures_pollLoop_done; [exact Hdone |].
  rewrite Hdone. cbn [negb].
  destruct (op_error operation) as [err |] eqn:Herror.
  - evaluate. unfold generationFailed. cbv zeta. evaluate.
    destruct (analyzeApiError err); cbn [ErrorType_eqb]; evaluate;
      (split; [reflexivity |]); conjuncts; page_simpl;
      rewrite ?Hai, ?Hmode, ?orb_true_r, ?orb_false_r; cbn [andb negb];
      try reflexivity;
      destruct (isVideoDailyLimitReached (vars w)); reflexivity.
  - assert (Hthrow :
      match videoUri operation with
      | Some uri => negb (Js.truthy uri) = true
      | None => True
      end).
    { destruct Hmissing as [H | [-> | ->]];
        [congruence | exact I | reflexivity]. }
    destruct (videoUri operation) as [uri |];
      [rewrite Hthrow |]; evaluate;
      unfold generationFailed; cbv zeta;
      rewrite analyzeApiError_new_Error; cbn [ErrorType_eqb]; evaluate;
      (split; [reflexivity |]); conjuncts; page_simpl;
      rewrite ?Hai, ?Hmode, ?orb_true_r, ?orb_false_r; cbn [andb negb];
      try reflexivity;
      destruct (isVideoDailyLimitReached (vars w)); reflexivity.
Qed.

Lemma video_finished_without_result_witness :
  let operation :=
    {| done := true; op_error := Some Sample.daily_limit_429;
       videoUri := None |} in
  let env := Scenario.instant_video operation in
  let w' := snd (handleGenerateClick env Sample.ready_for_video) in
  isVideoDailyLimitReached (vars w') = true
  /\ status w' = DAILY_VIDEO_LIMIT_REACHED.
Proof.
  destruct (video_finished_without_result
              (Scenario.instant_video
                 {| done := true; op_error := Some Sample.daily_limit_429;
                    videoUri := None |})
              {| client_apiKey := "AIza-key" |}
              {| done := true; op_error := Some Sample.daily_limit_429;
                 videoUri := None |}
              Sample.ready_for_video)
    as (_ & _ & _ & _ & _ & Hflag & Hstatus).
  - vm_compute. reflexivity.
  - vm_compute. discriminate.
  - vm_compute. reflexivity.
  - vm_compute. reflexivity.
  - vm_compute. reflexivity.
  - reflexivity.
  - left. discriminate.
  - split; [exact Hflag |]. rewrite Hstatus, Hflag. reflexivity.
Defined.

(** The loop, started at the present time. *)
Lemma ensures_pollLoop_at env startTime operation w
    (Q : Outcome Operation -> World -> Prop) :
  now w = startTime ->
  (forall r w',
     r <> OutOfFuel ->
     same_page w w' ->
     (exists polls,
        requests w' = (requests w ++ polls)%list
        /\ Forall (fun q => is_poll q = true) polls
        /\ (length polls <= poll_fuel)%nat) ->
     Q r w') ->
  ensures (pollLoop env poll_fuel startTime operation) w Q.
Proof. intros <-. apply ensures_pollLoop. Qed.

(** X10. Whatever the service answers, a click in video mode that passes
    the guard sends the video request first, with the prompt as typed and
    the attachment if there is one, then at most six polls, then at most
    one fetch, and nothing else. *)
Theorem video_click_request_budget (env : Remote) (c : Client) (w : World) :
  isGenerating (vars w) = false ->
  Js.trim (attr (dom w) promptInput value) <> "" ->
  ai (vars w) = Some c ->
  videoMode w = true ->
  let text := attr (dom w) promptInput value in
  let w' := snd (handleGenerateClick env w) in
  exists polls rest,
    requests w' =
      (requests w ++
       generateVideos c "veo-2.0-generate-001" text 1 (uploadedImage (vars w))
       :: polls ++ rest)%list
    /\ Forall (fun q => is_poll q = true) polls
    /\ (length polls <= 6)%nat
    /\ (rest = [] \/ exists url, rest = [fetch url]).
Proof.
  intros Hbusy Hprompt Hai Hmode. cbv zeta.
  rewrite (handleGenerateClick_started env w Hbusy Hprompt)
    by (rewrite Hai; discriminate).
  lazymatch goal with
  | |- exists polls rest, @?P polls rest =>
      change ((fun w' =>
                 exists polls rest,
                   requests w' =
                     (requests w ++
                      generateVideos c "veo-2.0-generate-001"
                        (attr (dom w) promptInput value) 1
                        (uploadedImage (vars w))
                      :: polls ++ rest)%list
                   /\ Forall (fun q => is_poll q = true) polls
                   /\ (length polls <= 6)%nat
                   /\ (rest = [] \/ exists url, rest = [fetch url]))
                (snd (try_catch (generate env) generationFailed
                        (startGenerating w))))
  end.
  apply (ensures_run (try_catch (generate env) generationFailed)
           (startGenerating w) (fun _ w' => _ w')).
  unfold videoMode in Hmode.
  unfold generate. evaluate. unfold generateVideo. evaluate.
  assert (Hfailed : forall e w1 polls rest,
    requests w1 =
      (requests w ++
       generateVideos c "veo-2.0-generate-001"
         (attr (dom w) promptInput value) 1 (uploadedImage (vars w))
       :: polls ++ rest)%list ->
    Forall (fun q => is_poll q = true) polls ->
    (length polls <= 6)%nat ->
    rest = [] \/ (exists url, rest = [fetch url]) ->
    ensures (generationFailed e) w1
      (fun _ w' =>
         exists polls rest,
           requests w' =
             (requests w ++
              generateVideos c "veo-2.0-generate-001"
                (attr (dom w) promptInput value) 1 (uploadedImage (vars w))
              :: polls ++ rest)%list
           /\ Forall (fun q => is_poll q = true) polls
           /\ (length polls <= 6)%nat
           /\ (rest = [] \/ exists url, rest = [fetch url]))).
  { intros e w1 polls rest Hrequests Hpolls Hlength Hrest.
    unfold generationFailed. cbv zeta. wp.
    destruct (ErrorType_eqb _ VIDEO_DAILY_LIMIT); wp;
      exists polls, rest; (split; [page_simpl; exact Hrequests |]);
      split; [exact Hpolls | split; [exact Hlength | exact Hrest]
             | exact Hpolls | split; [exact Hlength | exact Hrest]]. }
  destruct (videos_reply env (length (requests w))) as [operation | e];
    evaluate.
  2: { apply (Hfailed e _ [] []);
         [page_simpl; reflexivity | constructor | cbn; lia
         | left; reflexivity]. }
  apply ensures_pollLoop_at; [page_simpl; reflexivity |].
  intros r w1 Hfuel (Hvars & Hdom & Hstore & Htimers)
    (polls & Hrequests & Hpolls & Hlength).
  revert Hrequests. page_simpl. rewrite <- app_assoc. cbn [app].
  intros Hrequests. unfold poll_fuel in Hlength.
  destruct r as [operation' | e |].
  - destruct (done operation'); cbn [negb]; evaluate.
    + destruct (op_error operation') as [err |]; evaluate.
      { apply (Hfailed err _ polls []); rewrite ?app_nil_r;
          [exact Hrequests | exact Hpolls | exact Hlength
          | left; reflexivity]. }
      destruct (videoUri operation') as [uri |]; evaluate.
      2: { apply (Hfailed _ _ polls []); rewrite ?app_nil_r;
             [exact Hrequests | exact Hpolls | exact Hlength
             | left; reflexivity]. }
      destruct (Js.truthy uri); cbn [negb]; evaluate.
      2: { apply (Hfailed _ _ polls []); rewrite ?app_nil_r;
             [exact Hrequests | exact Hpolls | exact Hlength
             | left; reflexivity]. }
      destruct (fetch_reply env (length (requests w1))) as [videoBlob | e];
        evaluate.
      * exists polls, [fetch (uri +:+ "&key=" +:+ default "null" (apiKey (vars w1)))].
        split; [| split; [exact Hpolls | split; [exact Hlength |]]].
        -- page_simpl. rewrite Hrequests, <- app_assoc. reflexivity.
        -- right. eexists. reflexivity.
      * apply (Hfailed e _ polls
                 [fetch (uri +:+ "&key=" +:+ default "null" (apiKey (vars w1)))]);
          [page_simpl; rewrite Hrequests, <- app_assoc; reflexivity
          | exact Hpolls | exact Hlength | right; eexists; reflexivity].
    + exists polls, []. rewrite app_nil_r.
      split; [page_simpl; exact Hrequests |].
      split; [exact Hpolls | split; [exact Hlength | left; reflexivity]].
  - apply (Hfailed e _ polls []); rewrite ?app_nil_r;
      [exact Hrequests | exact Hpolls | exact Hlength | left; reflexivity].
  - congruence.
Qed.

Lemma video_click_request_budget_witness :
  let w := Sample.ready_for_video in
  let c := {| client_apiKey := "AIza-key" |} in
  exists polls rest,
    requests (snd (handleGenerateClick Sample.slow_video w)) =
      (requests w ++
       generateVideos c "veo-2.0-generate-001"
         (attr (dom w) promptInput value) 1 (uploadedImage (vars w))
       :: polls ++ rest)%list
    /\ Forall (fun q => is_poll q = true) polls
    /\ (length polls <= 6)%nat
    /\ (rest = [] \/ exists url, rest = [fetch url]).
Proof.
  apply (video_click_request_budget Sample.slow_video
           {| client_apiKey := "AIza-key" |} Sample.ready_for_video).
  - vm_compute. reflexivity.
  - vm_compute. discriminate.
  - vm_compute. reflexivity.
  - vm_compute. reflexivity.
Defined.

(* ================================================================== *)
(** ** [updateUIState] *)

(** X11. Running [updateUIState] twice is the same as running it once:
    it reads nothing that it writes, except the status line, which it
    writes the same way again. *)
Theorem updateUIState_idempotent (w : World) :
  let w1 := updateUIState w in
  let w2 := updateUIState w1 in
  vars w2 = vars w1
  /\ localStorage w2 = localStorage w1
  /\ requests w2 = requests w1
  /\ now w2 = now w1
  /\ timers w2 = timers w1
  /\ historyGrid (dom w2) = historyGrid (dom w1)
  /\ examplePromptItems (dom w2) = examplePromptItems (dom w1)
  /\ (forall e p, flag (dom w2) e p = flag (dom w1) e p)
  /\ (forall e a, attr (dom w2) e a = attr (dom w1) e a).
Proof.
  cbv zeta. conjuncts; try (page_simpl; reflexivity).
  - intros e p. rewrite !flag_updateUIState.
    destruct e, p; keys; page_simpl; try reflexivity.
  - intros e a. rewrite !attr_updateUIState.
    destruct e, a; keys; page_simpl; try reflexivity.
    + destruct (uploadedImage (vars w)); page_simpl; reflexivity.
    + destruct (negb _ && _ && _ && _); reflexivity.
Qed.

(* ================================================================== *)
(** ** The daily limit and image mode *)

(** X12. The daily limit blocks video mode only.  On a page under the
    limit, in video mode, a change to image mode enables the generate
    button again (the notice stays in the status line), and a click on it
    then sends an image request with the prompt as typed. *)
Theorem image_mode_open_under_daily_limit
    (env : Remote) (c : Client) (w : World) :
  isVideoDailyLimitReached (vars w) = true ->
  isGenerating (vars w) = false ->
  Js.trim (attr (dom w) promptInput value) <> "" ->
  ai (vars w) = Some c ->
  uploadedImage (vars w) = None ->
  videoMode w = true ->
  flag (dom w) imageModeRadio disabled = false ->
  let text := attr (dom w) promptInput value in
  let w1 := dispatch env (ChooseMode image) w in
  let w2 := dispatch env ClickGenerate w1 in
  flag (dom (updateUIState w)) generateButton disabled = true
  /\ videoMode w1 = false
  /\ flag (dom w1) generateButton disabled = false
  /\ status w1 = status w
  /\ requests w2 =
     (requests w ++
      [generateImages c "imagen-3.0-generate-002" text 1 "image/jpeg" "16:9"])
     %list
  /\ isVideoDailyLimitReached (vars w2) = true.
Proof.
  intros Hlimit Hbusy Hprompt Hai Hup Hmode Hradio. cbv zeta.
  unfold videoMode in Hmode.
  assert (Hfilled : promptIsEmpty w = false)
    by (apply promptIsEmpty_false, Hprompt).
  unfold promptIsEmpty in Hfilled.
  cbn [dispatch is_video]. rewrite Hradio. unfold videoMode.
  rewrite Hmode. cbn [Bool.eqb negb].
  set (w1 := handleModeChange _).
  assert (Hbutton : flag (dom w1) generateButton disabled = false).
  { subst w1. page_simpl. rewrite Hbusy, Hfilled, Hai. reflexivity. }
  assert (Hbusy1 : isGenerating (vars w1) = false)
    by (subst w1; page_simpl; exact Hbusy).
  assert (Hprompt1 : attr (dom w1) promptInput value
                     = attr (dom w) promptInput value)
    by (subst w1; page_simpl; reflexivity).
  assert (Hai1 : ai (vars w1) = Some c)
    by (subst w1; page_simpl; exact Hai).
  assert (Hmode1 : flag (dom w1) videoModeRadio checked = false)
    by (subst w1; page_simpl; reflexivity).
  assert (Hup1 : uploadedImage (vars w1) = None)
    by (subst w1; page_simpl; exact Hup).
  assert (Hrequests1 : requests w1 = requests w)
    by (subst w1; page_simpl; reflexivity).
  assert (Hlimit1 : isVideoDailyLimitReached (vars w1) = true)
    by (subst w1; page_simpl; exact Hlimit).
  assert (Hstatus1 : status w1 = status w).
  { subst w1. page_simpl. rewrite Hai, Hbusy. reflexivity. }
  split.
  { page_simpl. rewrite Hai, Hmode, Hlimit, orb_true_r. reflexivity. }
  split; [exact Hmode1 |]. split; [exact Hbutton |].
  split; [exact Hstatus1 |].
  rewrite Hbutton.
  rewrite (handleGenerateClick_started env w1 Hbusy1)
    by (rewrite ?Hprompt1, ?Hai1; first [exact Hprompt | discriminate]).
  clearbody w1.
  to_ensures (try_catch (generate env) generationFailed)
    (startGenerating w1).
  unfold generate. evaluate. unfold generateImage. evaluate.
  destruct (images_reply env (length (requests w1)))
    as [[| imageData rest] | e]; evaluate.
  - unfold generationFailed. cbv zeta. evaluate.
    rewrite analyzeApiError_TypeError. cbn [ErrorType_eqb]. evaluate.
    split; page_simpl; rewrite ?Hrequests1, ?Hprompt1;
      first [reflexivity | assumption].
  - split; page_simpl; rewrite ?Hrequests1, ?Hprompt1;
      first [reflexivity | assumption].
  - unfold generationFailed. cbv zeta. evaluate.
    destruct (ErrorType_eqb _ VIDEO_DAILY_LIMIT); evaluate;
      (split; page_simpl; rewrite ?Hrequests1, ?Hprompt1;
       first [reflexivity | assumption]).
Qed.

Lemma image_mode_open_under_daily_limit_witness :
  let env := Sample.no_more_videos Sample.daily_limit_429 in
  let w := snd (handleGenerateClick env Sample.ready_for_video) in
  let w1 := dispatch env (ChooseMode image) w in
  flag (dom w) generateButton disabled = true
  /\ flag (dom w1) generateButton disabled = false
  /\ length (requests (dispatch env ClickGenerate w1))
     = S (length (requests w)).
Proof.
  destruct (image_mode_open_under_daily_limit
              (Sample.no_more_videos Sample.daily_limit_429)
              {| client_apiKey := "AIza-key" |}
              (snd (handleGenerateClick
                      (Sample.no_more_videos Sample.daily_limit_429)
                      Sample.ready_for_video)))
    as (_ & _ & Henabled & _ & Hrequests & _).
  - vm_compute. reflexivity.
  - vm_compute. reflexivity.
  - vm_compute. discriminate.
  - vm_compute. reflexivity.
  - vm_compute. reflexivity.
  - vm_compute. reflexivity.
  - vm_compute. reflexivity.
  - split; [vm_compute; reflexivity |]. split; [exact Henabled |].
    rewrite Hrequests, length_app. cbn [length]. lia.
Defined.

(* ================================================================== *)
(** ** The attachment *)

(** X13. [handleFileUpload] keeps the file as the attachment, shows its
    preview and adapts the placeholder of the prompt to the mode;
    [removeUploadedImage] undoes all of it.  Neither touches the prompt,
    the mode, the client, the history or the request log, and after the
    removal the generate button is as [updateUIState] would set it on the
    page before the upload. *)
Theorem upload_then_remove (base64Data fileType : string) (w : World) :
  let w1 := handleFileUpload base64Data fileType w in
  let w2 := removeUploadedImage w1 in
  uploadedImage (vars w1) = Some {| data := base64Data; mimeType := fileType |}
  /\ attr (dom w1) imagePreview src
     = "data:" +:+ fileType +:+ ";base64," +:+ base64Data
  /\ attr (dom w1) imagePreviewContainer display = "block"
  /\ attr (dom w1) promptInput placeholder
     = (if videoMode w
        then "Describe how you want to animate this image..."
        else "Describe how to use this image as inspiration...")
  /\ uploadedImage (vars w2) = None
  /\ attr (dom w2) imagePreview src = ""
  /\ attr (dom w2) imagePreviewContainer display = "none"
  /\ attr (dom w2) promptInput placeholder = "Describe your vision in detail..."
  /\ inputs w2 = inputs w
  /\ requests w2 = requests w
  /\ history (vars w2) = history (vars w)
  /\ flag (dom w2) generateButton disabled
     = flag (dom (updateUIState w)) generateButton disabled.
Proof.
  cbv zeta. unfold handleFileUpload, removeUploadedImage, inputs.
  cbv zeta. conjuncts; page_simpl; reflexivity.
Qed.

(* ================================================================== *)
(** ** The history across page loads *)





(* ================================================================== *)
(** ** The terms dialog *)

Section Terms.

Implicit Types (i : Intro) (evs : list IntroEvent).

Lemma intro_step_accepted i ev :
  termsAccepted i = Some "true" ->
  terms_visible i = false ->
  termsAccepted (intro_step i ev) = Some "true"
  /\ terms_visible (intro_step i ev) = false.
Proof.
  intros Haccepted Hhidden. destruct ev as [| w |]; cbn [intro_step].
  - unfold onScroll. destruct (scroll_listening i); split; cbn; assumption.
  - unfold onTermsTimeout. destruct (terms_timeouts i);
      [split; assumption |].
    cbn. unfold terms_pending. rewrite Haccepted. cbn.
    split; [reflexivity | assumption].
  - split; reflexivity.
Qed.

Lemma intro_run_accepted evs : forall i,
  termsAccepted i = Some "true" ->
  terms_visible i = false ->
  termsAccepted (intro_run evs i) = Some "true"
  /\ terms_visible (intro_run evs i) = false.
Proof.
  induction evs as [| ev evs IH]; intros i Haccepted Hhidden;
    [split; assumption |].
  destruct (intro_step_accepted i ev Haccepted Hhidden) as [H1 H2].
  apply (IH (intro_step i ev) H1 H2).
Qed.

(** The dialog becomes visible only by a time-out that fires while the
    key dialog is hidden. *)
Lemma intro_run_visible_unblocked evs : forall i,
  terms_visible (intro_run evs i) = true ->
  terms_visible i = true \/ existsb fires_unblocked evs = true.
Proof.
  induction evs as [| ev evs IH]; intros i Hvisible; [left; exact Hvisible |].
  destruct (IH (intro_step i ev) Hvisible) as [Hstep | Hlater];
    [| right; cbn [existsb]; rewrite Hlater; apply orb_true_r].
  destruct ev as [| w |]; cbn [intro_step] in Hstep.
  - unfold onScroll in Hstep.
    destruct (scroll_listening i); left; exact Hstep.
  - unfold onTermsTimeout in Hstep.
    destruct (terms_timeouts i); [left; exact Hstep |].
    cbn in Hstep. cbn [existsb fires_unblocked].
    destruct (negb (flag (dom w) apiKeyModalOverlay class_visible));
      [right; reflexivity |].
    rewrite andb_false_r in Hstep. left. exact Hstep.
  - discriminate.
Qed.

(** A time-out is pending only after a scroll. *)
Lemma intro_run_visible_scrolled evs : forall i,
  terms_visible (intro_run evs i) = true ->
  terms_visible i = true \/ (0 < terms_timeouts i)%nat
  \/ existsb (fun ev => match ev with Scroll => true | _ => false end) evs
     = true.
Proof.
  induction evs as [| ev evs IH]; intros i Hvisible; [left; exact Hvisible |].
  destruct (IH (intro_step i ev) Hvisible) as [Hstep | [Hstep | Hlater]];
    [| | right; right; cbn [existsb]; rewrite Hlater; apply orb_true_r].
  - destruct ev as [| w |]; cbn [intro_step] in Hstep.
    + unfold onScroll in Hstep.
      destruct (scroll_listening i); left; exact Hstep.
    + unfold onTermsTimeout in Hstep.
      destruct (terms_timeouts i); [left; exact Hstep |].
      right; left; lia.
    + discriminate.
  - destruct ev as [| w |]; cbn [intro_step] in Hstep.
    + right; right. reflexivity.
    + unfold onTermsTimeout in Hstep.
      destruct (terms_timeouts i) eqn:Hpending;
        [lia | right; left; lia].
    + right; left. exact Hstep.
Qed.

(** The listener runs once: at most one time-out is ever pending. *)
Lemma intro_run_one_timeout evs : forall i,
  (terms_timeouts i + (if scroll_listening i then 1 else 0) <= 1)%nat ->
  (terms_timeouts (intro_run evs i)
   + (if scroll_listening (intro_run evs i) then 1 else 0) <= 1)%nat.
Proof.
  induction evs as [| ev evs IH]; intros i Hi; [exact Hi |].
  apply (IH (intro_step i ev)). revert Hi.
  destruct ev as [| w |]; cbn [intro_step].
  - unfold onScroll.
    destruct (scroll_listening i) eqn:Hlistening; cbn; rewrite ?Hlistening;
      lia.
  - unfold onTermsTimeout.
    destruct (terms_timeouts i) eqn:Hpending; cbn; rewrite ?Hpending;
      [trivial | destruct (scroll_listening i); lia].
  - trivial.
Qed.

End Terms.

(** X15. Once the user has agreed to the terms the dialog is gone for
    good: whatever happens afterwards (scrolling, time-outs firing on any
    page, further clicks), [termsAccepted] stays true in [sessionStorage]
    and the dialog stays hidden. *)
Theorem terms_agreed_for_good (i : Intro) (evs : list IntroEvent) :
  let i' := intro_run evs (handleTermsAgree i) in
  termsAccepted i' = Some "true" /\ terms_visible i' = false.
Proof.
  cbv zeta. apply intro_run_accepted; reflexivity.
Qed.

(** X16. On a page whose terms dialog is hidden and that has no time-out
    pending, after [initIntroAnimation] the scroll listener runs once, so
    that at most one time-out is ever pending; and the terms dialog is
    visible only if the user scrolled and a time-out fired on a page whose
    key dialog was hidden.  In particular, while the key dialog is shown
    the terms dialog never appears. *)
Theorem terms_dialog_waits_for_key_dialog
    (i0 : Intro) (evs : list IntroEvent) :
  terms_visible i0 = false ->
  terms_timeouts i0 = 0%nat ->
  let i := intro_run evs (initIntroAnimation i0) in
  (terms_timeouts i + (if scroll_listening i then 1 else 0) <= 1)%nat
  /\ (terms_visible i = true ->
      existsb fires_unblocked evs = true
      /\ existsb (fun ev => match ev with Scroll => true | _ => false end) evs
         = true)
  /\ (existsb fires_unblocked evs = false -> terms_visible i = false).
Proof.
  intros Hhidden Hnone. cbv zeta.
  split; [apply intro_run_one_timeout; cbn; lia |].
  assert (Honly :
    terms_visible (intro_run evs (initIntroAnimation i0)) = true ->
    existsb fires_unblocked evs = true
    /\ existsb (fun ev => match ev with Scroll => true | _ => false end) evs
       = true).
  { intros Hvisible. split.
    - destruct (intro_run_visible_unblocked evs _ Hvisible) as [H | H];
        [cbn in H; congruence | exact H].
    - destruct (intro_run_visible_scrolled evs _ Hvisible)
        as [H | [H | H]]; [cbn in H; congruence | cbn in H; lia | exact H]. }
  split; [exact Honly |].
  intros Hblocked.
  destruct (terms_visible (intro_run evs _)) eqn:Hvisible; [| reflexivity].
  destruct (Honly eq_refl) as [Hfired _]. congruence.
Qed.

Lemma terms_dialog_waits_for_key_dialog_witness :
  let locked := snd (init Sample.slow_video Sample.fresh) in
  let i :=
    intro_run [Scroll; TermsTimeout locked; Scroll]
      (initIntroAnimation (loaded_intro None)) in
  terms_visible i = false.
Proof.
  destruct (terms_dialog_waits_for_key_dialog (loaded_intro None)
              [Scroll; TermsTimeout (snd (init Sample.slow_video Sample.fresh));
               Scroll])
    as (_ & _ & Hblocked).
  - reflexivity.
  - reflexivity.
  - apply Hblocked. vm_compute. reflexivity.
Defined.

(* ================================================================== *)
(** ** The countdown *)




(* ================================================================== *)
(** ** Reading through [addToHistory] *)

Section HistoryReads.

Implicit Types (w : World).

Lemma vars_addToHistory t d p w :
  vars (addToHistory t d p w) =
  assign_history
    (unshift_capped
       {| id := "history-" +:+ Js.of_number (now w); type := t;
          dataUrl := d; prompt := p |} (history (vars w)))
    (vars w).
Proof. reflexivity. Qed.

Lemma attr_addToHistory t d p w e a :
  attr (dom (addToHistory t d p w)) e a = attr (dom w) e a.
Proof. reflexivity. Qed.

Lemma flag_addToHistory t d p w e q :
  flag (dom (addToHistory t d p w)) e q = flag (dom w) e q.
Proof. reflexivity. Qed.

Lemma requests_addToHistory t d p w :
  requests (addToHistory t d p w) = requests w.
Proof. reflexivity. Qed.

Lemma now_addToHistory t d p w : now (addToHistory t d p w) = now w.
Proof. reflexivity. Qed.

End HistoryReads.

#[global] Hint Rewrite vars_addToHistory attr_addToHistory flag_addToHistory
  requests_addToHistory now_addToHistory : page.

(** The reads as before, with [addToHistory] kept as one step. *)
Ltac page_read :=
  repeat
    (progress
       (unfold status, videoMode, promptIsEmpty, has_ai, setStatus,
          set_attr, set_flag, set_isGenerating,
          set_isVideoDailyLimitReached, set_countdownInterval;
        try (with_strategy opaque
               [elapse send new_timer with_vars with_dom with_localStorage
                write_attr write_flag upd_attr upd_flag
                assign_isGenerating assign_isVideoDailyLimitReached
                assign_countdownInterval assign_history updateUIState
                resetUI startCountdown startGenerating unshift_capped
                addToHistory reload loadHistory]
               (rewrite_strat (topdown (hints page))));
        keys)).

(* ================================================================== *)
(** ** The enriched prompt *)

(** X18. Image mode with an attachment, and the describing request is
    answered with a text.  The image request carries that text as its
    prompt; the entry that a success puts into the history carries the
    prompt as the user typed it. *)
Theorem described_attachment_enriches_request
    (env : Remote) (c : Client) (img : UploadedImage) (richer : string)
    (w : World) :
  isGenerating (vars w) = false ->
  Js.trim (attr (dom w) promptInput value) <> "" ->
  ai (vars w) = Some c ->
  videoMode w = false ->
  uploadedImage (vars w) = Some img ->
  content_reply env (length (requests w)) = Fulfilled richer ->
  let text := attr (dom w) promptInput value in
  let n := length (requests w) in
  let w' := snd (handleGenerateClick env w) in
  requests w' =
    (requests w ++
     [generateContent c "gemini-2.5-flash" (Parts (analysisPrompt text) img)
        false;
      generateImages c "imagen-3.0-generate-002" richer 1 "image/jpeg" "16:9"])
    %list
  /\ forall imageData rest,
       images_reply env (S n) = Fulfilled (imageData :: rest) ->
       fst (handleGenerateClick env w) = Normal tt
       /\ status w' = "Image generated successfully."
       /\ attr (dom w') imageOutput src = "data:image/jpeg;base64," +:+ imageData
       /\ history (vars w') =
          unshift_capped
            {| id := "history-" +:+
                     Js.of_number (now w + Z.of_N (latency env n)
                                   + Z.of_N (latency env (S n)));
               type := image;
               dataUrl := "data:image/jpeg;base64," +:+ imageData;
               prompt := text |}
            (history (vars w)).
Proof.
  intros Hbusy Hprompt Hai Hmode Hup Hreply. cbv zeta.
  rewrite (handleGenerateClick_started env w Hbusy Hprompt)
    by (rewrite Hai; discriminate).
  to_ensures (try_catch (generate env) generationFailed) (startGenerating w).
  unfold videoMode in Hmode.
  unfold generate. evaluate. unfold generateImage. evaluate.
  rewrite Hreply. evaluate.
  cbn [length]. rewrite Nat.add_1_r.
  destruct (images_reply env (S (length (requests w))))
    as [[| imageData rest] | e]; evaluate.
  - unfold generationFailed. cbv zeta. evaluate.
    destruct (ErrorType_eqb _ VIDEO_DAILY_LIMIT); evaluate;
      (split; [page_simpl; rewrite <- ?app_assoc; reflexivity
              | intros ? ? [=]]).
  - split; [page_simpl; rewrite <- ?app_assoc; reflexivity |].
    intros ? ? [= <- <-].
    conjuncts; page_read; rewrite ?Hmode, ?Hai, ?andb_false_r;
      reflexivity.
  - unfold generationFailed. cbv zeta. evaluate.
    destruct (ErrorType_eqb _ VIDEO_DAILY_LIMIT); evaluate;
      (split; [page_simpl; rewrite <- ?app_assoc; reflexivity
              | intros ? ? [=]]).
Qed.

Lemma described_attachment_enriches_request_witness :
  let w := Sample.ready_with_cat in
  let w' := snd (handleGenerateClick Sample.slow_video w) in
  (exists describe,
     requests w' =
       (requests w ++
        [describe;
         generateImages {| client_apiKey := "AIza-key" |}
           "imagen-3.0-generate-002" "A richer prompt" 1 "image/jpeg" "16:9"])
       %list)
  /\ (exists item,
        history (vars w') = [item] /\ prompt item = Sample.astronaut).
Proof.
  destruct (described_attachment_enriches_request Sample.slow_video
              {| client_apiKey := "AIza-key" |} Sample.cat "A richer prompt"
              Sample.ready_with_cat)
    as [Hrequests Hsuccess].
  - vm_compute. reflexivity.
  - vm_compute. discriminate.
  - vm_compute. reflexivity.
  - vm_compute. reflexivity.
  - vm_compute. reflexivity.
  - vm_compute. reflexivity.
  - split; [eexists; exact Hrequests |].
    destruct (Hsuccess "QUJD" [] eq_refl) as (_ & _ & _ & Hhistory).
    eexists. split; [exact Hhistory | reflexivity].
Defined.

(* ================================================================== *)
(** ** The page while a generation runs *)

(** X19. While a generation runs, that is on the page as
    [handleGenerateClick] leaves it before its first request, the generate
    button reads Generating..., the outputs of the last run are hidden, and
    the controls that [updateUIState] disables are dead: a click on
    generate or on refresh, an edit of the prompt and a change of mode all
    leave the page as it is, and a second call of the handler returns at
    once. *)
Theorem busy_page_ignores_controls (env : Remote) (w : World) :
  ai (vars w) <> None ->
  let busy := startGenerating w in
  isGenerating (vars busy) = true
  /\ attr (dom busy) generateButton textContent = "Generating..."
  /\ attr (dom busy) imageOutput display = "none"
  /\ attr (dom busy) videoPlayer display = "none"
  /\ attr (dom busy) downloadButton display = "none"
  /\ status busy = ""
  /\ handleGenerateClick env busy = (Normal tt, busy)
  /\ dispatch env ClickGenerate busy = busy
  /\ dispatch env ClickRefresh busy = busy
  /\ (forall text, dispatch env (EditPrompt text) busy = busy)
  /\ (forall mode, dispatch env (ChooseMode mode) busy = busy).
Proof.
  intros Hai. cbv zeta.
  assert (Hclient : has_ai w = true) by (apply has_ai_true, Hai).
  unfold has_ai in Hclient.
  assert (Hbusy : isGenerating (vars (startGenerating w)) = true)
    by (page_simpl; reflexivity).
  assert (Hflag : forall e,
    (e = generateButton \/ e = refreshButton \/ e = promptInput
     \/ e = imageModeRadio \/ e = videoModeRadio) ->
    flag (dom (startGenerating w)) e disabled = true).
  { intros e He.
    destruct He as [-> | [-> | [-> | [-> | ->]]]]; page_simpl; reflexivity. }
  split; [exact Hbusy |].
  split; [page_simpl; rewrite Hclient; reflexivity |].
  split; [page_simpl; reflexivity |].
  split; [page_simpl; reflexivity |].
  split; [page_simpl; reflexivity |].
  split; [page_simpl; reflexivity |].
  split; [unfold handleGenerateClick; rewrite Hbusy; reflexivity |].
  split; [cbn [dispatch]; rewrite Hflag by tauto; reflexivity |].
  split; [cbn [dispatch]; rewrite Hflag by tauto; reflexivity |].
  split.
  - intros text. cbn [dispatch]. rewrite Hflag by tauto. reflexivity.
  - intros mode. cbn [dispatch].
    destruct mode; cbn [is_video]; rewrite Hflag by tauto; reflexivity.
Qed.

Lemma busy_page_ignores_controls_witness :
  dispatch Sample.slow_video ClickGenerate (startGenerating Sample.ready)
  = startGenerating Sample.ready.
Proof.
  destruct (busy_page_ignores_controls Sample.slow_video Sample.ready)
    as (_ & _ & _ & _ & _ & _ & _ & Hclick & _).
  - vm_compute. discriminate.
  - exact Hclick.
Defined.
